(** * Book catalog variants and the delivery simulation: a shallow embedding

    The repository holds several single-file Flask applications (a book
    catalog with Books, Genres and Authors behind an HTML interface and a
    JSON API) and one in-process simulation of signed messages between
    services.  This development embeds the request handlers and helpers the
    properties below are about, one module per source file:

    - [Original]  : book_catalog_original.py
    - [Secure2]   : CHATGPT_book_catalog_secure_code_2.py
    - [Remove3]   : remove_3.py
    - [Secure3]   : CHATGPT_book_catalog_secure_code_3.py
    - [Secure4]   : CHATGPT_book_catalog_secure_code_4.py
    - [Micro]     : Mansour_Microservcies_1.py

    Modelling conventions.
    - A Python [str] is a [string]: a sequence of code points below 256.  On
      these, the regular expression class \d is exactly the characters 0-9;
      [str.isdigit] also holds of the three superscript digits.
    - Python integers are [Z].  [int] refuses a literal of more than 4300
      digits, as the interpreter does; [str] is only applied to integers
      below that size.
    - A raised exception that a handler catches is a [None]; one it does not
      catch ends the request with status 500.
    - The body of a JSON request is what [request.get_json()] makes of it: an
      object, an array, a scalar, or no JSON at all.  Where a handler only
      converts and tests the values (secure_code_2) an object is a finite
      map to JSON scalars; where it uses them at fixed types (the original)
      it is a record of optional fields at those types.
    - A table is the list of its rows, and the ids of rows and of routes
      are integers SQLite holds.  Queries follow the SQL the ORM emits
      (filter, ORDER BY, LIMIT/OFFSET with SQLite's reading of negative
      values); a LIMIT or OFFSET outside the signed 64-bit range cannot be
      bound to the statement, and the query raises.
    - A handler is a function from the store and the request to a response
      and the store after the request. *)

From Stdlib Require Import ZArith NArith List String Ascii Bool Lia.
From Stdlib Require Import Sorted Permutation DecimalString.
From stdpp Require Import gmap strings.

Import ListNotations.
Local Open Scope string_scope.
Local Open Scope list_scope.
Local Open Scope Z_scope.

(** ** Python built-ins used by the handlers *)

Module Py.

Definition is_digit (c : ascii) : bool :=
  ((48 <=? N_of_ascii c) && (N_of_ascii c <=? 57))%N.

(** [str.isspace] on code points below 256. *)
Definition is_space (c : ascii) : bool :=
  let n := N_of_ascii c in
  (((9 <=? n) && (n <=? 13)) || ((28 <=? n) && (n <=? 32))
   || (n =? 133) || (n =? 160))%N.

Fixpoint lstrip (s : string) : string :=
  match s with
  | String c s' => if is_space c then lstrip s' else s
  | EmptyString => EmptyString
  end.

Fixpoint rstrip (s : string) : string :=
  match s with
  | EmptyString => EmptyString
  | String c s' =>
      match rstrip s' with
      | EmptyString => if is_space c then EmptyString else String c EmptyString
      | r => String c r
      end
  end.

(** [s.strip()] *)
Definition strip (s : string) : string := rstrip (lstrip s).

(** [s[i:j]] for literal bounds [0 <= i <= j]; [s[:j]] is [slice 0 j]. *)
Definition slice (i j : nat) (s : string) : string := substring i (j - i) s.

(** [not s] for a string. *)
Definition falsy (s : string) : bool :=
  match s with EmptyString => true | _ => false end.

Definition digit_val (c : ascii) : Z := Z.of_N (N_of_ascii c) - 48.

(** [str.isdigit] of one character: the decimal digits and the superscripts
    two, three and one. *)
Definition isdigit (c : ascii) : bool :=
  let n := N_of_ascii c in
  (is_digit c || (n =? 178) || (n =? 179) || (n =? 185))%N.

(** The white space [int] skips around a literal: that of C, and the two
    characters above 127 that Unicode counts as spaces.  The separators
    0x1c-0x1f, which [str.strip] removes, are not among them. *)
Definition is_int_space (c : ascii) : bool :=
  let n := N_of_ascii c in
  (((9 <=? n) && (n <=? 13)) || (n =? 32) || (n =? 133) || (n =? 160))%N.

Fixpoint int_lstrip (s : string) : string :=
  match s with
  | String c s' => if is_int_space c then int_lstrip s' else s
  | EmptyString => EmptyString
  end.

Fixpoint int_rstrip (s : string) : string :=
  match s with
  | EmptyString => EmptyString
  | String c s' =>
      match int_rstrip s' with
      | EmptyString => if is_int_space c then EmptyString else String c EmptyString
      | r => String c r
      end
  end.

Inductive int_state := AtStart | AfterDigit | AfterUnderscore.

(** The digits of an integer literal: decimal digits, single underscores
    allowed between two digits. *)
Fixpoint int_digits (st : int_state) (acc : Z) (s : string) : option Z :=
  match s with
  | EmptyString => match st with AfterDigit => Some acc | _ => None end
  | String c s' =>
      if is_digit c then int_digits AfterDigit (10 * acc + digit_val c) s'
      else if Ascii.eqb c "_" then
        match st with
        | AfterDigit => int_digits AfterUnderscore acc s'
        | _ => None
        end
      else None
  end.

(** [sys.get_int_max_str_digits()], as the interpreter starts with. *)
Definition int_max_str_digits : Z := 4300.

Definition count_digits (s : string) : Z :=
  Z.of_nat (length (List.filter is_digit (list_ascii_of_string s))).

(** The unsigned part of a literal: more digits than the interpreter
    converts are refused like a malformed literal. *)
Definition int_literal (s : string) : option Z :=
  if int_max_str_digits <? count_digits s then None
  else int_digits AtStart 0 s.

(** [int(s)] for a string [s]; [None] is [ValueError]. *)
Definition int (s : string) : option Z :=
  match int_rstrip (int_lstrip s) with
  | String "-" s' => option_map Z.opp (int_literal s')
  | String "+" s' => int_literal s'
  | s' => int_literal s'
  end.

(** [sub in s] for two strings. *)
Fixpoint contains (sub s : string) : bool :=
  String.prefix sub s
  || match s with
     | String _ s' => contains sub s'
     | EmptyString => false
     end.

(** [str(n)] for an integer. *)
Definition str_of_int (n : Z) : string :=
  NilZero.string_of_int (Z.to_int n).

(** Left padding with zeros, as the %02d and %04d conversions do for
    non-negative numbers. *)
Fixpoint zeros (n : nat) : string :=
  match n with O => EmptyString | S n' => String "0" (zeros n') end.

Definition zero_pad (width : nat) (n : Z) : string :=
  let s := str_of_int n in
  zeros (width - String.length s) +:+ s.

End Py.

(** ** Calendar dates: [datetime.date] *)

Module Date.

Record date := mkdate { year : Z; month : Z; day : Z }.

Definition MINYEAR : Z := 1.
Definition MAXYEAR : Z := 9999.

Definition is_leap (y : Z) : bool :=
  ((y mod 4 =? 0) && negb (y mod 100 =? 0)) || (y mod 400 =? 0).

Definition days_in_month (y m : Z) : Z :=
  if m =? 2 then (if is_leap y then 29 else 28)
  else if (m =? 4) || (m =? 6) || (m =? 9) || (m =? 11) then 30
  else 31.

(** [date(y, m, d)]; [None] is the [ValueError] of an impossible date. *)
Definition make (y m d : Z) : option date :=
  if (MINYEAR <=? y) && (y <=? MAXYEAR) && (1 <=? m) && (m <=? 12)
     && (1 <=? d) && (d <=? days_in_month y m)
  then Some (mkdate y m d) else None.

(** Chronological order, as the comparison of two DATE columns. *)
Definition leb (a b : date) : bool :=
  (year a <? year b)
  || ((year a =? year b)
      && ((month a <? month b)
          || ((month a =? month b) && (day a <=? day b)))).

(** [d.isoformat()]: YYYY-MM-DD, the year in four digits. *)
Definition isoformat (d : date) : string :=
  Py.zero_pad 4 (year d) +:+ "-" +:+ Py.zero_pad 2 (month d) +:+ "-"
  +:+ Py.zero_pad 2 (day d).

(** [d.strftime("%Y-%m-%d")].  The year is written by the C library: that
    of Linux does not pad it (999 for the year 999), others write four
    digits; they agree from the year 1000 on. *)
Definition strftime_Y_m_d (d : date) : string :=
  Py.str_of_int (year d) +:+ "-" +:+ Py.zero_pad 2 (month d) +:+ "-"
  +:+ Py.zero_pad 2 (day d).

End Date.

Import Date.

(** ** Regular expressions of the date helpers *)

Module Regex.

(** [count] digits at the start of [s]; the rest of [s] when they are there. *)
Fixpoint digits (count : nat) (s : string) : option string :=
  match count with
  | O => Some s
  | S k =>
      match s with
      | String c s' => if Py.is_digit c then digits k s' else None
      | EmptyString => None
      end
  end.

(** Where [$] matches: at the end of the string, and just before a newline
    that is the last character. *)
Definition at_dollar (rest : string) : bool :=
  match rest with
  | EmptyString => true
  | String "010" EmptyString => true
  | _ => false
  end.

(** [re.compile(r"^\d{8}$").match(s)] as a truth value. *)
Definition match_8_digits (s : string) : bool :=
  match digits 8 s with
  | Some rest => at_dollar rest
  | None => false
  end.

End Regex.

(** ** [datetime.strptime] for the two formats the helpers use

    [strptime] turns the format into a regular expression, one group of
    ordered alternatives per directive, matches it at the start of the
    string with backtracking, refuses unconverted trailing data, and builds
    the date from the groups. *)

Module Strptime.

Inductive cclass :=
| Digit
| Range (lo hi : ascii)
| Char (c : ascii).

Definition cclass_match (k : cclass) (c : ascii) : bool :=
  match k with
  | Digit => Py.is_digit c
  | Range lo hi => ((N_of_ascii lo <=? N_of_ascii c) && (N_of_ascii c <=? N_of_ascii hi))%N
  | Char x => Ascii.eqb x c
  end.

(** A sequence of one-character classes against the start of [s]: the text
    matched and what follows it. *)
Fixpoint match_seq (p : list cclass) (s : string) : option (string * string) :=
  match p with
  | [] => Some (EmptyString, s)
  | k :: p' =>
      match s with
      | String c s' =>
          if cclass_match k c then
            match match_seq p' s' with
            | Some (m, r) => Some (String c m, r)
            | None => None
            end
          else None
      | EmptyString => None
      end
  end.

Definition directive := list (list cclass).

(** %Y : \d\d\d\d *)
Definition dir_Y : directive := [[Digit; Digit; Digit; Digit]].
(** %m : 1[0-2]|0[1-9]|[1-9] *)
Definition dir_m : directive :=
  [[Char "1"; Range "0" "2"]; [Char "0"; Range "1" "9"]; [Range "1" "9"]].
(** %d : 3[0-1]|[1-2]\d|0[1-9]|[1-9]| [1-9] *)
Definition dir_d : directive :=
  [[Char "3"; Range "0" "1"]; [Range "1" "2"; Digit]; [Char "0"; Range "1" "9"];
   [Range "1" "9"]; [Char " "; Range "1" "9"]].
Definition dir_lit (c : ascii) : directive := [[Char c]].

(** The groups in order, first alternative first, backtracking into the
    next alternative when the rest of the pattern fails. *)
Fixpoint match_directives (ds : list directive) (s : string)
  : option (list string * string) :=
  match ds with
  | [] => Some ([], s)
  | d :: ds' =>
      (fix try (alts : list (list cclass)) : option (list string * string) :=
         match alts with
         | [] => None
         | a :: alts' =>
             match match_seq a s with
             | Some (m, r) =>
                 match match_directives ds' r with
                 | Some (ms, r') => Some (m :: ms, r')
                 | None => try alts'
                 end
             | None => try alts'
             end
         end) d
  end.

Definition date_of_groups (y m d : string) : option date :=
  match Py.int y, Py.int m, Py.int d with
  | Some yy, Some mm, Some dd => Date.make yy mm dd
  | _, _, _ => None
  end.

(** [datetime.strptime(s, "%Y%m%d").date()] *)
Definition Ymd (s : string) : option date :=
  match match_directives [dir_Y; dir_m; dir_d] s with
  | Some ([y; m; d], EmptyString) => date_of_groups y m d
  | _ => None
  end.

(** [datetime.strptime(s, "%Y-%m-%d").date()] *)
Definition Y_m_d (s : string) : option date :=
  match match_directives [dir_Y; dir_lit "-"; dir_m; dir_lit "-"; dir_d] s with
  | Some ([y; _; m; _; d], EmptyString) => date_of_groups y m d
  | _ => None
  end.

End Strptime.

(** ** JSON values, requests and responses *)

(** [x is not None], and the truth value of an ORM row or a date. *)
Definition is_some {A : Type} (o : option A) : bool :=
  match o with Some _ => true | None => false end.

(** A value of a field of a JSON request body.  Numbers with a fraction,
    arrays and nested objects are left out. *)
Inductive json :=
| JNull
| JBool (b : bool)
| JInt (n : Z)
| JStr (s : string).

Module Json.

(** Truth value of the Python object the JSON value is loaded as. *)
Definition truthy (v : json) : bool :=
  match v with
  | JNull => false
  | JBool b => b
  | JInt n => negb (n =? 0)
  | JStr s => negb (Py.falsy s)
  end.

(** [str(v)] *)
Definition str (v : json) : string :=
  match v with
  | JNull => "None"
  | JBool true => "True"
  | JBool false => "False"
  | JInt n => Py.str_of_int n
  | JStr s => s
  end.

End Json.

(** A value of a JSON response, and a response object with its keys in
    the order [to_dict] lists them. *)
#[warnings="-register-all"]
Inductive jval :=
| VNull
| VInt (n : Z)
| VStr (s : string)
| VObj (fields : list (string * jval)).

Definition obj := list (string * jval).

Fixpoint obj_get (k : string) (o : obj) : option jval :=
  match o with
  | [] => None
  | (k', v) :: o' => if String.eqb k k' then Some v else obj_get k o'
  end.

Inductive body :=
| JsonList (items : list obj)         (* jsonify([...]) *)
| JsonObject (o : obj)                (* jsonify({...}) *)
| JsonMessage (m : string)            (* jsonify({"message": m}) *)
| JsonErrors (errors : list string)   (* jsonify({"message": {"error": [...]}}) *)
| EmptyBody                           (* '' *)
| ErrorPage                           (* the page of an HTTP exception *)
| ServerError.                        (* an exception no handler catches *)

Definition response : Type := body * Z.

(** [int(request.args.get(key, default))]; [None] is [ValueError]. *)
Definition arg_int (args : gmap string string) (key : string) (default : Z)
  : option Z :=
  match args !! key with
  | None => Some default
  | Some s => Py.int s
  end.

(** The [errors] dictionaries of the handlers: field name to messages, in
    insertion order.  [errors.setdefault(k, []).append(msg)] *)
Fixpoint add_error (k msg : string) (errors : list (string * list string))
  : list (string * list string) :=
  match errors with
  | [] => [(k, [msg])]
  | (k', msgs) :: rest =>
      if String.eqb k k' then (k', msgs ++ [msg]) :: rest
      else (k', msgs) :: add_error k msg rest
  end.

(** [", ".join(msgs)] *)
Fixpoint join_comma (msgs : list string) : string :=
  match msgs with
  | [] => EmptyString
  | [m] => m
  | m :: rest => m +:+ ", " +:+ join_comma rest
  end.

(** ** Tables and the queries the ORM emits *)

Module Sql.

Section Table.

Context {row : Type}.
Variable key : row -> Z.

(** [Model.query.get(id)] *)
Definition get (id : Z) (rows : list row) : option row :=
  List.find (fun r => key r =? id) rows.

(** [db.session.delete(r)] and commit: DELETE ... WHERE id = key r. *)
Definition remove (id : Z) (rows : list row) : list row :=
  List.filter (fun r => negb (key r =? id)) rows.

(** Commit of a modified row: UPDATE ... WHERE id = key r'. *)
Definition replace (r' : row) (rows : list row) : list row :=
  List.map (fun r => if key r =? key r' then r' else r) rows.

(** The key an INTEGER PRIMARY KEY column gives a new row: one more than
    the largest in use. *)
Definition next_id (rows : list row) : Z :=
  1 + fold_right Z.max 0 (List.map key rows).

Fixpoint insert_sorted (r : row) (rows : list row) : list row :=
  match rows with
  | [] => [r]
  | x :: rows' =>
      if key r <=? key x then r :: rows else x :: insert_sorted r rows'
  end.

(** ORDER BY key (ascending). *)
Definition order_by (rows : list row) : list row :=
  fold_right insert_sorted [] rows.

End Table.

(** An INTEGER of SQLite is a signed 64-bit value: asked to bind another
    Python integer to a statement, the driver raises [OverflowError]. *)
Definition is_int64 (n : Z) : bool :=
  (-9223372036854775808 <=? n) && (n <=? 9223372036854775807).

(** The rows after the first [n]: all of them when [n] is not positive. *)
Fixpoint skip {row : Type} (n : Z) (rows : list row) : list row :=
  match rows with
  | [] => []
  | r :: rows' => if 0 <? n then skip (n - 1) rows' else rows
  end.

(** The first [n] rows: none when [n] is not positive. *)
Fixpoint take {row : Type} (n : Z) (rows : list row) : list row :=
  match rows with
  | [] => []
  | r :: rows' => if 0 <? n then r :: take (n - 1) rows' else []
  end.

(** [q.offset(n)], run: OFFSET n, where a negative offset is no offset;
    [None] is the [OverflowError] of a value that cannot be bound. *)
Definition offset {row : Type} (n : Z) (rows : list row) : option (list row) :=
  if is_int64 n then Some (skip n rows) else None.

(** [q.limit(n)], run: LIMIT n, where a negative limit is no limit; [None]
    is the [OverflowError] of a value that cannot be bound. *)
Definition limit {row : Type} (n : Z) (rows : list row) : option (list row) :=
  if is_int64 n then Some (if n <? 0 then rows else take n rows) else None.

End Sql.

(** ** book_catalog_original.py *)

Module Original.

Module Genre.
Record t := mk { id : Z; name : string; description : option string }.
End Genre.

Module Author.
Record t := mk { id : Z; name : string; bio : option string }.
End Author.

Module Book.
Record t := mk {
  id : Z;
  title : string;
  author_id : Z;
  genre_id : Z;
  pub_date : date;
  description : option string
}.
End Book.

Record db := mkdb {
  books : list Book.t;
  genres : list Genre.t;
  authors : list Author.t
}.

Definition opt_str (s : option string) : jval :=
  match s with Some x => VStr x | None => VNull end.

Definition genre_to_dict (g : Genre.t) : obj :=
  [("id", VInt (Genre.id g)); ("name", VStr (Genre.name g));
   ("description", opt_str (Genre.description g))].

Definition author_to_dict (a : Author.t) : obj :=
  [("id", VInt (Author.id a)); ("name", VStr (Author.name a));
   ("bio", opt_str (Author.bio a))].

(** [Book.to_dict]; [self.author] and [self.genre] are the rows the foreign
    keys name. *)
Definition book_to_dict (d : db) (b : Book.t) : obj :=
  [("id", VInt (Book.id b));
   ("title", VStr (Book.title b));
   ("author", match Sql.get Author.id (Book.author_id b) (authors d) with
              | Some a => VObj (author_to_dict a)
              | None => VNull
              end);
   ("genre", match Sql.get Genre.id (Book.genre_id b) (genres d) with
             | Some g => VObj (genre_to_dict g)
             | None => VNull
             end);
   ("publication_date", VStr (Date.strftime_Y_m_d (Book.pub_date b)));
   ("description", opt_str (Book.description b))].

(** [parse_html_date]: expects YYYY-MM-DD. *)
Definition parse_html_date (s : option string) : option date :=
  match s with
  | None => None
  | Some s => if Py.falsy s then None else Strptime.Y_m_d s
  end.

(** [parse_api_date]: expects yyyymmdd. *)
Definition parse_api_date (s : option string) : option date :=
  match s with
  | None => None
  | Some s =>
      if Py.falsy s then None
      else if negb (Regex.match_8_digits s) then None
      else Strptime.Ymd s
  end.

(** The [try] block around the two [int] calls: one [ValueError] resets
    both values. *)
Definition limit_offset_args (args : gmap string string) (default_limit : Z)
  : Z * Z :=
  match arg_int args "limit" default_limit, arg_int args "offset" 0 with
  | Some limit, Some offset => (limit, offset)
  | _, _ => (default_limit, 0)
  end.

(** [paginate_query(q, default_limit=10)]: the items, and the limit and
    offset it ran the query with; [None] when the query raises. *)
Definition paginate_query {row : Type} (q : list row)
    (args : gmap string string) (default_limit : Z) : option (list row * Z * Z) :=
  let '(limit, offset) := limit_offset_args args default_limit in
  match Sql.offset offset q ≫= Sql.limit limit with
  | Some items => Some (items, limit, offset)
  | None => None
  end.

(** The two [q.filter] calls of [api_books]. *)
Definition date_filter (after before : option date) (b : Book.t) : bool :=
  match after with Some a => Date.leb a (Book.pub_date b) | None => true end
  && match before with Some c => Date.leb (Book.pub_date b) c | None => true end.

(** The filtered query, ordered: [q.order_by(Book.id)]. *)
Definition books_query (after before : option date) (d : db) : list Book.t :=
  Sql.order_by Book.id (List.filter (date_filter after before) (books d)).

(** [api_books], method GET. *)
Definition api_books_GET (d : db) (args : gmap string string) : response :=
  let after := parse_api_date (args !! "after_date") in
  let before := parse_api_date (args !! "before_date") in
  let '(limit, offset) := limit_offset_args args 10 in
  match Sql.offset offset (books_query after before d) ≫= Sql.limit limit with
  | Some items => (JsonList (List.map (book_to_dict d) items), 200)
  | None => (ServerError, 500)
  end.

(** The fields of the JSON body of a book update, at the types the handler
    expects; [None] is what [data.get] returns for a missing key. *)
Record book_update := mk_book_update {
  u_title : option string;
  u_author_id : option Z;
  u_genre_id : option Z;
  u_publication_date : option string;
  u_description : option string
}.

Definition first_date (a b : option date) : option date :=
  match a with Some _ => a | None => b end.

Definition append_if (c : bool) (msg : string) (errors : list string)
  : list string :=
  if c then errors ++ [msg] else errors.

Definition or_else {A : Type} (x : option A) (y : A) : A :=
  match x with Some v => v | None => y end.

(** [api_book], method GET. *)
Definition api_book_GET (d : db) (book_id : Z) : response :=
  match Sql.get Book.id book_id (books d) with
  | None => (JsonMessage "Book not found", 404)
  | Some b => (JsonObject (book_to_dict d b), 200)
  end.

(** [api_book], method DELETE. *)
Definition api_book_DELETE (d : db) (book_id : Z) : response * db :=
  match Sql.get Book.id book_id (books d) with
  | None => ((JsonMessage "Book not found", 404), d)
  | Some b =>
      ((EmptyBody, 204),
       mkdb (Sql.remove Book.id (Book.id b) (books d)) (genres d) (authors d))
  end.

(** [api_book], method PUT. *)
Definition api_book_PUT (d : db) (book_id : Z) (data : book_update)
  : response * db :=
  match Sql.get Book.id book_id (books d) with
  | None => ((JsonMessage "Book not found", 404), d)
  | Some b =>
      let title := u_title data in
      let author_id := u_author_id data in
      let genre_id := u_genre_id data in
      let pub := u_publication_date data in
      let pub_date := first_date (parse_api_date pub) (parse_html_date pub) in
      let description := u_description data in
      let errors := [] in
      let errors :=
        append_if (match title with
                   | Some t => Py.falsy (Py.strip t)
                   | None => false
                   end) "Title cannot be empty" errors in
      let errors :=
        append_if (match author_id with
                   | Some a => negb (is_some (Sql.get Author.id a (authors d)))
                   | None => false
                   end) "Valid author_id required" errors in
      let errors :=
        append_if (match genre_id with
                   | Some g => negb (is_some (Sql.get Genre.id g (genres d)))
                   | None => false
                   end) "Valid genre_id required" errors in
      let errors :=
        append_if (is_some pub && negb (is_some pub_date))
                  "publication_date must be yyyymmdd or YYYY-MM-DD" errors in
      match errors with
      | _ :: _ => ((JsonErrors errors, 400), d)
      | [] =>
          let b' :=
            Book.mk (Book.id b)
                    (or_else title (Book.title b))
                    (or_else author_id (Book.author_id b))
                    (or_else genre_id (Book.genre_id b))
                    (or_else pub_date (Book.pub_date b))
                    (match description with
                     | Some x => Some x
                     | None => Book.description b
                     end) in
          let d' := mkdb (Sql.replace Book.id b' (books d)) (genres d) (authors d) in
          ((JsonObject (book_to_dict d' b'), 200), d')
      end
  end.

(** The fields of the JSON body that creates a genre or an author; [None]
    is a missing key. *)
Record named_create := mk_named_create {
  c_name : option string;
  c_text : option string      (* "description" of a genre, "bio" of an author *)
}.

(** [api_genres], method POST. *)
Definition api_genres_POST (d : db) (data : named_create) : response * db :=
  let name := Py.strip (or_else (c_name data) EmptyString) in
  let desc := or_else (c_text data) EmptyString in
  if Py.falsy name then ((JsonMessage "Name required", 400), d)
  else if is_some (List.find (fun g => String.eqb (Genre.name g) name) (genres d))
  then ((JsonMessage "Genre already exists", 400), d)
  else
    let g := Genre.mk (Sql.next_id Genre.id (genres d)) name (Some desc) in
    ((JsonObject (genre_to_dict g), 201),
     mkdb (books d) (genres d ++ [g]) (authors d)).

(** [api_authors], method POST. *)
Definition api_authors_POST (d : db) (data : named_create) : response * db :=
  let name := Py.strip (or_else (c_name data) EmptyString) in
  let bio := or_else (c_text data) EmptyString in
  if Py.falsy name then ((JsonMessage "Name required", 400), d)
  else if is_some (List.find (fun a => String.eqb (Author.name a) name) (authors d))
  then ((JsonMessage "Author already exists", 400), d)
  else
    let a := Author.mk (Sql.next_id Author.id (authors d)) name (Some bio) in
    ((JsonObject (author_to_dict a), 201),
     mkdb (books d) (genres d) (authors d ++ [a])).

End Original.

(** ** CHATGPT_book_catalog_secure_code_2.py *)

(** What [request.get_json()] makes of the body of a request that is
    declared JSON.  The items of an array are scalars here: an item that is
    an array or an object is, like a number, never equal to a key. *)
Inductive parsed :=
| JObject (fields : gmap string json)   (* a dict *)
| JArray (items : list json)            (* a list *)
| JScalar (v : json)                    (* None, a bool, a number or a str *)
| NotJson.                              (* no JSON text: BadRequest is raised *)

(** A request: the query string, whether the body is declared JSON
    ([request.is_json]), and what [request.get_json()] makes of it. *)
Record request := mkreq {
  args : gmap string string;
  is_json : bool;
  get_json : parsed
}.

(** [k in payload] for a body that is no object: a list holds the key when
    one of its items is that text, a text when the key occurs in it; [None]
    is the [TypeError] of a value that is no container. *)
Definition key_in (k : string) (p : parsed) : option bool :=
  match p with
  | JObject fields => Some (bool_decide (is_Some (fields !! k)))
  | JArray items =>
      Some (existsb (fun v => match v with
                              | JStr s => String.eqb s k
                              | _ => false
                              end) items)
  | JScalar (JStr s) => Some (Py.contains k s)
  | JScalar _ | NotJson => None
  end.

(** A handler whose tests [k in payload] run over [keys], on a body that
    is no object: it goes on when every test is false; a test that is true
    is followed by [payload.get], which only an object has
    ([AttributeError]). *)
Definition no_key_in (keys : list string) (p : parsed) : bool :=
  forallb (fun k => match key_in k p with
                    | Some false => true
                    | _ => false
                    end) keys.

(** [s and ...] / [if s] for an optional query argument. *)
Definition raw_truthy (s : option string) : bool :=
  match s with Some x => negb (Py.falsy x) | None => false end.

(** [x or ''] for a nullable text column. *)
Definition text_or_empty (s : option string) : string :=
  match s with Some x => x | None => EmptyString end.

(** [not payload.get(k)] is the negation of this. *)
Definition payload_truthy (payload : gmap string json) (k : string) : bool :=
  match payload !! k with Some v => Json.truthy v | None => false end.

(** [str(payload.get(k))] *)
Definition payload_str (payload : gmap string json) (k : string) : string :=
  match payload !! k with Some v => Json.str v | None => "None" end.

(** [str(payload.get(k, ''))] *)
Definition payload_str_default (payload : gmap string json) (k : string)
  : string :=
  match payload !! k with Some v => Json.str v | None => EmptyString end.

(** [f"{k}: {', '.join(v)}" for k, v in errors.items()] *)
Definition format_errors (errors : list (string * list string)) : list string :=
  List.map (fun kv => fst kv +:+ ": " +:+ join_comma (snd kv)) errors.

Module Secure2.

Record Genre := mkGenre {
  Genre_ID : Z;
  Genre_Name : string;
  Genre_Description : option string
}.

Record Author := mkAuthor {
  Author_ID : Z;
  Author_Name : string;
  Author_Bio : option string
}.

Record Book := mkBook {
  Book_ID : Z;
  Book_Title : string;
  Book_Author : string;
  Book_Genre : string;
  Book_Publication : option string;
  Book_Publication_Date : option date;
  Book_Description : option string
}.

Record db := mkdb {
  books : list Book;
  genres : list Genre;
  authors : list Author
}.

Definition genre_to_dict (g : Genre) : obj :=
  [("Genre_ID", VInt (Genre_ID g)); ("Genre_Name", VStr (Genre_Name g));
   ("Genre_Description", VStr (text_or_empty (Genre_Description g)))].

Definition author_to_dict (a : Author) : obj :=
  [("Author_ID", VInt (Author_ID a)); ("Author_Name", VStr (Author_Name a));
   ("Author_Bio", VStr (text_or_empty (Author_Bio a)))].

(** [Book.to_dict] *)
Definition to_dict (b : Book) : obj :=
  [("Book_ID", VInt (Book_ID b));
   ("Book_Title", VStr (Book_Title b));
   ("Book_Author", VStr (Book_Author b));
   ("Book_Genre", VStr (Book_Genre b));
   ("Book_Publication", VStr (text_or_empty (Book_Publication b)));
   ("Book_Publication_Date",
    VStr (match Book_Publication_Date b with
          | Some d => Date.strftime_Y_m_d d
          | None => EmptyString
          end));
   ("Book_Description", VStr (text_or_empty (Book_Description b)))].

(** [parse_yyyymmdd]: "Parse yyyymmdd into date object; returns None if
    invalid." *)
Definition parse_yyyymmdd (s : string) : option date :=
  if Py.falsy s then None
  else if negb (Regex.match_8_digits s) then None
  else
    match Py.int (Py.slice 0 4 s), Py.int (Py.slice 4 6 s), Py.int (Py.slice 6 8 s) with
    | Some y, Some m, Some d => Date.make y m d
    | _, _, _ => None
    end.

(** [parse_yyyymmdd(raw) if raw else None] *)
Definition parse_raw (raw : option string) : option date :=
  match raw with
  | Some s => if Py.falsy s then None else parse_yyyymmdd s
  | None => None
  end.

(** [parse_yyyymmdd(s) or None], then the ISO form. *)
Definition parse_either (s : string) : option date :=
  match parse_yyyymmdd s with
  | Some d => Some d
  | None => Strptime.Y_m_d s
  end.

(** The two [q.filter] calls; a comparison with a NULL date selects
    nothing. *)
Definition date_filter (after before : option date) (b : Book) : bool :=
  match after with
  | Some a =>
      match Book_Publication_Date b with Some d => Date.leb a d | None => false end
  | None => true
  end
  && match before with
     | Some c =>
         match Book_Publication_Date b with Some d => Date.leb d c | None => false end
     | None => true
     end.

Definition books_query (after before : option date) (d : db) : list Book :=
  Sql.order_by Book_ID (List.filter (date_filter after before) (books d)).

(** [api_books], method GET. *)
Definition api_books_GET (d : db) (args : gmap string string) : response :=
  match arg_int args "limit" 10, arg_int args "offset" 0 with
  | Some limit, Some offset =>
      if (limit <? 0) || (offset <? 0)
      then (JsonMessage "limit and offset must be non-negative", 400)
      else
        let before_raw := args !! "before_date" in
        let after_raw := args !! "after_date" in
        let before_dt := parse_raw before_raw in
        let after_dt := parse_raw after_raw in
        if (raw_truthy before_raw && negb (is_some before_dt))
           || (raw_truthy after_raw && negb (is_some after_dt))
        then (JsonMessage "Invalid date format. Use yyyymmdd", 400)
        else
          match Sql.offset offset (books_query after_dt before_dt d)
                ≫= Sql.limit limit with
          | Some items => (JsonList (List.map to_dict items), 200)
          | None => (ServerError, 500)
          end
  | _, _ => (JsonMessage "limit and offset must be integers", 400)
  end.

(** The loop over the required fields. *)
Definition required_errors (payload : gmap string json)
  : list (string * list string) :=
  fold_left
    (fun errors r =>
       if negb (payload_truthy payload r)
       then add_error r "Field is required" errors else errors)
    ["Book_Title"; "Book_Author"; "Book_Genre"] [].

(** [api_books], method POST.  On a body that is no object the first
    [payload.get] raises [AttributeError]. *)
Definition api_books_POST (d : db) (rq : request) : response * db :=
  if negb (is_json rq) then ((JsonMessage "Request body must be JSON", 400), d)
  else
    match get_json rq with
    | NotJson => ((ErrorPage, 400), d)
    | JArray _ | JScalar _ => ((ServerError, 500), d)
    | JObject payload =>
        let errors := required_errors payload in
        let '(pub_date, errors) :=
          if payload_truthy payload "Book_Publication_Date" then
            let s := payload_str payload "Book_Publication_Date" in
            match parse_either s with
            | None =>
                (None,
                 add_error "Book_Publication_Date"
                   "Invalid date (expected yyyymmdd or YYYY-MM-DD)" errors)
            | Some dt => (Some dt, errors)
            end
          else (None, errors) in
        match errors with
        | _ :: _ => ((JsonErrors (format_errors errors), 400), d)
        | [] =>
            let b :=
              mkBook (Sql.next_id Book_ID (books d))
                (Py.slice 0 300 (Py.strip (payload_str payload "Book_Title")))
                (Py.slice 0 120 (Py.strip (payload_str payload "Book_Author")))
                (Py.slice 0 120 (Py.strip (payload_str payload "Book_Genre")))
                (Some (Py.slice 0 200 (payload_str_default payload "Book_Publication")))
                pub_date
                (Some (Py.slice 0 2000
                         (payload_str_default payload "Book_Description"))) in
            ((JsonObject (to_dict b), 201),
             mkdb (books d ++ [b]) (genres d) (authors d))
        end
    end.

(** [api_book_item], method GET. *)
Definition api_book_item_GET (d : db) (book_id : Z) : response :=
  match Sql.get Book_ID book_id (books d) with
  | None => (JsonMessage "Book not found", 404)
  | Some b => (JsonObject (to_dict b), 200)
  end.

Definition set_Book_Title (v : string) (b : Book) : Book :=
  mkBook (Book_ID b) v (Book_Author b) (Book_Genre b) (Book_Publication b)
         (Book_Publication_Date b) (Book_Description b).
Definition set_Book_Author (v : string) (b : Book) : Book :=
  mkBook (Book_ID b) (Book_Title b) v (Book_Genre b) (Book_Publication b)
         (Book_Publication_Date b) (Book_Description b).
Definition set_Book_Genre (v : string) (b : Book) : Book :=
  mkBook (Book_ID b) (Book_Title b) (Book_Author b) v (Book_Publication b)
         (Book_Publication_Date b) (Book_Description b).
Definition set_Book_Publication (v : option string) (b : Book) : Book :=
  mkBook (Book_ID b) (Book_Title b) (Book_Author b) (Book_Genre b) v
         (Book_Publication_Date b) (Book_Description b).
Definition set_Book_Publication_Date (v : option date) (b : Book) : Book :=
  mkBook (Book_ID b) (Book_Title b) (Book_Author b) (Book_Genre b)
         (Book_Publication b) v (Book_Description b).
Definition set_Book_Description (v : option string) (b : Book) : Book :=
  mkBook (Book_ID b) (Book_Title b) (Book_Author b) (Book_Genre b)
         (Book_Publication b) (Book_Publication_Date b) v.

(** The book being edited and the errors gathered so far. *)
Definition edit : Type := Book * list (string * list string).

(** [if k in payload: if not payload.get(k): error else: b.k = str(...)[:n]] *)
Definition put_required (payload : gmap string json) (k : string) (n : nat)
    (set : string -> Book -> Book) (e : edit) : edit :=
  match payload !! k with
  | None => e
  | Some v =>
      if negb (Json.truthy v) then (fst e, add_error k "Cannot be empty" (snd e))
      else (set (Py.slice 0 n (Json.str v)) (fst e), snd e)
  end.

(** [if k in payload: b.k = str(payload.get(k, ''))[:n]] *)
Definition put_text (payload : gmap string json) (k : string) (n : nat)
    (set : option string -> Book -> Book) (e : edit) : edit :=
  match payload !! k with
  | None => e
  | Some v => (set (Some (Py.slice 0 n (Json.str v))) (fst e), snd e)
  end.

Definition put_date (payload : gmap string json) (e : edit) : edit :=
  match payload !! "Book_Publication_Date" with
  | None => e
  | Some v =>
      let s := Json.str v in
      let dt := parse_either s in
      if negb (is_some dt) && negb (Py.falsy s)
      then (fst e, add_error "Book_Publication_Date" "Invalid date format" (snd e))
      else (set_Book_Publication_Date dt (fst e), snd e)
  end.

(** The field updates of PUT, in the order of the source. *)
Definition put_fields (payload : gmap string json) (b : Book) : edit :=
  put_date payload
    (put_text payload "Book_Description" 2000 set_Book_Description
      (put_text payload "Book_Publication" 200 set_Book_Publication
        (put_required payload "Book_Genre" 120 set_Book_Genre
          (put_required payload "Book_Author" 120 set_Book_Author
            (put_required payload "Book_Title" 300 set_Book_Title (b, [])))))).

(** The keys [api_book_item] tests with [in], in the order of the source. *)
Definition put_keys : list string :=
  ["Book_Title"; "Book_Author"; "Book_Genre"; "Book_Publication";
   "Book_Description"; "Book_Publication_Date"].

(** [api_book_item], method PUT.  Without a commit the edits are dropped
    with the session.  A body that is no object and holds none of the keys
    changes nothing and is answered with the book as it is. *)
Definition api_book_item_PUT (d : db) (book_id : Z) (rq : request)
  : response * db :=
  match Sql.get Book_ID book_id (books d) with
  | None => ((JsonMessage "Book not found", 404), d)
  | Some b =>
      if negb (is_json rq) then ((JsonMessage "Request body must be JSON", 400), d)
      else
        match get_json rq with
        | NotJson => ((ErrorPage, 400), d)
        | JObject payload =>
            match put_fields payload b with
            | (_, (_ :: _) as errors) =>
                ((JsonErrors (format_errors errors), 400), d)
            | (b', []) =>
                ((JsonObject (to_dict b'), 200),
                 mkdb (Sql.replace Book_ID b' (books d)) (genres d) (authors d))
            end
        | other =>
            if no_key_in put_keys other then ((JsonObject (to_dict b), 200), d)
            else ((ServerError, 500), d)
        end
  end.

(** [api_book_item], method DELETE. *)
Definition api_book_item_DELETE (d : db) (book_id : Z) : response * db :=
  match Sql.get Book_ID book_id (books d) with
  | None => ((JsonMessage "Book not found", 404), d)
  | Some b =>
      ((JsonObject [], 204),
       mkdb (Sql.remove Book_ID (Book_ID b) (books d)) (genres d) (authors d))
  end.

(** [api_genre_item], method DELETE. *)
Definition api_genre_item_DELETE (d : db) (genre_id : Z) : response * db :=
  match Sql.get Genre_ID genre_id (genres d) with
  | None => ((JsonMessage "Genre not found", 404), d)
  | Some g =>
      ((JsonObject [], 204),
       mkdb (books d) (Sql.remove Genre_ID (Genre_ID g) (genres d)) (authors d))
  end.

(** [api_author_item], method DELETE. *)
Definition api_author_item_DELETE (d : db) (author_id : Z) : response * db :=
  match Sql.get Author_ID author_id (authors d) with
  | None => ((JsonMessage "Author not found", 404), d)
  | Some a =>
      ((JsonObject [], 204),
       mkdb (books d) (genres d) (Sql.remove Author_ID (Author_ID a) (authors d)))
  end.

(** [payload.get(k, '').strip()]; [None] is the [AttributeError] of a value
    that is not a string. *)
Definition payload_strip (payload : gmap string json) (k : string)
  : option string :=
  match payload !! k with
  | None => Some EmptyString
  | Some (JStr s) => Some (Py.strip s)
  | Some _ => None
  end.

(** [payload.get(k, '').strip() if payload.get(k) else ''] *)
Definition payload_strip_if (payload : gmap string json) (k : string)
  : option string :=
  if payload_truthy payload k then payload_strip payload k else Some EmptyString.

(** The unique constraint on the name column: what makes the commit of a
    new row raise [IntegrityError]. *)
Definition name_taken {row : Type} (name_of : row -> string) (name : string)
    (rows : list row) : bool :=
  existsb (fun r => String.eqb (name_of r) name) rows.

(** [api_genres], method POST. *)
Definition api_genres_POST (d : db) (rq : request) : response * db :=
  if negb (is_json rq) then ((JsonMessage "Request must be JSON", 400), d)
  else
    match get_json rq with
    | NotJson => ((ErrorPage, 400), d)
    | JArray _ | JScalar _ => ((ServerError, 500), d)
    | JObject payload =>
        match payload_strip payload "Genre_Name" with
        | None => ((ServerError, 500), d)
        | Some name =>
            match payload_strip_if payload "Genre_Description" with
            | None => ((ServerError, 500), d)
            | Some desc =>
                if Py.falsy name then ((JsonMessage "Genre_Name is required", 400), d)
                else
                  let g := mkGenre (Sql.next_id Genre_ID (genres d))
                                   (Py.slice 0 120 name) (Some (Py.slice 0 500 desc)) in
                  if name_taken Genre_Name (Genre_Name g) (genres d)
                  then ((JsonMessage "Genre with this name already exists", 409), d)
                  else ((JsonObject (genre_to_dict g), 201),
                        mkdb (books d) (genres d ++ [g]) (authors d))
            end
        end
    end.

(** [api_authors], method POST. *)
Definition api_authors_POST (d : db) (rq : request) : response * db :=
  if negb (is_json rq) then ((JsonMessage "Request must be JSON", 400), d)
  else
    match get_json rq with
    | NotJson => ((ErrorPage, 400), d)
    | JArray _ | JScalar _ => ((ServerError, 500), d)
    | JObject payload =>
        match payload_strip payload "Author_Name" with
        | None => ((ServerError, 500), d)
        | Some name =>
            match payload_strip_if payload "Author_Bio" with
            | None => ((ServerError, 500), d)
            | Some bio =>
                if Py.falsy name then ((JsonMessage "Author_Name is required", 400), d)
                else
                  let a := mkAuthor (Sql.next_id Author_ID (authors d))
                                    (Py.slice 0 120 name) (Some (Py.slice 0 2000 bio)) in
                  if name_taken Author_Name (Author_Name a) (authors d)
                  then ((JsonMessage "Author with this name already exists", 409), d)
                  else ((JsonObject (author_to_dict a), 201),
                        mkdb (books d) (genres d) (authors d ++ [a]))
            end
        end
    end.

End Secure2.

(** ** remove_3.py *)

Module Remove3.

Record Book := mkBook {
  Book_ID : Z;
  Book_Title : string;
  Book_Author : string;
  Book_Genre : string;
  Book_Publication : option string;
  Book_Publication_Date : option date;
  Book_Description : option string
}.

(** [Book.to_dict] *)
Definition to_dict (b : Book) : obj :=
  [("Book_ID", VInt (Book_ID b));
   ("Book_Title", VStr (Book_Title b));
   ("Book_Author", VStr (Book_Author b));
   ("Book_Genre", VStr (Book_Genre b));
   ("Book_Publication", VStr (text_or_empty (Book_Publication b)));
   ("Book_Publication_Date",
    match Book_Publication_Date b with
    | Some d => VStr (Date.isoformat d)
    | None => VNull
    end);
   ("Book_Description", VStr (text_or_empty (Book_Description b)))].

Definition date_filter (after before : option date) (b : Book) : bool :=
  match after with
  | Some a =>
      match Book_Publication_Date b with Some d => Date.leb a d | None => false end
  | None => true
  end
  && match before with
     | Some c =>
         match Book_Publication_Date b with Some d => Date.leb d c | None => false end
     | None => true
     end.

Definition books_query (after before : option date) (books : list Book)
  : list Book :=
  Sql.order_by Book_ID (List.filter (date_filter after before) books).

(** [a or b] on two optional query arguments. *)
Definition or_arg (a b : option string) : option string :=
  if raw_truthy a then a else b.

(** [request.args.get(key, type=int)]: [None] when the key is missing or
    the conversion raises. *)
Definition arg_typed_int (args : gmap string string) (key : string) : option Z :=
  match args !! key with
  | Some s => Py.int s
  | None => None
  end.

Section Dateutil.

(** [dateutil.parser.parse(value).date()]; [None] when it raises. *)
Variable date_parser_parse : string -> option date.

Definition invalid_date_message (value : string) : string :=
  "Invalid date format '" +:+ value
  +:+ "'. Expected 'yyyymmdd' (e.g. 20220131) or ISO format.".

(** [parse_yyyymmdd]: "Return (date_obj, None) on success or (None,
    error_msg) on failure." *)
Definition parse_yyyymmdd (value : option string)
  : option date * option string :=
  match value with
  | None => (None, None)
  | Some v =>
      if Py.falsy v then (None, None)
      else
        let parsed :=
          if (String.length v =? 8)%nat
             && forallb Py.isdigit (list_ascii_of_string v)
          then Strptime.Ymd v
          else date_parser_parse v in
        match parsed with
        | Some dt => (Some dt, None)
        | None => (None, Some (invalid_date_message v))
        end
  end.

(** [api_books], method GET. *)
Definition api_books_GET (books : list Book) (args : gmap string string)
  : response :=
  let before_raw := or_arg (args !! "before_date") (args !! "before") in
  let after_raw := or_arg (args !! "after_date") (args !! "after") in
  let limit_raw := arg_typed_int args "limit" in
  let offset_raw :=
    match arg_typed_int args "offset" with Some o => o | None => 0 end in
  let '(before_date, err_b) :=
    if raw_truthy before_raw then parse_yyyymmdd before_raw else (None, None) in
  let '(after_date, err_a) :=
    if raw_truthy after_raw then parse_yyyymmdd after_raw else (None, None) in
  match err_a, err_b with
  | Some e, _ => (JsonMessage e, 400)
  | None, Some e => (JsonMessage e, 400)
  | None, None =>
      let q := books_query after_date before_date books in
      let limit := match limit_raw with
                   | Some l => if 0 <? l then Some l else None
                   | None => None
                   end in
      let q := if 0 <? offset_raw then Sql.offset offset_raw q else Some q in
      let q := match limit with Some l => q ≫= Sql.limit l | None => q end in
      match q with
      | Some rows => (JsonList (List.map to_dict rows), 200)
      | None => (ServerError, 500)
      end
  end.

End Dateutil.

End Remove3.

(** ** CHATGPT_book_catalog_secure_code_3.py *)

Module Secure3.

Definition DEFAULT_PAGE_SIZE : Z := 10.
Definition MAX_PAGE_SIZE : Z := 100.

(** The limit and offset [api_books_collection] computes before it runs the
    query; [None] when an [int] call raises, which ends the request. *)
Definition pagination (args : gmap string string) : option (Z * Z) :=
  match arg_int args "limit" DEFAULT_PAGE_SIZE with
  | None => None
  | Some l =>
      let limit := Z.min l MAX_PAGE_SIZE in
      match arg_int args "offset" 0 with
      | None => None
      | Some o => Some (limit, Z.max o 0)
      end
  end.

End Secure3.

(** ** CHATGPT_book_catalog_secure_code_4.py *)

Module Secure4.

Definition DEFAULT_LIMIT : Z := 10.
Definition MAX_LIMIT : Z := 100.

(** [clamp_limit] *)
Definition clamp_limit (limit : option string) : Z :=
  match limit with
  | None => DEFAULT_LIMIT
  | Some s =>
      match Py.int s with
      | None => DEFAULT_LIMIT
      | Some l => if l <? 1 then DEFAULT_LIMIT else Z.min l MAX_LIMIT
      end
  end.

(** [api_pagination_params] *)
Definition api_pagination_params (args : gmap string string) : Z * Z :=
  let limit := clamp_limit (args !! "limit") in
  let offset :=
    match arg_int args "offset" 0 with
    | Some o => if o <? 0 then 0 else o
    | None => 0
    end in
  (limit, offset).

Section Dateutil.

(** [dateutil.parser.parse(s).date()], the last resort of the helper; [None]
    when it raises. *)
Variable dateparse : string -> option date.

(** [parse_yyyymmdd]: "Accept either yyyymmdd or yyyy-mm-dd", then "fallback:
    dateutil if format unusual".  [None] is the [ValueError] it raises. *)
Definition parse_yyyymmdd (date_str : string) : option date :=
  if Py.falsy date_str then None
  else
    let s := Py.strip date_str in
    match Strptime.Ymd s with
    | Some d => Some d
    | None =>
        match Strptime.Y_m_d s with
        | Some d => Some d
        | None => dateparse s
        end
    end.

End Dateutil.

End Secure4.

(** ** Mansour_Microservcies_1.py *)

(** Python [bytes]. *)
Definition bytes : Type := list ascii.

(** *** [base64.b64encode] and [base64.b64decode] *)

Module Base64.

Definition alphabet : string :=
  "ABCDEFGHIJKLMNOPQRSTUVWXYZabcdefghijklmnopqrstuvwxyz0123456789+/".

Definition pad : ascii := "="%char.

(** The character of a 6-bit value. *)
Definition b2a (v : N) : ascii :=
  match String.get (N.to_nat v) alphabet with
  | Some c => c
  | None => pad
  end.

Fixpoint index_of (c : ascii) (s : string) (i : N) : option N :=
  match s with
  | EmptyString => None
  | String x s' => if Ascii.eqb x c then Some i else index_of c s' (i + 1)%N
  end.

(** The 6-bit value of a character of the alphabet; nothing for any other
    character. *)
Definition a2b (c : ascii) : option N := index_of c alphabet 0%N.

Definition byte (x : ascii) : N := N_of_ascii x.

(** The text of a byte string: three bytes give four characters; one or two
    left-over bytes give two or three characters and padding. *)
Fixpoint b64encode (bs : bytes) : string :=
  match bs with
  | [] => EmptyString
  | [x] =>
      let a := byte x in
      String (b2a (N.shiftr a 2))
        (String (b2a (N.shiftl (N.land a 3) 4)) (String pad (String pad EmptyString)))
  | [x; y] =>
      let a := byte x in
      let b := byte y in
      String (b2a (N.shiftr a 2))
        (String (b2a (N.lor (N.shiftl (N.land a 3) 4) (N.shiftr b 4)))
           (String (b2a (N.shiftl (N.land b 15) 2)) (String pad EmptyString)))
  | x :: y :: z :: rest =>
      let a := byte x in
      let b := byte y in
      let c := byte z in
      String (b2a (N.shiftr a 2))
        (String (b2a (N.lor (N.shiftl (N.land a 3) 4) (N.shiftr b 4)))
           (String (b2a (N.lor (N.shiftl (N.land b 15) 2) (N.shiftr c 6)))
              (String (b2a (N.land c 63)) (b64encode rest))))
  end.

(** One character of the decoder, which is not in strict mode: padding is
    counted, characters outside the alphabet are skipped, every other
    character supplies six bits. *)
Inductive step :=
| Stop                                        (* a complete pad sequence *)
| Next (quad_pos leftchar pads : N) (emit : option ascii).

Definition a2b_step (quad_pos leftchar pads : N) (ch : ascii) : step :=
  if Ascii.eqb ch pad then
    if (2 <=? quad_pos)%N then
      if (4 <=? quad_pos + (pads + 1))%N then Stop
      else Next quad_pos leftchar (pads + 1) None
    else Next quad_pos leftchar pads None
  else
    match a2b ch with
    | None => Next quad_pos leftchar pads None
    | Some this_ch =>
        if (quad_pos =? 0)%N then Next 1 this_ch 0 None
        else if (quad_pos =? 1)%N then
          Next 2 (N.land this_ch 15) 0
            (Some (ascii_of_N (N.lor (N.shiftl leftchar 2) (N.shiftr this_ch 4))))
        else if (quad_pos =? 2)%N then
          Next 3 (N.land this_ch 3) 0
            (Some (ascii_of_N (N.lor (N.shiftl leftchar 4) (N.shiftr this_ch 2))))
        else
          Next 0 0 0 (Some (ascii_of_N (N.lor (N.shiftl leftchar 6) this_ch)))
    end.

Definition emitted (out : bytes) (emit : option ascii) : bytes :=
  match emit with Some x => out ++ [x] | None => out end.

(** The loop over the characters; at the end of the text, an incomplete
    quad is an error. *)
Fixpoint a2b_loop (s : string) (quad_pos leftchar pads : N) (out : bytes)
  : option bytes :=
  match s with
  | EmptyString => if (quad_pos =? 0)%N then Some out else None
  | String ch s' =>
      match a2b_step quad_pos leftchar pads ch with
      | Stop => Some out
      | Next q l p emit => a2b_loop s' q l p (emitted out emit)
      end
  end.

(** [base64.b64decode(s)]; [None] is [binascii.Error]. *)
Definition b64decode (s : string) : option bytes := a2b_loop s 0%N 0%N 0%N [].

End Base64.

(** *** Messages and services *)

Module Micro.

(** What the simulation takes from its libraries: the payload dictionaries,
    [hmac.new(key, message, hashlib.sha256).digest()], and the canonical
    [json.dumps(core, sort_keys=True, separators=(',', ':')).encode()] of
    the five signed fields. *)
Class Library := {
  Payload : Type;
  hmac_sha256 : bytes -> bytes -> bytes;
  json_dumps_core : string -> string -> Payload -> Z -> string -> bytes
}.

Section Simulation.

Context {L : Library}.

(** [hmac_sign] *)
Definition hmac_sign (key message : bytes) : string :=
  Base64.b64encode (hmac_sha256 key message).

(** [hmac_verify] *)
Definition hmac_verify (key message : bytes) (signature_b64 : string) : bool :=
  match Base64.b64decode signature_b64 with
  | None => false
  | Some expected => bool_decide (hmac_sha256 key message = expected)
  end.

Record Message := mkMessage {
  sender : string;
  recipient : string;
  payload : Payload;
  ts : Z;
  nonce : string;
  signature : option string
}.

(** [Message.to_wire]: "Canonical serialization for signing." *)
Definition to_wire (m : Message) : bytes :=
  json_dumps_core (sender m) (recipient m) (payload m) (ts m) (nonce m).

(** [Message.sign_with]: the message after [self.signature = sig]. *)
Definition sign_with (m : Message) (key : bytes) : Message :=
  mkMessage (sender m) (recipient m) (payload m) (ts m) (nonce m)
            (Some (hmac_sign key (to_wire m))).

(** [Message.verify_signature] *)
Definition verify_signature (m : Message) (key : bytes) : bool :=
  match signature m with
  | None => false
  | Some sig => if Py.falsy sig then false else hmac_verify key (to_wire m) sig
  end.

(** The [seen_nonces] dictionary, nonce to timestamp, in insertion order. *)
Definition nonces : Type := list (string * Z).

(** [nonce in seen] *)
Definition seen (n : string) (d : nonces) : bool :=
  existsb (fun kv => String.eqb (fst kv) n) d.

(** [d[n] = t] *)
Fixpoint store (n : string) (t : Z) (d : nonces) : nonces :=
  match d with
  | [] => [(n, t)]
  | kv :: d' => if String.eqb (fst kv) n then (n, t) :: d' else kv :: store n t d'
  end.

(** [del d[n]] *)
Definition drop (n : string) (d : nonces) : nonces :=
  List.filter (fun kv => negb (String.eqb (fst kv) n)) d.

(** [min(d, key=d.get)]: the first nonce with the smallest timestamp. *)
Fixpoint oldest_from (best : string * Z) (d : nonces) : string :=
  match d with
  | [] => fst best
  | kv :: d' => if snd kv <? snd best then oldest_from kv d' else oldest_from best d'
  end.

Definition oldest (d : nonces) : option string :=
  match d with
  | [] => None
  | kv :: d' => Some (oldest_from kv d')
  end.

Record Service := mkService {
  name : string;
  hmac_key : bytes;
  seen_nonces : nonces
}.

(** [self.allowed_skew], set once by the constructor. *)
Definition allowed_skew : Z := 60.

Definition with_nonces (self : Service) (d : nonces) : Service :=
  mkService (name self) (hmac_key self) d.

(** [Service.verify_incoming]; [now] is what [now_ts()] returns during the
    call. *)
Definition verify_incoming (self : Service) (now : Z) (msg : Message)
    (expected_sender_key : bytes) : (bool * string) * Service :=
  if negb (verify_signature msg expected_sender_key)
  then ((false, "invalid signature"), self)
  else if allowed_skew <? Z.abs (now - ts msg)
  then ((false, "stale or future timestamp (ts=" +:+ Py.str_of_int (ts msg) +:+ ")"),
        self)
  else if seen (nonce msg) (seen_nonces self)
  then ((false, "replay detected (nonce already seen)"), self)
  else
    let d := store (nonce msg) (ts msg) (seen_nonces self) in
    let d :=
      if (1000 <? length d)%nat
      then match oldest d with Some n => drop n d | None => d end
      else d in
    ((true, "ok"), with_nonces self d).

(** A later call: the clock, the message, and the key it is checked with. *)
Record call := mkcall {
  call_now : Z;
  call_msg : Message;
  call_key : bytes
}.

(** The service after a sequence of calls of [verify_incoming]. *)
Definition after_calls (self : Service) (calls : list call) : Service :=
  fold_left
    (fun s c => snd (verify_incoming s (call_now c) (call_msg c) (call_key c)))
    calls self.

End Simulation.

End Micro.

(** ** What the specification says of the date parser *)

Module DateSpec.

Definition all_digits (s : string) : bool :=
  forallb Py.is_digit (list_ascii_of_string s).

(** An 8-digit string. *)
Definition is_yyyymmdd (s : string) : bool :=
  (String.length s =? 8)%nat && all_digits s.

(** The number a string of digits writes. *)
Definition number (s : string) : Z :=
  fold_left (fun acc c => 10 * acc + Py.digit_val c) (list_ascii_of_string s) 0.

(** The calendar date an 8-digit string YYYYMMDD denotes, when it denotes
    one; nothing for every other string. *)
Definition denoted_date (s : string) : option date :=
  if is_yyyymmdd s
  then Date.make (number (substring 0 4 s)) (number (substring 4 2 s))
                 (number (substring 6 2 s))
  else None.

(** The last character of the string is a newline. *)
Fixpoint ends_with_newline (s : string) : bool :=
  match s with
  | EmptyString => false
  | String c EmptyString => Ascii.eqb c "010"
  | String _ s' => ends_with_newline s'
  end.

End DateSpec.

(** ** What the specification says of a list request *)

Module PageSpec.

Section Rows.

Context {row : Type}.

(** [rows] is what the stored rows that satisfy [selected] are when put in
    ascending order of [key]. *)
Definition is_ordered_selection (key : row -> Z) (selected : row -> bool)
    (stored rows : list row) : Prop :=
  Permutation rows (List.filter selected stored)
  /\ Sorted (fun a b => key a <= key b) rows.

(** [items] are the rows at the index positions [offset, offset+limit) of
    [rows], in that order, and nothing else. *)
Definition is_window (rows : list row) (offset limit : Z) (items : list row)
  : Prop :=
  forall i : nat,
    nth_error items i
    = if Z.of_nat i <? limit then nth_error rows (Z.to_nat offset + i) else None.

End Rows.

End PageSpec.

(** ** What the specification says of a create request *)

Module CreateSpec.



End CreateSpec.

(** ** What the specification says of a partial update *)

Module UpdateSpec.

(** A field that must not be emptied is absent from the body or holds a
    value that counts as non-empty. *)
Definition present_nonempty (payload : gmap string json) (k : string) : bool :=
  match payload !! k with None => true | Some v => Json.truthy v end.

(** A valid partial update of a book of secure_code_2: title, author and
    genre are absent or non-empty; the publication date is absent, empty, or
    a date in one of the two accepted forms. *)
Definition valid_secure2 (payload : gmap string json) : bool :=
  present_nonempty payload "Book_Title"
  && present_nonempty payload "Book_Author"
  && present_nonempty payload "Book_Genre"
  && match payload !! "Book_Publication_Date" with
     | None => true
     | Some v => is_some (Secure2.parse_either (Json.str v)) || Py.falsy (Json.str v)
     end.

(** A valid partial update of a book of the original: the title is absent
    or not blank; author and genre ids are absent or name stored rows; the
    publication date is absent or a date in one of the two accepted forms. *)
Definition valid_original (d : Original.db) (u : Original.book_update) : bool :=
  match Original.u_title u with
  | Some t => negb (Py.falsy (Py.strip t))
  | None => true
  end
  && match Original.u_author_id u with
     | Some a => is_some (Sql.get Original.Author.id a (Original.authors d))
     | None => true
     end
  && match Original.u_genre_id u with
     | Some g => is_some (Sql.get Original.Genre.id g (Original.genres d))
     | None => true
     end
  && match Original.u_publication_date u with
     | Some p =>
         is_some (Original.first_date (Original.parse_api_date (Some p))
                                      (Original.parse_html_date (Some p)))
     | None => true
     end.

End UpdateSpec.

(** ** What the specification says of the date range *)

Module RangeSpec.

(** [a] is the same day as [b] or an earlier one. *)
Definition le (a b : date) : Prop :=
  year a < year b
  \/ (year a = year b
      /\ (month a < month b \/ (month a = month b /\ day a <= day b))).

(** Both bounds inclusive. *)
Definition within (lo hi d : date) : Prop := le lo d /\ le d hi.

Definition jan_1_2020 : date := mkdate 2020 1 1.
Definition dec_31_2020 : date := mkdate 2020 12 31.

End RangeSpec.

(** ** Finite tables checked by evaluation *)

Module Tables.

Definition digit_chars : list ascii :=
  ["0"; "1"; "2"; "3"; "4"; "5"; "6"; "7"; "8"; "9"]%char.

Definition two (a b : ascii) : string := String a (String b EmptyString).

Definition str4 (a b c d : ascii) (tail : string) : string :=
  String a (String b (String c (String d tail))).

Definition str8 (c1 c2 c3 c4 c5 c6 c7 c8 : ascii) (tail : string) : string :=
  str4 c1 c2 c3 c4 (str4 c5 c6 c7 c8 tail).

Definition digits8 (c1 c2 c3 c4 c5 c6 c7 c8 : ascii) : Prop :=
  Py.is_digit c1 = true /\ Py.is_digit c2 = true /\ Py.is_digit c3 = true /\
  Py.is_digit c4 = true /\ Py.is_digit c5 = true /\ Py.is_digit c6 = true /\
  Py.is_digit c7 = true /\ Py.is_digit c8 = true.

(** The date eight digits denote. *)
Definition denoted8 (c1 c2 c3 c4 c5 c6 c7 c8 : ascii) : option date :=
  Date.make (DateSpec.number (str4 c1 c2 c3 c4 EmptyString))
            (DateSpec.number (two c5 c6))
            (DateSpec.number (two c7 c8)).

Definition in_range (c5 c6 c7 c8 : ascii) : bool :=
  let m := 10 * Py.digit_val c5 + Py.digit_val c6 in
  let d := 10 * Py.digit_val c7 + Py.digit_val c8 in
  (1 <=? m) && (m <=? 12) && (1 <=? d) && (d <=? 31).

(** Month and day groups on four digits: either both two-digit groups
    match and nothing remains, or the four digits are not a month 01-12
    followed by a day 01-31 and the match leaves something unconverted. *)
Definition md_ok (c5 c6 c7 c8 : ascii) : bool :=
  match Strptime.match_directives [Strptime.dir_m; Strptime.dir_d]
          (String c5 (String c6 (two c7 c8))) with
  | Some ([m; d], EmptyString) =>
      String.eqb m (two c5 c6) && String.eqb d (two c7 c8) && in_range c5 c6 c7 c8
  | _ => negb (in_range c5 c6 c7 c8)
  end.

(** The same four digits followed by a newline: something always remains. *)
Definition md_newline_ok (c5 c6 c7 c8 : ascii) : bool :=
  match Strptime.match_directives [Strptime.dir_m; Strptime.dir_d]
          (String c5 (String c6 (String c7 (String c8 (String "010" EmptyString))))) with
  | Some (_, EmptyString) => false
  | _ => true
  end.

Definition for_digits4 (f : ascii -> ascii -> ascii -> ascii -> bool) : bool :=
  forallb (fun a => forallb (fun b => forallb (fun c => forallb (fun d =>
    f a b c d) digit_chars) digit_chars) digit_chars) digit_chars.

(** The 256 values of a byte. *)
Definition byte_values : list N := List.map N.of_nat (seq 0 256).

Definition for_bytes (f : N -> bool) : bool := forallb f byte_values.

Definition for_bytes2 (f : N -> N -> bool) : bool :=
  forallb (fun a => forallb (f a) byte_values) byte_values.

Definition emit_eqb (x y : option ascii) : bool :=
  match x, y with
  | Some a, Some b => Ascii.eqb a b
  | None, None => true
  | _, _ => false
  end.

Definition step_eqb (x y : Base64.step) : bool :=
  match x, y with
  | Base64.Stop, Base64.Stop => true
  | Base64.Next q l p e, Base64.Next q' l' p' e' =>
      ((q =? q') && (l =? l') && (p =? p'))%N && emit_eqb e e'
  | _, _ => false
  end.

(** The decoder on the four characters of three bytes [a], [b], [c], one
    step at a time, and on the last data character of a padded group. *)
Definition decode_first (a : N) : bool :=
  step_eqb (Base64.a2b_step 0 0 0 (Base64.b2a (N.shiftr a 2)))
           (Base64.Next 1 (N.shiftr a 2) 0 None).

Definition decode_second (a b : N) : bool :=
  step_eqb
    (Base64.a2b_step 1 (N.shiftr a 2) 0
       (Base64.b2a (N.lor (N.shiftl (N.land a 3) 4) (N.shiftr b 4))))
    (Base64.Next 2 (N.shiftr b 4) 0 (Some (ascii_of_N a))).

Definition decode_third (b c : N) : bool :=
  step_eqb
    (Base64.a2b_step 2 (N.shiftr b 4) 0
       (Base64.b2a (N.lor (N.shiftl (N.land b 15) 2) (N.shiftr c 6))))
    (Base64.Next 3 (N.shiftr c 6) 0 (Some (ascii_of_N b))).

Definition decode_fourth (c : N) : bool :=
  step_eqb (Base64.a2b_step 3 (N.shiftr c 6) 0 (Base64.b2a (N.land c 63)))
           (Base64.Next 0 0 0 (Some (ascii_of_N c))).

Definition decode_second_last (a : N) : bool :=
  step_eqb
    (Base64.a2b_step 1 (N.shiftr a 2) 0 (Base64.b2a (N.shiftl (N.land a 3) 4)))
    (Base64.Next 2 0 0 (Some (ascii_of_N a))).

Definition decode_third_last (b : N) : bool :=
  step_eqb
    (Base64.a2b_step 2 (N.shiftr b 4) 0 (Base64.b2a (N.shiftl (N.land b 15) 2)))
    (Base64.Next 3 0 0 (Some (ascii_of_N b))).

End Tables.

(** ** Sample stores and requests *)

Module Samples.

Definition query (l : list (string * string)) : gmap string string :=
  list_to_map l.

Definition original_db : Original.db :=
  Original.mkdb
    [Original.Book.mk 2 "Foundation" 2 2 (mkdate 1951 6 1) (Some "Foundation series");
     Original.Book.mk 1 "The Hobbit" 1 1 (mkdate 1937 9 21) (Some "Bilbo's adventure");
     Original.Book.mk 3 "I, Robot" 2 2 (mkdate 1950 12 2) None]
    [Original.Genre.mk 1 "Fantasy" (Some "Fantasy books");
     Original.Genre.mk 2 "Science Fiction" (Some "Sci-Fi")]
    [Original.Author.mk 1 "J. R. R. Tolkien" (Some "Author of LOTR");
     Original.Author.mk 2 "Isaac Asimov" (Some "Sci-Fi author")].

Definition secure2_db : Secure2.db :=
  Secure2.mkdb
    [Secure2.mkBook 2 "Foundation" "Isaac Asimov" "Science Fiction" None
       (Some (mkdate 2020 12 31)) None;
     Secure2.mkBook 1 "The Hobbit" "J. R. R. Tolkien" "Fantasy" (Some "Allen")
       (Some (mkdate 2019 12 31)) (Some "Bilbo's adventure");
     Secure2.mkBook 4 "Undated" "Nobody" "Fantasy" None None None;
     Secure2.mkBook 3 "I, Robot" "Isaac Asimov" "Science Fiction" None
       (Some (mkdate 2020 1 1)) None]
    [Secure2.mkGenre 1 "Fantasy" (Some "Fantasy books");
     Secure2.mkGenre 2 "Science Fiction" None]
    [Secure2.mkAuthor 1 "J. R. R. Tolkien" None;
     Secure2.mkAuthor 2 "Isaac Asimov" (Some "Sci-Fi author")].

(** The JSON body of the round trip: a book dated 20200101. *)
Definition new_book_payload : gmap string json :=
  list_to_map
    [("Book_Title", JStr "T"); ("Book_Author", JStr "A"); ("Book_Genre", JStr "G");
     ("Book_Publication_Date", JStr "20200101")].

Definition new_book_request : request := mkreq ∅ true (JObject new_book_payload).

(** A request that creates a genre, or an author, under a name. *)
Definition create_named (key name : string) : request :=
  mkreq ∅ true (JObject (list_to_map [(key, JStr name)])).

(** A partial update that only renames a book. *)
Definition rename_request : request :=
  mkreq ∅ true (JObject (list_to_map [("Book_Title", JStr "Renamed")])).

Definition rename_update : Original.book_update :=
  Original.mk_book_update (Some "Renamed") None None None None.

(** ?after_date=20200101&before_date=20201231 *)
Definition year_2020_query : gmap string string :=
  query [("after_date", "20200101"); ("before_date", "20201231")].

Definition remove3_book1 : Remove3.Book :=
  Remove3.mkBook 1 "The Hobbit" "J. R. R. Tolkien" "Fantasy" None
    (Some (mkdate 1937 9 21)) None.
Definition remove3_book2 : Remove3.Book :=
  Remove3.mkBook 2 "Foundation" "Isaac Asimov" "Science Fiction" None None None.
Definition remove3_books : list Remove3.Book := [remove3_book2; remove3_book1].

(** A stand-in for the libraries of the simulation: a 32-byte tag cut from
    the key and the message, and a serialization that joins the fields. *)
Definition toy_hmac (key message : bytes) : bytes :=
  firstn 32 (key ++ message ++ repeat "000"%char 32).

Definition toy_library : Micro.Library :=
  {| Micro.Payload := string;
     Micro.hmac_sha256 := toy_hmac;
     Micro.json_dumps_core := fun s r p t n =>
       list_ascii_of_string
         (s +:+ "," +:+ r +:+ "," +:+ p +:+ "," +:+ Py.str_of_int t +:+ "," +:+ n) |}.

(** A store that holds 1000 nonces, all recorded at time 100. *)
Definition full_store : Micro.nonces :=
  List.map (fun i => (Py.str_of_int (Z.of_nat i), 100)) (seq 0 1000).

Definition busy_service : Micro.Service :=
  Micro.mkService "Storage_MS" (list_ascii_of_string "k2") full_store.

Definition sender_key : bytes := list_ascii_of_string "k1".

Section AnyLibrary.

Context {L : Micro.Library}.
Variable p : Micro.Payload.

(** A message stamped 50 seconds before the clock of the service reads 100,
    signed with the sender's key. *)
Definition early_message : Micro.Message :=
  Micro.sign_with (Micro.mkMessage "Controller_MS" "Storage_MS" p 50 "fresh" None)
                  sender_key.

End AnyLibrary.

End Samples.


(** ** CHATGPT_book_catalog_secure_code_2.py: genres, authors, HTML pages *)

Module Secure2Items.

(** [api_genre_item], method GET. *)
Definition api_genre_item_GET (d : Secure2.db) (genre_id : Z) : response :=
  match Sql.get Secure2.Genre_ID genre_id (Secure2.genres d) with
  | None => (JsonMessage "Genre not found", 404)
  | Some g => (JsonObject (Secure2.genre_to_dict g), 200)
  end.

(** [api_author_item], method GET. *)
Definition api_author_item_GET (d : Secure2.db) (author_id : Z) : response :=
  match Sql.get Secure2.Author_ID author_id (Secure2.authors d) with
  | None => (JsonMessage "Author not found", 404)
  | Some a => (JsonObject (Secure2.author_to_dict a), 200)
  end.

(** [if k in payload: if not payload.get(k): return 400; row.k =
    payload.get(k)[:n]]: the new value of the column, or the answer that
    ends the request.  A value that is not a string cannot be sliced: the
    [TypeError] is caught nowhere. *)
Definition put_name (payload : gmap string json) (k : string) (n : nat)
    (msg : string) (current : string) : string + response :=
  match payload !! k with
  | None => inl current
  | Some v =>
      if negb (Json.truthy v) then inr (JsonMessage msg, 400)
      else match v with
           | JStr s => inl (Py.slice 0 n s)
           | _ => inr (ServerError, 500)
           end
  end.

(** [if k in payload: row.k = payload.get(k, '')[:n]] *)
Definition put_sliced (payload : gmap string json) (k : string) (n : nat)
    (current : option string) : option string + response :=
  match payload !! k with
  | None => inl current
  | Some (JStr s) => inl (Some (Py.slice 0 n s))
  | Some _ => inr (ServerError, 500)
  end.

(** The commit of a renamed row raises [IntegrityError] when another row
    holds the new name. *)
Definition rename_conflict {row : Type} (name_of : row -> string)
    (old new : string) (rows : list row) : bool :=
  negb (String.eqb new old) && Secure2.name_taken name_of new rows.

(** [api_genre_item], method PUT.  A body that is no object and holds
    neither key changes nothing and is answered with the genre as it is. *)
Definition api_genre_item_PUT (d : Secure2.db) (genre_id : Z) (rq : request)
  : response * Secure2.db :=
  match Sql.get Secure2.Genre_ID genre_id (Secure2.genres d) with
  | None => ((JsonMessage "Genre not found", 404), d)
  | Some g =>
      if negb (is_json rq) then ((JsonMessage "Request must be JSON", 400), d)
      else
        match get_json rq with
        | NotJson => ((ErrorPage, 400), d)
        | JObject payload =>
            match put_name payload "Genre_Name" 120 "Genre_Name cannot be empty"
                    (Secure2.Genre_Name g) with
            | inr r => (r, d)
            | inl name =>
                match put_sliced payload "Genre_Description" 500
                        (Secure2.Genre_Description g) with
                | inr r => (r, d)
                | inl desc =>
                    let g' := Secure2.mkGenre (Secure2.Genre_ID g) name desc in
                    if rename_conflict Secure2.Genre_Name (Secure2.Genre_Name g) name
                         (Secure2.genres d)
                    then ((JsonMessage "Genre with this name already exists", 409), d)
                    else
                      ((JsonObject (Secure2.genre_to_dict g'), 200),
                       Secure2.mkdb (Secure2.books d)
                         (Sql.replace Secure2.Genre_ID g' (Secure2.genres d))
                         (Secure2.authors d))
                end
            end
        | other =>
            if no_key_in ["Genre_Name"; "Genre_Description"] other
            then ((JsonObject (Secure2.genre_to_dict g), 200), d)
            else ((ServerError, 500), d)
        end
  end.

(** [api_author_item], method PUT. *)
Definition api_author_item_PUT (d : Secure2.db) (author_id : Z) (rq : request)
  : response * Secure2.db :=
  match Sql.get Secure2.Author_ID author_id (Secure2.authors d) with
  | None => ((JsonMessage "Author not found", 404), d)
  | Some a =>
      if negb (is_json rq) then ((JsonMessage "Request must be JSON", 400), d)
      else
        match get_json rq with
        | NotJson => ((ErrorPage, 400), d)
        | JObject payload =>
            match put_name payload "Author_Name" 120 "Author_Name cannot be empty"
                    (Secure2.Author_Name a) with
            | inr r => (r, d)
            | inl name =>
                match put_sliced payload "Author_Bio" 2000 (Secure2.Author_Bio a) with
                | inr r => (r, d)
                | inl bio =>
                    let a' := Secure2.mkAuthor (Secure2.Author_ID a) name bio in
                    if rename_conflict Secure2.Author_Name (Secure2.Author_Name a) name
                         (Secure2.authors d)
                    then ((JsonMessage "Author with this name already exists", 409), d)
                    else
                      ((JsonObject (Secure2.author_to_dict a'), 200),
                       Secure2.mkdb (Secure2.books d) (Secure2.genres d)
                         (Sql.replace Secure2.Author_ID a' (Secure2.authors d)))
                end
            end
        | other =>
            if no_key_in ["Author_Name"; "Author_Bio"] other
            then ((JsonObject (Secure2.author_to_dict a), 200), d)
            else ((ServerError, 500), d)
        end
  end.

End Secure2Items.

(** *** The CSRF helpers and the books page *)

Module Secure2Html.

Definition PER_PAGE : Z := 10.

(** What the helpers keep in the Flask session: the token, and the
    messages flashed with their category. *)
Record session := mksession {
  csrf_token : option string;            (* session.get('_csrf_token') *)
  flashes : list (string * string)
}.

(** What the helpers read off the request. *)
Record http := mkhttp {
  method : string;                       (* request.method *)
  path : string;                         (* request.path *)
  accept_best : option string;           (* request.accept_mimetypes.best *)
  form_csrf : option string;             (* request.form.get('_csrf_token') *)
  header_csrf : option string            (* request.headers.get('X-CSRF-Token') *)
}.

(** The answer of a protected view: what the view itself answers, or one of
    the answers of [render_error]; [Raised] is an exception nothing
    catches. *)
Inductive reply (A : Type) :=
| Rendered (a : A)
| JsonError (message : string) (status : Z)   (* jsonify({"message": m}), status *)
| Redirect (endpoint : string)                (* redirect(url_for(endpoint)) *)
| Aborted (status : Z)                        (* abort(status) *)
| Raised.

Arguments Rendered {A} a.
Arguments JsonError {A} message status.
Arguments Redirect {A} endpoint.
Arguments Aborted {A} status.
Arguments Raised {A}.

(** [make_csrf_token]; [token] is what [secrets.token_urlsafe(32)]
    returns. *)
Definition make_csrf_token (token : string) (s : session) : string * session :=
  (token, mksession (Some token) (flashes s)).

(** [a or b] on two optional strings. *)
Definition or_str (a b : option string) : option string :=
  if raw_truthy a then a else b.

Definition is_ascii (s : string) : bool :=
  forallb (fun c => (N_of_ascii c <? 128)%N) (list_ascii_of_string s).

(** [secrets.compare_digest] on two strings; [None] is the [TypeError] it
    raises on a string with a character outside ASCII. *)
Definition compare_digest (a b : string) : option bool :=
  if is_ascii a && is_ascii b then Some (String.eqb a b) else None.

(** [validate_csrf], as a truth value. *)
Definition validate_csrf (s : session) (rq : http) : option bool :=
  let token_sess := csrf_token s in
  let token_form := or_str (form_csrf rq) (header_csrf rq) in
  if negb (raw_truthy token_sess) then Some false
  else if negb (raw_truthy token_form) then Some false
  else
    match token_sess, token_form with
    | Some a, Some b => compare_digest a b
    | _, _ => Some false
    end.

(** [flash(message, category)] *)
Definition flash (message category : string) (s : session) : session :=
  mksession (csrf_token s) (flashes s ++ [(message, category)]).

(** [render_error] *)
Definition render_error {A : Type} (rq : http) (message : string) (status : Z)
    (s : session) : reply A * session :=
  if String.prefix "/api/" (path rq)
     || match accept_best rq with
        | Some m => String.eqb m "application/json"
        | None => false
        end
  then (JsonError message status, s)
  else (Redirect "home", flash message "danger" s).

(** [request.method in ("POST", "PUT", "DELETE")] *)
Definition writes (rq : http) : bool :=
  String.eqb (method rq) "POST" || String.eqb (method rq) "PUT"
  || String.eqb (method rq) "DELETE".

(** [csrf_protect(f)]: the view [f] works on the session and on the rest of
    the application state. *)
Definition csrf_protect {A W : Type} (f : session -> W -> reply A * session * W)
    (rq : http) (s : session) (w : W) : reply A * session * W :=
  if writes rq then
    match validate_csrf s rq with
    | None => (Raised, s, w)
    | Some false =>
        let '(r, s') := render_error rq "Invalid CSRF token" 400 s in (r, s', w)
    | Some true => f s w
    end
  else f s w.

(** [render_template_base]: [make_csrf_token] runs first, so every page
    asked of it replaces the token of the session; [token] is what
    [secrets.token_urlsafe(32)] returns during the call, and [page] what
    [render_template_string] makes of the template and its context: the
    page, or [None] when it raises.  (Every template of the file begins with
    an [extends] of the variable [base], which is bound to the text of
    BASE_HTML; Jinja takes a text there for the name of a template to
    load.)  The session is saved with the answer in both cases. *)
Definition render_template_base (page : option string) (token : string)
    (s : session) : reply string * session :=
  let '(_, s') := make_csrf_token token s in
  (match page with Some html => Rendered html | None => Raised end, s').

(** [book_delete], the view [csrf_protect] wraps: the commit of a DELETE
    does not fail. *)
Definition book_delete (book_id : Z) (s : session) (d : Secure2.db)
  : reply unit * session * Secure2.db :=
  match Sql.get Secure2.Book_ID book_id (Secure2.books d) with
  | None => (Aborted 404, s, d)
  | Some b =>
      (Redirect "books", flash "Book deleted" "success" s,
       Secure2.mkdb (Sql.remove Secure2.Book_ID (Secure2.Book_ID b) (Secure2.books d))
         (Secure2.genres d) (Secure2.authors d))
  end.

(** [page = max(int(request.args.get("page", "1")), 1)], 1 when [int]
    raises. *)
Definition page_arg (args : gmap string string) : Z :=
  match arg_int args "page" 1 with
  | Some p => Z.max p 1
  | None => 1
  end.

(** [ceil(total / PER_PAGE)] for a count of rows. *)
Definition ceil_div (total per_page : Z) : Z := (total + per_page - 1) / per_page.

(** [list(range(1, n+1))] *)
Definition range_from_1 (n : Z) : list Z :=
  List.map (fun i => Z.of_nat i + 1) (seq 0 (Z.to_nat n)).

(** What [books] hands to the template. *)
Record books_context := mkcontext {
  ctx_books : list Secure2.Book;
  ctx_page : Z;
  ctx_pages : list Z;
  ctx_total_pages : Z
}.

(** [books]: the context of the list page, which the view hands to
    [render_template_base]; [None] when the query raises. *)
Definition books (d : Secure2.db) (args : gmap string string)
  : option books_context :=
  let page := page_arg args in
  let after_date := Secure2.parse_raw (args !! "after_date") in
  let before_date := Secure2.parse_raw (args !! "before_date") in
  let q := List.filter (Secure2.date_filter after_date before_date) (Secure2.books d) in
  let total := Z.of_nat (length q) in
  let total_pages := Z.max 1 (ceil_div total PER_PAGE) in
  let page := if total_pages <? page then total_pages else page in
  match Sql.offset ((page - 1) * PER_PAGE) (Sql.order_by Secure2.Book_ID q)
        ≫= Sql.limit PER_PAGE with
  | None => None
  | Some books =>
      let pages := firstn 20 (range_from_1 total_pages) in
      Some (mkcontext books page pages total_pages)
  end.

End Secure2Html.

(** ** book_catalog_original.py: creating books, deleting genres and authors *)

Module OriginalApi.

(** [api_books], method POST.  The body has the fields of an update, at the
    same types; a missing title or description reads as the empty string. *)
Definition api_books_POST (d : Original.db) (data : Original.book_update)
  : response * Original.db :=
  let title := Py.strip (Original.or_else (Original.u_title data) EmptyString) in
  let author_id := Original.u_author_id data in
  let genre_id := Original.u_genre_id data in
  let pub := Original.u_publication_date data in
  let pub_date :=
    Original.first_date (Original.parse_api_date pub) (Original.parse_html_date pub) in
  let description := Original.or_else (Original.u_description data) EmptyString in
  let errors := [] in
  let errors := Original.append_if (Py.falsy title) "Title is required" errors in
  let errors :=
    Original.append_if
      (match author_id with
       | Some a =>
           (a =? 0) || negb (is_some (Sql.get Original.Author.id a (Original.authors d)))
       | None => true
       end) "Valid author_id is required" errors in
  let errors :=
    Original.append_if
      (match genre_id with
       | Some g =>
           (g =? 0) || negb (is_some (Sql.get Original.Genre.id g (Original.genres d)))
       | None => true
       end) "Valid genre_id is required" errors in
  let errors :=
    Original.append_if (negb (is_some pub_date))
      "Valid publication_date is required (yyyymmdd or YYYY-MM-DD)" errors in
  match errors, author_id, genre_id, pub_date with
  | [], Some a, Some g, Some dt =>
      let b :=
        Original.Book.mk (Sql.next_id Original.Book.id (Original.books d))
          title a g dt (Some description) in
      let d' :=
        Original.mkdb (Original.books d ++ [b]) (Original.genres d)
          (Original.authors d) in
      ((JsonObject (Original.book_to_dict d' b), 201), d')
  | _, _, _, _ => ((JsonErrors errors, 400), d)
  end.

(** [api_genre], method DELETE.  The books of the genre stay as they are:
    nothing in the models cascades, and SQLite enforces a foreign key only
    when asked to, which the application does not do. *)
Definition api_genre_DELETE (d : Original.db) (genre_id : Z)
  : response * Original.db :=
  match Sql.get Original.Genre.id genre_id (Original.genres d) with
  | None => ((JsonMessage "Genre not found", 404), d)
  | Some g =>
      ((EmptyBody, 204),
       Original.mkdb (Original.books d)
         (Sql.remove Original.Genre.id (Original.Genre.id g) (Original.genres d))
         (Original.authors d))
  end.

(** [api_author], method DELETE. *)
Definition api_author_DELETE (d : Original.db) (author_id : Z)
  : response * Original.db :=
  match Sql.get Original.Author.id author_id (Original.authors d) with
  | None => ((JsonMessage "Author not found", 404), d)
  | Some a =>
      ((EmptyBody, 204),
       Original.mkdb (Original.books d) (Original.genres d)
         (Sql.remove Original.Author.id (Original.Author.id a) (Original.authors d)))
  end.

End OriginalApi.

(** ** remove_3.py: the fields of a JSON body *)

Module Remove3Api.

(** [get_json_field(data, name, required, maxlen)]: the value and the
    error, one of them [None].  A string is stripped; a value of another
    type is returned as it is.  [maxlen] is [None] when the caller gives
    none. *)
Definition get_json_field (data : gmap string json) (name : string)
    (required : bool) (maxlen : option Z) : option json * option string :=
  match data !! name with
  | None | Some JNull =>
      if required then (None, Some ("Field '" +:+ name +:+ "' is required."))
      else (None, None)
  | Some (JStr val) =>
      let s := Py.strip val in
      match maxlen with
      | Some n =>
          if negb (n =? 0) && (n <? Z.of_nat (String.length s))
          then (None,
                Some ("Field '" +:+ name +:+ "' is too long (max "
                      +:+ Py.str_of_int n +:+ ")."))
          else (Some (JStr s), None)
      | None => (Some (JStr s), None)
      end
  | Some v => (Some v, None)
  end.

End Remove3Api.

(** ** CHATGPT_book_catalog_secure_code_3.py: the date helper and the list
       of books *)

Module Secure3Api.

Record Book := mkBook {
  Book_ID : Z;
  Book_Title : string;
  Book_Author : string;
  Book_Genre : string;
  Book_Publication : option string;
  Book_Publication_Date : option date;
  Book_Description : option string
}.

(** [Book.to_dict] *)
Definition to_dict (b : Book) : obj :=
  [("Book_ID", VInt (Book_ID b));
   ("Book_Title", VStr (Book_Title b));
   ("Book_Author", VStr (Book_Author b));
   ("Book_Genre", VStr (Book_Genre b));
   ("Book_Publication", VStr (text_or_empty (Book_Publication b)));
   ("Book_Publication_Date",
    VStr (match Book_Publication_Date b with
          | Some d => Date.strftime_Y_m_d d
          | None => EmptyString
          end));
   ("Book_Description", VStr (text_or_empty (Book_Description b)))].

(** What a list request is answered with. *)
Inductive listing :=
| Page (total limit offset : Z) (items : list obj)   (* jsonify({...}), 200 *)
| Message (m : string) (status : Z)                  (* api_error(m, status) *)
| Failed.                                  (* an exception no handler catches *)

(** [paginate_query(query, limit, offset)]; [None] when the query raises. *)
Definition paginate_query {row : Type} (query : list row) (limit offset : Z)
  : option (Z * list row) :=
  let total := Z.of_nat (length query) in
  match Sql.offset offset query ≫= Sql.limit limit with
  | Some items => Some (total, items)
  | None => None
  end.

(** What a date argument makes of the query: no filter, or a comparison
    with the value [parse_api_date] returned. *)
Inductive bound :=
| NoBound
| Bound (dt : option date).

(** A comparison of the date column with the bound; one with NULL on either
    side selects nothing. *)
Definition passes (cmp : date -> date -> bool) (bd : bound) (b : Book) : bool :=
  match bd with
  | NoBound => true
  | Bound None => false
  | Bound (Some d) =>
      match Book_Publication_Date b with
      | Some x => cmp x d
      | None => false
      end
  end.

Section StrptimeErrors.

(** [str(e)] for the [ValueError] that
    [datetime.strptime(s, "%Y%m%d").date()] raises on [s]. *)
Variable strptime_error : string -> string.

(** [parse_api_date]: "Returns (date, None) or (None, error string)." *)
Definition parse_api_date (yyyymmdd : string) : option date * option string :=
  if negb (String.length yyyymmdd =? 8)%nat
  then (None, Some "date must be in yyyymmdd format")
  else
    match Strptime.Ymd yyyymmdd with
    | Some d => (Some d, None)
    | None => (None, Some (strptime_error yyyymmdd))
    end.

(** [if s: dt, err = parse_api_date(s); if err: return api_error(...)]:
    the bound of the filter, or the error. *)
Definition date_arg (raw : option string) : bound + string :=
  match raw with
  | None => inl NoBound
  | Some s =>
      if Py.falsy s then inl NoBound
      else
        let '(dt, err) := parse_api_date s in
        if raw_truthy err then inr (text_or_empty err) else inl (Bound dt)
  end.

(** [api_books_collection], method GET. *)
Definition api_books_collection_GET (books : list Book) (args : gmap string string)
  : listing :=
  match Secure3.pagination args with
  | None => Failed
  | Some (limit, offset) =>
      match date_arg (args !! "after_date") with
      | inr err => Message ("Invalid after_date: " +:+ err) 400
      | inl after =>
          match date_arg (args !! "before_date") with
          | inr err => Message ("Invalid before_date: " +:+ err) 400
          | inl before =>
              let q :=
                List.filter
                  (fun b => passes (fun x d => Date.leb d x) after b
                            && passes (fun x d => Date.leb x d) before b) books in
              match paginate_query (Sql.order_by Book_ID q) limit offset with
              | Some (total, items) =>
                  Page total limit offset (List.map to_dict items)
              | None => Failed
              end
          end
      end
  end.

End StrptimeErrors.

End Secure3Api.

(** ** CHATGPT_book_catalog_secure_code_4.py: the list of books, deletions *)

Module Secure4Api.

Module Genre.
Record t := mk { id : Z; name : string; description : option string }.
End Genre.

Module Author.
Record t := mk { id : Z; name : string; bio : option string }.
End Author.

Module Book.
Record t := mk {
  id : Z;
  title : string;
  author_id : Z;
  genre_id : Z;
  publication_date : date;
  description : option string
}.
End Book.

Record db := mkdb {
  books : list Book.t;
  genres : list Genre.t;
  authors : list Author.t
}.

(** [book_to_dict]; [book.author] and [book.genre] are the rows the foreign
    keys name. *)
Definition book_to_dict (d : db) (b : Book.t) : obj :=
  [("id", VInt (Book.id b));
   ("title", VStr (Book.title b));
   ("author", match Sql.get Author.id (Book.author_id b) (authors d) with
              | Some a => VObj [("id", VInt (Author.id a)); ("name", VStr (Author.name a))]
              | None => VNull
              end);
   ("genre", match Sql.get Genre.id (Book.genre_id b) (genres d) with
             | Some g => VObj [("id", VInt (Genre.id g)); ("name", VStr (Genre.name g))]
             | None => VNull
             end);
   ("publication_date", VStr (Date.strftime_Y_m_d (Book.publication_date b)));
   ("description", VStr (text_or_empty (Book.description b)))].

(** The object a list request is answered with. *)
Record page := mkpage {
  count : Z;
  total : Z;
  limit : Z;
  offset : Z;
  items : list obj          (* under the key "books" *)
}.

Inductive listing :=
| Page (p : page)                         (* jsonify({...}), 200 *)
| Message (m : string) (status : Z)       (* jsonify({"message": m}), status *)
| Failed.                                 (* an exception no handler catches *)

(** The [q.filter] calls of [api_books]. *)
Definition date_filter (after before : option date) (b : Book.t) : bool :=
  match after with Some a => Date.leb a (Book.publication_date b) | None => true end
  && match before with
     | Some c => Date.leb (Book.publication_date b) c
     | None => true
     end.

Section Dateutil.

Variable dateparse : string -> option date.

(** [parse_yyyymmdd(raw)] under [if raw:]; the outer [None] is the
    [ValueError] the handler catches. *)
Definition parse_arg (raw : option string) : option (option date) :=
  match raw with
  | None => Some None
  | Some s =>
      if Py.falsy s then Some None
      else match Secure4.parse_yyyymmdd dateparse s with
           | Some dt => Some (Some dt)
           | None => None
           end
  end.

(** [api_books], method GET. *)
Definition api_books_GET (d : db) (args : gmap string string) : listing :=
  let '(limit, offset) := Secure4.api_pagination_params args in
  match parse_arg (args !! "after_date") with
  | None => Message "Invalid date format; expected yyyymmdd or YYYY-MM-DD" 400
  | Some after_d =>
      match parse_arg (args !! "before_date") with
      | None => Message "Invalid date format; expected yyyymmdd or YYYY-MM-DD" 400
      | Some before_d =>
          let query :=
            List.filter (date_filter after_d before_d) (Sql.order_by Book.id (books d)) in
          let total := Z.of_nat (length query) in
          match Sql.offset offset query ≫= Sql.limit limit with
          | Some books =>
              Page (mkpage (Z.of_nat (length books)) total limit offset
                      (List.map (book_to_dict d) books))
          | None => Failed
          end
      end
  end.

End Dateutil.

(** [api_genre_item], method DELETE.  The relationship [Genre.books] is
    declared with cascade "all, delete-orphan": the session deletes the
    books of the genre with it. *)
Definition api_genre_item_DELETE (d : db) (genre_id : Z) : response * db :=
  match Sql.get Genre.id genre_id (genres d) with
  | None => ((JsonMessage "Genre not found", 404), d)
  | Some g =>
      ((JsonObject [], 204),
       mkdb (List.filter (fun b => negb (Book.genre_id b =? Genre.id g)) (books d))
            (Sql.remove Genre.id (Genre.id g) (genres d))
            (authors d))
  end.

(** [api_author_item], method DELETE: [Author.books] cascades alike. *)
Definition api_author_item_DELETE (d : db) (author_id : Z) : response * db :=
  match Sql.get Author.id author_id (authors d) with
  | None => ((JsonMessage "Author not found", 404), d)
  | Some a =>
      ((JsonObject [], 204),
       mkdb (List.filter (fun b => negb (Book.author_id b =? Author.id a)) (books d))
            (genres d)
            (Sql.remove Author.id (Author.id a) (authors d)))
  end.

End Secure4Api.

(** ** Mansour_Microservcies_1.py: identifiers kept encrypted *)

Module Storage.

(** What [StorageMS] takes from its libraries besides HMAC: Fernet with the
    key of the service, and the UTF-8 codec of [str.encode] and
    [bytes.decode].  A token depends on the clock and on random bytes: the
    [entropy] of a call. *)
Class Codec := {
  entropy : Type;
  fernet_encrypt : entropy -> bytes -> bytes;
  fernet_decrypt : bytes -> option bytes;        (* None: InvalidToken *)
  str_encode : string -> bytes;
  bytes_decode : bytes -> option string          (* None: UnicodeDecodeError *)
}.

(** A row of the table [ids] of Database_2. *)
Record id_row := mkrow {
  row_id : Z;                 (* id INTEGER PRIMARY KEY AUTOINCREMENT *)
  id_type : string;
  id_encrypted : bytes;
  mac : string;
  row_ts : Z
}.

(** The acknowledgement [store_id] returns. *)
Record ack := mkack {
  status : string;
  stored_ts : Z;
  ack_id_type : string
}.

(** What [retrieve_latest_id] returns or raises. *)
Inductive retrieved :=
| NoId                          (* None *)
| Id (value : string)
| IntegrityError                (* RuntimeError("Integrity check failed for stored id") *)
| DecryptionError               (* RuntimeError("Decryption failed ...") *)
| DecodeError.                  (* UnicodeDecodeError *)

Section Simulation.

Context {L : Micro.Library} {C : Codec}.

(** [StorageMS.store_id]; [None] is a [ValueError], [now] what [now_ts()]
    returns during the call. *)
Definition store_id (self : Micro.Service) (ids : list id_row) (e : entropy)
    (now : Z) (type value : string) : option (ack * list id_row) :=
  if negb (String.eqb type "parcel" || String.eqb type "car") then None
  else if (256 <? String.length value)%nat then None
  else
    let b := str_encode value in
    let token := fernet_encrypt e b in
    let mac := Micro.hmac_sign (Micro.hmac_key self) token in
    let ts := now in
    Some (mkack "ok" ts type,
          ids ++ [mkrow (Sql.next_id row_id ids) type token mac ts]).

(** SELECT ... WHERE id_type = ? ORDER BY id DESC LIMIT 1 *)
Definition latest (ids : list id_row) (type : string) : option id_row :=
  match rev (Sql.order_by row_id
               (List.filter (fun r => String.eqb (id_type r) type) ids)) with
  | [] => None
  | r :: _ => Some r
  end.

(** [StorageMS.retrieve_latest_id] *)
Definition retrieve_latest_id (self : Micro.Service) (ids : list id_row)
    (type : string) : retrieved :=
  match latest ids type with
  | None => NoId
  | Some r =>
      if negb (Micro.hmac_verify (Micro.hmac_key self) (id_encrypted r) (mac r))
      then IntegrityError
      else
        match fernet_decrypt (id_encrypted r) with
        | None => DecryptionError
        | Some plaintext =>
            match bytes_decode plaintext with
            | Some s => Id s
            | None => DecodeError
            end
        end
  end.

End Simulation.

End Storage.

(** ** Constraints of the tables *)

Module StoreSpec.

(** PRIMARY KEY: no two rows share a key. *)
Definition unique_keys {row : Type} (key : row -> Z) (rows : list row) : Prop :=
  List.NoDup (List.map key rows).

(** UNIQUE on the name column. *)
Definition unique_names {row : Type} (name_of : row -> string) (rows : list row)
  : Prop :=
  List.NoDup (List.map name_of rows).

(** A column declared String(n): a text of [n] characters at most. *)
Definition within (n : nat) (s : string) : Prop := (String.length s <= n)%nat.

Definition within_opt (n : nat) (s : option string) : Prop :=
  match s with Some x => within n x | None => True end.

(** The sizes of the text columns of [Book] in secure_code_2. *)
Definition secure2_book_fits (b : Secure2.Book) : Prop :=
  within 300 (Secure2.Book_Title b)
  /\ within 120 (Secure2.Book_Author b)
  /\ within 120 (Secure2.Book_Genre b)
  /\ within_opt 200 (Secure2.Book_Publication b)
  /\ within_opt 2000 (Secure2.Book_Description b).

(** The declared constraints of the genre and author tables of
    secure_code_2: a primary key and a unique name each. *)
Definition secure2_named_tables_ok (d : Secure2.db) : Prop :=
  unique_keys Secure2.Genre_ID (Secure2.genres d)
  /\ unique_names Secure2.Genre_Name (Secure2.genres d)
  /\ unique_keys Secure2.Author_ID (Secure2.authors d)
  /\ unique_names Secure2.Author_Name (Secure2.authors d).

(** Referential integrity of the original: the author and the genre of
    every book are stored rows. *)
Definition original_book_refers (d : Original.db) (b : Original.Book.t) : Prop :=
  is_some (Sql.get Original.Author.id (Original.Book.author_id b) (Original.authors d))
  = true
  /\ is_some (Sql.get Original.Genre.id (Original.Book.genre_id b) (Original.genres d))
     = true.

Definition original_references_ok (d : Original.db) : Prop :=
  Forall (original_book_refers d) (Original.books d).

(** Referential integrity of secure_code_4. *)
Definition secure4_book_refers (d : Secure4Api.db) (b : Secure4Api.Book.t) : Prop :=
  is_some (Sql.get Secure4Api.Author.id (Secure4Api.Book.author_id b)
             (Secure4Api.authors d)) = true
  /\ is_some (Sql.get Secure4Api.Genre.id (Secure4Api.Book.genre_id b)
                (Secure4Api.genres d)) = true.

Definition secure4_references_ok (d : Secure4Api.db) : Prop :=
  Forall (secure4_book_refers d) (Secure4Api.books d).

(** The JSON body a client makes of an object it was sent: every scalar
    field under its key. *)
Definition json_of (v : jval) : option json :=
  match v with
  | VNull => Some JNull
  | VInt n => Some (JInt n)
  | VStr s => Some (JStr s)
  | VObj _ => None
  end.

Definition body_of (o : obj) : gmap string json :=
  list_to_map
    (omap (fun kv => option_map (fun v => (fst kv, v)) (json_of (snd kv))) o).

(** The request that sends an object back as a JSON body. *)
Definition send_back (o : obj) : request := mkreq ∅ true (JObject (body_of o)).

(** A date the handlers can have stored and write in four-digit years. *)
Definition storable_date (d : option date) : Prop :=
  match d with
  | Some x => Date.make (year x) (month x) (day x) = Some x /\ 1000 <= year x
  | None => True
  end.

(** What a body parses to is JSON, and no object. *)
Definition not_an_object (p : parsed) : bool :=
  match p with
  | JArray _ | JScalar _ => true
  | JObject _ | NotJson => false
  end.


End StoreSpec.

(** ** Mansour_Microservcies_1.py: signing on behalf of a service *)

Module MicroService.

Section Simulation.

Context {L : Micro.Library}.

(** [Service.sign_message]: the message after the call; [None] is the
    [ValueError] of a sender that is not the service. *)
Definition sign_message (self : Micro.Service) (msg : Micro.Message)
  : option Micro.Message :=
  if negb (String.eqb (Micro.sender msg) (Micro.name self)) then None
  else Some (Micro.sign_with msg (Micro.hmac_key self)).

End Simulation.

End MicroService.

(** ** Dates written in the ISO form: finite tables *)

Module IsoTables.

(** The integers [lo], ..., [lo + len - 1]. *)
Definition Z_range (lo len : Z) : list Z :=
  List.map (fun i => lo + Z.of_nat i) (seq 0 (Z.to_nat len)).

(** The years [strftime] writes in four digits. *)
Definition years : list Z := Z_range 1000 9000.

(** The numbers of a month or of a day. *)
Definition small : list Z := Z_range 1 31.

(** A year as [strftime] writes it: four digits that write it. *)
Definition year_ok (y : Z) : bool :=
  match Py.str_of_int y with
  | String c1 (String c2 (String c3 (String c4 EmptyString))) =>
      Py.is_digit c1 && Py.is_digit c2 && Py.is_digit c3 && Py.is_digit c4
      && (DateSpec.number (Tables.str4 c1 c2 c3 c4 EmptyString) =? y)
  | _ => false
  end.

(** [%02d] of a month or a day: two digits that write it. *)
Definition two_ok (n : Z) : bool :=
  match Py.zero_pad 2 n with
  | String a (String b EmptyString) =>
      Py.is_digit a && Py.is_digit b && (DateSpec.number (Tables.two a b) =? n)
  | _ => false
  end.

(** What follows the year in YYYY-MM-DD. *)
Definition iso_tail (c5 c6 c7 c8 : ascii) : string :=
  String "-" (String c5 (String c6 (String "-" (Tables.two c7 c8)))).

(** The directives after %Y on the tail of a month 01-12 and a day 01-31:
    both two-digit groups match and nothing remains. *)
Definition tail_ok (c5 c6 c7 c8 : ascii) : bool :=
  negb (Tables.in_range c5 c6 c7 c8)
  || match Strptime.match_directives
             [Strptime.dir_lit "-"; Strptime.dir_m; Strptime.dir_lit "-";
              Strptime.dir_d] (iso_tail c5 c6 c7 c8) with
     | Some ([_; m; _; d], EmptyString) =>
         String.eqb m (Tables.two c5 c6) && String.eqb d (Tables.two c7 c8)
     | _ => false
     end.

End IsoTables.

(** ** More sample stores *)

Module MoreSamples.

Definition secure4_db : Secure4Api.db :=
  Secure4Api.mkdb
    [Secure4Api.Book.mk 2 "Foundation" 2 2 (mkdate 1951 6 1) (Some "Foundation series");
     Secure4Api.Book.mk 1 "The Hobbit" 1 1 (mkdate 1937 9 21) None;
     Secure4Api.Book.mk 3 "I, Robot" 2 2 (mkdate 1950 12 2) None]
    [Secure4Api.Genre.mk 1 "Fantasy" None;
     Secure4Api.Genre.mk 2 "Science Fiction" (Some "Sci-Fi")]
    [Secure4Api.Author.mk 1 "J. R. R. Tolkien" None;
     Secure4Api.Author.mk 2 "Isaac Asimov" None].

(** A stand-in for Fernet and the codec: a token is the data behind a
    marker, a text is its characters. *)
Definition toy_codec : Storage.Codec :=
  {| Storage.entropy := unit;
     Storage.fernet_encrypt := fun _ data => "t"%char :: data;
     Storage.fernet_decrypt := fun token =>
       match token with
       | c :: data => if Ascii.eqb c "t" then Some data else None
       | [] => None
       end;
     Storage.str_encode := list_ascii_of_string;
     Storage.bytes_decode := fun b => Some (string_of_list_ascii b) |}.

Definition secure3_books : list Secure3Api.Book :=
  [Secure3Api.mkBook 2 "Foundation" "Isaac Asimov" "Science Fiction" None
     (Some (mkdate 1951 6 1)) None;
   Secure3Api.mkBook 1 "The Hobbit" "J. R. R. Tolkien" "Fantasy" None
     (Some (mkdate 1937 9 21)) None;
   Secure3Api.mkBook 3 "Undated" "Nobody" "Fantasy" None None None].

End MoreSamples.
(** * Properties *)

(** ** Strings of digits *)

Lemma digit_in_digit_chars (c : ascii) :
  Py.is_digit c = true -> In c Tables.digit_chars.
Proof.
  destruct c as [[] [] [] [] [] [] [] []]; intros H;
    try discriminate H; simpl; tauto.
Qed.

Lemma for_digits4_forall f :
  Tables.for_digits4 f = true ->
  forall a b c d,
    Py.is_digit a = true -> Py.is_digit b = true ->
    Py.is_digit c = true -> Py.is_digit d = true ->
    f a b c d = true.
Proof.
  unfold Tables.for_digits4. intros H a b c d Ha Hb Hc Hd.
  rewrite forallb_forall in H.
  specialize (H a (digit_in_digit_chars a Ha)).
  rewrite forallb_forall in H.
  specialize (H b (digit_in_digit_chars b Hb)).
  rewrite forallb_forall in H.
  specialize (H c (digit_in_digit_chars c Hc)).
  rewrite forallb_forall in H.
  exact (H d (digit_in_digit_chars d Hd)).
Qed.

Lemma md_table : Tables.for_digits4 Tables.md_ok = true.
Proof. vm_compute. reflexivity. Qed.

Lemma md_newline_table : Tables.for_digits4 Tables.md_newline_ok = true.
Proof. vm_compute. reflexivity. Qed.

Lemma digit_not_space (c : ascii) : Py.is_digit c = true -> Py.is_space c = false.
Proof.
  destruct c as [[] [] [] [] [] [] [] []]; intros H;
    try discriminate H; reflexivity.
Qed.

Lemma digit_not_int_space (c : ascii) :
  Py.is_digit c = true -> Py.is_int_space c = false.
Proof.
  destruct c as [[] [] [] [] [] [] [] []]; intros H;
    try discriminate H; reflexivity.
Qed.

Lemma all_digits_cons c s :
  DateSpec.all_digits (String c s) = Py.is_digit c && DateSpec.all_digits s.
Proof. reflexivity. Qed.

Lemma rstrip_all_digits s : DateSpec.all_digits s = true -> Py.rstrip s = s.
Proof.
  induction s as [|c s IH]; [reflexivity|].
  rewrite all_digits_cons. intros [Hc Hs]%andb_prop.
  cbn [Py.rstrip]. rewrite (IH Hs).
  destruct s; [|reflexivity].
  now rewrite (digit_not_space c Hc).
Qed.

Lemma strip_all_digits s : DateSpec.all_digits s = true -> Py.strip s = s.
Proof.
  intros H. unfold Py.strip.
  destruct s as [|c s]; [reflexivity|].
  pose proof H as H'. rewrite all_digits_cons in H'.
  apply andb_prop in H' as [Hc _].
  cbn [Py.lstrip]. rewrite (digit_not_space c Hc).
  now apply rstrip_all_digits.
Qed.

Lemma int_rstrip_all_digits s : DateSpec.all_digits s = true -> Py.int_rstrip s = s.
Proof.
  induction s as [|c s IH]; [reflexivity|].
  rewrite all_digits_cons. intros [Hc Hs]%andb_prop.
  cbn [Py.int_rstrip]. rewrite (IH Hs).
  destruct s; [|reflexivity].
  now rewrite (digit_not_int_space c Hc).
Qed.

Lemma int_strip_all_digits s :
  DateSpec.all_digits s = true -> Py.int_rstrip (Py.int_lstrip s) = s.
Proof.
  intros H.
  destruct s as [|c s]; [reflexivity|].
  pose proof H as H'. rewrite all_digits_cons in H'.
  apply andb_prop in H' as [Hc _].
  cbn [Py.int_lstrip]. rewrite (digit_not_int_space c Hc).
  now apply int_rstrip_all_digits.
Qed.

Lemma count_digits_all_digits s :
  DateSpec.all_digits s = true -> Py.count_digits s = Z.of_nat (String.length s).
Proof.
  unfold Py.count_digits. intros H. f_equal.
  induction s as [|c s IH]; [reflexivity|].
  rewrite all_digits_cons in H. apply andb_prop in H as [Hc Hs].
  cbn [list_ascii_of_string List.filter String.length]. rewrite Hc.
  cbn [length]. now rewrite IH.
Qed.

Lemma int_digits_all_digits s :
  DateSpec.all_digits s = true ->
  forall st acc,
    s <> EmptyString \/ st = Py.AfterDigit ->
    Py.int_digits st acc s
    = Some (fold_left (fun a c => 10 * a + Py.digit_val c) (list_ascii_of_string s) acc).
Proof.
  induction s as [|c s IH]; intros H st acc Hne.
  - destruct Hne as [Hne | ->]; [congruence | reflexivity].
  - rewrite all_digits_cons in H. apply andb_prop in H as [Hc Hs].
    cbn [Py.int_digits list_ascii_of_string fold_left]. rewrite Hc.
    apply IH; [exact Hs | now right].
Qed.

(** [int] on a string of digits, not more than the interpreter converts. *)
Lemma int_all_digits s :
  DateSpec.all_digits s = true -> s <> EmptyString ->
  Z.of_nat (String.length s) <= Py.int_max_str_digits ->
  Py.int s = Some (DateSpec.number s).
Proof.
  intros H Hne Hlen. unfold Py.int. rewrite (int_strip_all_digits s H).
  assert (E : Py.int_literal s = Some (DateSpec.number s)).
  { unfold Py.int_literal. rewrite (count_digits_all_digits s H).
    destruct (Z.ltb_spec Py.int_max_str_digits (Z.of_nat (String.length s))); [lia|].
    apply int_digits_all_digits; [exact H | now left]. }
  destruct s as [|c s]; [congruence|].
  rewrite all_digits_cons in H. apply andb_prop in H as [Hc _].
  destruct c as [[] [] [] [] [] [] [] []]; try discriminate Hc; exact E.
Qed.

(** ** [strptime] on eight digits *)

Lemma match_year_group c1 c2 c3 c4 rest ds :
  Py.is_digit c1 = true -> Py.is_digit c2 = true ->
  Py.is_digit c3 = true -> Py.is_digit c4 = true ->
  Strptime.match_directives (Strptime.dir_Y :: ds) (Tables.str4 c1 c2 c3 c4 rest)
  = match Strptime.match_directives ds rest with
    | Some (ms, r) => Some (Tables.str4 c1 c2 c3 c4 EmptyString :: ms, r)
    | None => None
    end.
Proof.
  intros H1 H2 H3 H4. unfold Tables.str4, Strptime.dir_Y.
  cbn [Strptime.match_directives Strptime.match_seq Strptime.cclass_match].
  rewrite H1, H2, H3, H4.
  destruct (Strptime.match_directives ds rest) as [[ms r]|]; reflexivity.
Qed.

Lemma make_out_of_range y c5 c6 c7 c8 :
  Tables.in_range c5 c6 c7 c8 = false ->
  Date.make y (10 * Py.digit_val c5 + Py.digit_val c6)
              (10 * Py.digit_val c7 + Py.digit_val c8) = None.
Proof.
  unfold Tables.in_range, Date.make, Date.days_in_month.
  set (m := 10 * Py.digit_val c5 + Py.digit_val c6).
  set (d := 10 * Py.digit_val c7 + Py.digit_val c8).
  intros H.
  destruct (Date.MINYEAR <=? y), (y <=? Date.MAXYEAR); try reflexivity.
  cbn [andb].
  destruct (1 <=? m) eqn:E1; [|reflexivity].
  destruct (m <=? 12) eqn:E2; [|reflexivity].
  destruct (1 <=? d) eqn:E3; [|reflexivity].
  cbn [andb] in *.
  assert (Hd : 31 < d) by (apply Z.leb_gt; exact H).
  assert (E4 : forall k, k <= 31 -> (d <=? k) = false)
    by (intros k Hk; apply Z.leb_gt; lia).
  destruct (m =? 2); [destruct (Date.is_leap y)|destruct (_ || _)];
    rewrite E4 by lia; reflexivity.
Qed.

Lemma number_two a b :
  DateSpec.number (Tables.two a b) = 10 * Py.digit_val a + Py.digit_val b.
Proof. unfold DateSpec.number, Tables.two. cbn. lia. Qed.

Lemma denoted8_out_of_range c1 c2 c3 c4 c5 c6 c7 c8 :
  Tables.in_range c5 c6 c7 c8 = false ->
  Tables.denoted8 c1 c2 c3 c4 c5 c6 c7 c8 = None.
Proof.
  intros H. unfold Tables.denoted8. rewrite !number_two.
  now apply make_out_of_range.
Qed.

Section EightDigits.

Variables c1 c2 c3 c4 c5 c6 c7 c8 : ascii.
Hypothesis D : Tables.digits8 c1 c2 c3 c4 c5 c6 c7 c8.

Lemma all_digits_year :
  DateSpec.all_digits (Tables.str4 c1 c2 c3 c4 EmptyString) = true.
Proof.
  destruct D as (H1 & H2 & H3 & H4 & _).
  unfold Tables.str4. rewrite !all_digits_cons, H1, H2, H3, H4. reflexivity.
Qed.

Lemma all_digits_month : DateSpec.all_digits (Tables.two c5 c6) = true.
Proof.
  destruct D as (_ & _ & _ & _ & H5 & H6 & _).
  unfold Tables.two. rewrite !all_digits_cons, H5, H6. reflexivity.
Qed.

Lemma all_digits_day : DateSpec.all_digits (Tables.two c7 c8) = true.
Proof.
  destruct D as (_ & _ & _ & _ & _ & _ & H7 & H8).
  unfold Tables.two. rewrite !all_digits_cons, H7, H8. reflexivity.
Qed.

Lemma all_digits_str8 :
  DateSpec.all_digits (Tables.str8 c1 c2 c3 c4 c5 c6 c7 c8 EmptyString) = true.
Proof.
  destruct D as (H1 & H2 & H3 & H4 & H5 & H6 & H7 & H8).
  unfold Tables.str8, Tables.str4.
  rewrite !all_digits_cons, H1, H2, H3, H4, H5, H6, H7, H8. reflexivity.
Qed.

Lemma denoted_date_str8 :
  DateSpec.denoted_date (Tables.str8 c1 c2 c3 c4 c5 c6 c7 c8 EmptyString)
  = Tables.denoted8 c1 c2 c3 c4 c5 c6 c7 c8.
Proof.
  unfold DateSpec.denoted_date, DateSpec.is_yyyymmdd.
  rewrite all_digits_str8. reflexivity.
Qed.

Lemma date_of_groups_str8 :
  Strptime.date_of_groups (Tables.str4 c1 c2 c3 c4 EmptyString) (Tables.two c5 c6)
    (Tables.two c7 c8)
  = Tables.denoted8 c1 c2 c3 c4 c5 c6 c7 c8.
Proof.
  unfold Strptime.date_of_groups.
  rewrite (int_all_digits _ all_digits_year) by (discriminate || (cbn; lia)).
  rewrite (int_all_digits _ all_digits_month) by (discriminate || (cbn; lia)).
  rewrite (int_all_digits _ all_digits_day) by (discriminate || (cbn; lia)).
  reflexivity.
Qed.

Lemma strptime_Ymd_str8 :
  Strptime.Ymd (Tables.str8 c1 c2 c3 c4 c5 c6 c7 c8 EmptyString)
  = Tables.denoted8 c1 c2 c3 c4 c5 c6 c7 c8.
Proof.
  pose proof D as (H1 & H2 & H3 & H4 & H5 & H6 & H7 & H8).
  unfold Strptime.Ymd, Tables.str8.
  rewrite (match_year_group c1 c2 c3 c4 _ _ H1 H2 H3 H4).
  pose proof (for_digits4_forall _ md_table c5 c6 c7 c8 H5 H6 H7 H8) as T.
  unfold Tables.md_ok in T. unfold Tables.str4 at 2.
  fold (Tables.two c7 c8).
  destruct (Strptime.match_directives _ _) as [[ms r]|].
  - destruct ms as [|m [|d [|x ms]]], r as [|r0 r];
      try (rewrite denoted8_out_of_range by (now apply negb_true_iff); reflexivity).
    apply andb_prop in T as [[Tm%String.eqb_eq Td%String.eqb_eq]%andb_prop _].
    subst m d. apply date_of_groups_str8.
  - rewrite denoted8_out_of_range by (now apply negb_true_iff). reflexivity.
Qed.

Lemma strptime_Ymd_str8_newline :
  Strptime.Ymd (Tables.str8 c1 c2 c3 c4 c5 c6 c7 c8 (String "010" EmptyString))
  = None.
Proof.
  pose proof D as (H1 & H2 & H3 & H4 & H5 & H6 & H7 & H8).
  unfold Strptime.Ymd, Tables.str8.
  rewrite (match_year_group c1 c2 c3 c4 _ _ H1 H2 H3 H4).
  pose proof (for_digits4_forall _ md_newline_table c5 c6 c7 c8 H5 H6 H7 H8) as T.
  unfold Tables.md_newline_ok in T. unfold Tables.str4 at 2.
  destruct (Strptime.match_directives _ _) as [[ms r]|]; [|reflexivity].
  destruct r; [discriminate T|].
  destruct ms as [|m [|d [|x ms]]]; reflexivity.
Qed.

Lemma match_8_digits_str8 tail :
  Regex.match_8_digits (Tables.str8 c1 c2 c3 c4 c5 c6 c7 c8 tail)
  = Regex.at_dollar tail.
Proof.
  destruct D as (H1 & H2 & H3 & H4 & H5 & H6 & H7 & H8).
  unfold Regex.match_8_digits, Tables.str8, Tables.str4. cbn [Regex.digits].
  now rewrite H1, H2, H3, H4, H5, H6, H7, H8.
Qed.

End EightDigits.

(** ** The shape of the strings the helpers let through *)

Lemma at_dollar_shape tail :
  Regex.at_dollar tail = true ->
  tail = EmptyString \/ tail = String "010" EmptyString.
Proof.
  destruct tail as [|c [|c' t]]; [now left | |].
  - destruct c as [[] [] [] [] [] [] [] []]; intros H;
      try discriminate H; now right.
  - destruct c as [[] [] [] [] [] [] [] []]; intros H; discriminate H.
Qed.

Lemma match_8_digits_shape s :
  Regex.match_8_digits s = true ->
  exists c1 c2 c3 c4 c5 c6 c7 c8 tail,
    s = Tables.str8 c1 c2 c3 c4 c5 c6 c7 c8 tail
    /\ Tables.digits8 c1 c2 c3 c4 c5 c6 c7 c8
    /\ (tail = EmptyString \/ tail = String "010" EmptyString).
Proof.
  unfold Regex.match_8_digits.
  destruct s as [|c1 s]; [discriminate|]; cbn [Regex.digits];
    destruct (Py.is_digit c1) eqn:H1; [|discriminate].
  destruct s as [|c2 s]; [discriminate|]; cbn [Regex.digits];
    destruct (Py.is_digit c2) eqn:H2; [|discriminate].
  destruct s as [|c3 s]; [discriminate|]; cbn [Regex.digits];
    destruct (Py.is_digit c3) eqn:H3; [|discriminate].
  destruct s as [|c4 s]; [discriminate|]; cbn [Regex.digits];
    destruct (Py.is_digit c4) eqn:H4; [|discriminate].
  destruct s as [|c5 s]; [discriminate|]; cbn [Regex.digits];
    destruct (Py.is_digit c5) eqn:H5; [|discriminate].
  destruct s as [|c6 s]; [discriminate|]; cbn [Regex.digits];
    destruct (Py.is_digit c6) eqn:H6; [|discriminate].
  destruct s as [|c7 s]; [discriminate|]; cbn [Regex.digits];
    destruct (Py.is_digit c7) eqn:H7; [|discriminate].
  destruct s as [|c8 s]; [discriminate|]; cbn [Regex.digits];
    destruct (Py.is_digit c8) eqn:H8; [|discriminate].
  intros H. exists c1, c2, c3, c4, c5, c6, c7, c8, s.
  split; [reflexivity|]. split; [repeat split; assumption|].
  now apply at_dollar_shape.
Qed.

Lemma is_yyyymmdd_shape s :
  DateSpec.is_yyyymmdd s = true ->
  exists c1 c2 c3 c4 c5 c6 c7 c8,
    s = Tables.str8 c1 c2 c3 c4 c5 c6 c7 c8 EmptyString
    /\ Tables.digits8 c1 c2 c3 c4 c5 c6 c7 c8.
Proof.
  unfold DateSpec.is_yyyymmdd. intros [L Ds]%andb_prop.
  apply Nat.eqb_eq in L.
  do 8 (destruct s as [|? s]; [discriminate L|]).
  destruct s; [|discriminate L].
  rewrite !all_digits_cons in Ds.
  repeat (apply andb_prop in Ds as [? Ds]).
  do 8 eexists. split; [reflexivity|]. repeat split; assumption.
Qed.

Lemma is_yyyymmdd_matches s :
  DateSpec.is_yyyymmdd s = true -> Regex.match_8_digits s = true.
Proof.
  intros (c1 & c2 & c3 & c4 & c5 & c6 & c7 & c8 & -> & D)%is_yyyymmdd_shape.
  now rewrite match_8_digits_str8.
Qed.

Lemma denoted_date_not_matching s :
  Regex.match_8_digits s = false -> DateSpec.denoted_date s = None.
Proof.
  intros M. unfold DateSpec.denoted_date.
  destruct (DateSpec.is_yyyymmdd s) eqn:E; [|reflexivity].
  apply is_yyyymmdd_matches in E. congruence.
Qed.

Lemma falsy_str8 c1 c2 c3 c4 c5 c6 c7 c8 tail :
  Py.falsy (Tables.str8 c1 c2 c3 c4 c5 c6 c7 c8 tail) = false.
Proof. reflexivity. Qed.

Lemma denoted_date_str8_newline c1 c2 c3 c4 c5 c6 c7 c8 :
  DateSpec.denoted_date
    (Tables.str8 c1 c2 c3 c4 c5 c6 c7 c8 (String "010" EmptyString)) = None.
Proof. reflexivity. Qed.

(** ** The three date parsers against the specification *)

Lemma original_parse_api_date_spec (s : string) :
  Original.parse_api_date (Some s) = DateSpec.denoted_date s.
Proof.
  unfold Original.parse_api_date.
  destruct (Regex.match_8_digits s) eqn:M.
  - destruct (match_8_digits_shape s M)
      as (c1 & c2 & c3 & c4 & c5 & c6 & c7 & c8 & tail & -> & D & [-> | ->]);
      rewrite falsy_str8; cbn [negb].
    + now rewrite strptime_Ymd_str8, denoted_date_str8.
    + now rewrite strptime_Ymd_str8_newline, denoted_date_str8_newline.
  - rewrite (denoted_date_not_matching s M).
    now destruct (Py.falsy s).
Qed.

Lemma secure2_parse_str8 c1 c2 c3 c4 c5 c6 c7 c8 tail :
  Tables.digits8 c1 c2 c3 c4 c5 c6 c7 c8 ->
  Regex.at_dollar tail = true ->
  Secure2.parse_yyyymmdd (Tables.str8 c1 c2 c3 c4 c5 c6 c7 c8 tail)
  = DateSpec.denoted_date (Tables.str8 c1 c2 c3 c4 c5 c6 c7 c8 EmptyString).
Proof.
  intros D T. unfold Secure2.parse_yyyymmdd.
  rewrite falsy_str8, (match_8_digits_str8 _ _ _ _ _ _ _ _ D), T. cbn [negb].
  rewrite (denoted_date_str8 _ _ _ _ _ _ _ _ D).
  rewrite <- (date_of_groups_str8 _ _ _ _ _ _ _ _ D).
  apply at_dollar_shape in T as [-> | ->]; reflexivity.
Qed.

Lemma secure2_parse_yyyymmdd_spec (s : string) :
  DateSpec.ends_with_newline s = false ->
  Secure2.parse_yyyymmdd s = DateSpec.denoted_date s.
Proof.
  intros NL.
  destruct (Regex.match_8_digits s) eqn:M.
  - destruct (match_8_digits_shape s M)
      as (c1 & c2 & c3 & c4 & c5 & c6 & c7 & c8 & tail & -> & D & [-> | ->]).
    + now apply secure2_parse_str8.
    + discriminate NL.
  - rewrite (denoted_date_not_matching s M).
    unfold Secure2.parse_yyyymmdd. rewrite M. now destruct (Py.falsy s).
Qed.

Lemma secure4_parse_yyyymmdd_accepts dateparse (s : string) (d : date) :
  DateSpec.denoted_date s = Some d ->
  Secure4.parse_yyyymmdd dateparse s = Some d.
Proof.
  intros E. pose proof E as E'. unfold DateSpec.denoted_date in E'.
  destruct (DateSpec.is_yyyymmdd s) eqn:Y; [clear E'|discriminate E'].
  destruct (is_yyyymmdd_shape s Y)
    as (c1 & c2 & c3 & c4 & c5 & c6 & c7 & c8 & -> & D).
  unfold Secure4.parse_yyyymmdd.
  rewrite falsy_str8, (strip_all_digits _ (all_digits_str8 _ _ _ _ _ _ _ _ D)).
  rewrite (strptime_Ymd_str8 _ _ _ _ _ _ _ _ D).
  rewrite <- (denoted_date_str8 _ _ _ _ _ _ _ _ D). now rewrite E.
Qed.

(** C1 (as amended).  On every string, the original's [parse_api_date]
    returns the calendar date the string denotes exactly when the string is
    eight digits YYYYMMDD that denote one (years 1 to 9999), and [None] on
    every other string; secure_code_2's [parse_yyyymmdd] does the same on
    every string that does not end in a newline; secure_code_4's
    [parse_yyyymmdd] returns that date on every such 8-digit string, whatever
    its dateutil fallback does on the others. *)
Theorem date_parser_on_yyyymmdd (s : string) :
  Original.parse_api_date (Some s) = DateSpec.denoted_date s
  /\ (DateSpec.ends_with_newline s = false ->
      Secure2.parse_yyyymmdd s = DateSpec.denoted_date s)
  /\ (forall d, DateSpec.denoted_date s = Some d ->
      forall dateparse, Secure4.parse_yyyymmdd dateparse s = Some d).
Proof.
  split; [apply original_parse_api_date_spec|].
  split; [apply secure2_parse_yyyymmdd_spec|].
  intros d E dateparse. now apply secure4_parse_yyyymmdd_accepts.
Qed.

Lemma date_parser_on_yyyymmdd_witness :
  Original.parse_api_date (Some "20200229") = Some (mkdate 2020 2 29)
  /\ Secure2.parse_yyyymmdd "20200229" = Some (mkdate 2020 2 29)
  /\ Secure4.parse_yyyymmdd (fun _ => None) "20200229" = Some (mkdate 2020 2 29)
  /\ Original.parse_api_date (Some "20210229") = None
  /\ Secure2.parse_yyyymmdd "2021-02-28" = None.
Proof.
  destruct (date_parser_on_yyyymmdd "20200229") as (A & B & C).
  destruct (date_parser_on_yyyymmdd "20210229") as (A' & _).
  destruct (date_parser_on_yyyymmdd "2021-02-28") as (_ & B' & _).
  split; [rewrite A; reflexivity|].
  split; [rewrite B; reflexivity|].
  split; [apply C; reflexivity|].
  split; [rewrite A'; reflexivity|].
  rewrite B'; reflexivity.
Defined.

(** C1 as stated fails on secure_code_4: its [parse_yyyymmdd] returns a date
    for the ISO form, which is not an 8-digit string. *)
Lemma secure4_parse_yyyymmdd_accepts_iso :
  (forall dateparse,
      Secure4.parse_yyyymmdd dateparse "2020-01-01" = Some (mkdate 2020 1 1))
  /\ DateSpec.is_yyyymmdd "2020-01-01" = false
  /\ DateSpec.denoted_date "2020-01-01" = None.
Proof. repeat split. Qed.

(** secure_code_2's pattern ends in [$], which also matches before a final
    newline: nine characters yield a date. *)
Lemma secure2_parse_yyyymmdd_trailing_newline :
  Secure2.parse_yyyymmdd (String.append "20200101" (String "010" EmptyString))
  = Some (mkdate 2020 1 1)
  /\ Original.parse_api_date
       (Some (String.append "20200101" (String "010" EmptyString))) = None.
Proof. split; reflexivity. Qed.

(** ** Queries: ordering and windows *)

Section SqlFacts.

Context {row : Type}.
Variable key : row -> Z.

Lemma insert_sorted_perm r rows :
  Permutation (Sql.insert_sorted key r rows) (r :: rows).
Proof.
  induction rows as [|x rows IH]; cbn [Sql.insert_sorted]; [reflexivity|].
  destruct (key r <=? key x); [reflexivity|].
  rewrite IH. apply perm_swap.
Qed.

Lemma order_by_perm rows : Permutation (Sql.order_by key rows) rows.
Proof.
  induction rows as [|x rows IH]; [reflexivity|].
  cbn [Sql.order_by fold_right]. rewrite insert_sorted_perm.
  now apply perm_skip.
Qed.

Lemma insert_sorted_hd r x rows :
  key x <= key r -> HdRel (fun a b => key a <= key b) x rows ->
  HdRel (fun a b => key a <= key b) x (Sql.insert_sorted key r rows).
Proof.
  intros Hxr H. destruct rows as [|y rows]; cbn [Sql.insert_sorted].
  - now constructor.
  - destruct (key r <=? key y); constructor; [exact Hxr|].
    now inversion H.
Qed.

Lemma insert_sorted_sorted r rows :
  Sorted (fun a b => key a <= key b) rows -> Sorted (fun a b => key a <= key b) (Sql.insert_sorted key r rows).
Proof.
  induction 1 as [|x rows Hs IH Hh]; cbn [Sql.insert_sorted].
  - repeat constructor.
  - destruct (key r <=? key x) eqn:E.
    + apply Z.leb_le in E. constructor; [now constructor|now constructor].
    + apply Z.leb_gt in E. constructor; [exact IH|].
      apply insert_sorted_hd; [lia | exact Hh].
Qed.

Lemma order_by_sorted rows : Sorted (fun a b => key a <= key b) (Sql.order_by key rows).
Proof.
  induction rows as [|x rows IH]; [constructor|].
  cbn [Sql.order_by fold_right]. now apply insert_sorted_sorted.
Qed.

Lemma order_by_selection selected stored :
  PageSpec.is_ordered_selection key selected stored
    (Sql.order_by key (List.filter selected stored)).
Proof. split; [apply order_by_perm | apply order_by_sorted]. Qed.

Lemma skip_skipn (rows : list row) (n : Z) :
  Sql.skip n rows = skipn (Z.to_nat n) rows.
Proof.
  revert n. induction rows as [|r rows IH]; intros n; cbn [Sql.skip].
  - now rewrite skipn_nil.
  - destruct (Z.ltb_spec 0 n) as [H|H].
    + rewrite IH. replace (Z.to_nat n) with (S (Z.to_nat (n - 1))) by lia.
      reflexivity.
    + now replace (Z.to_nat n) with 0%nat by lia.
Qed.

Lemma take_firstn (rows : list row) (n : Z) :
  Sql.take n rows = firstn (Z.to_nat n) rows.
Proof.
  revert n. induction rows as [|r rows IH]; intros n; cbn [Sql.take].
  - now rewrite firstn_nil.
  - destruct (Z.ltb_spec 0 n) as [H|H].
    + rewrite IH. replace (Z.to_nat n) with (S (Z.to_nat (n - 1))) by lia.
      reflexivity.
    + now replace (Z.to_nat n) with 0%nat by lia.
Qed.

Lemma offset_0 (rows : list row) : Sql.offset 0 rows = Some rows.
Proof. now destruct rows. Qed.

(** The rows of SELECT ... LIMIT [limit] OFFSET [offset]. *)
Lemma limit_offset_run (rows : list row) (offset limit : Z) :
  Sql.offset offset rows ≫= Sql.limit limit
  = if Sql.is_int64 offset && Sql.is_int64 limit
    then Some (if limit <? 0 then skipn (Z.to_nat offset) rows
               else firstn (Z.to_nat limit) (skipn (Z.to_nat offset) rows))
    else None.
Proof.
  unfold Sql.offset, Sql.limit.
  destruct (Sql.is_int64 offset); [|reflexivity]. cbn [mbind option_bind andb].
  destruct (Sql.is_int64 limit); [|reflexivity].
  now rewrite take_firstn, skip_skipn.
Qed.

Lemma is_int64_nonneg (n : Z) :
  0 <= n -> Sql.is_int64 n = true <-> n < 2 ^ 63.
Proof.
  intros H. unfold Sql.is_int64. change (2 ^ 63) with 9223372036854775808.
  rewrite andb_true_iff, !Z.leb_le. lia.
Qed.

Lemma limit_offset_window (rows : list row) (offset limit : Z) :
  0 <= limit < 2 ^ 63 -> 0 <= offset < 2 ^ 63 ->
  exists items,
    Sql.offset offset rows ≫= Sql.limit limit = Some items
    /\ PageSpec.is_window rows offset limit items.
Proof.
  intros Hl Ho. rewrite limit_offset_run.
  rewrite (proj2 (is_int64_nonneg offset (proj1 Ho)) (proj2 Ho)).
  rewrite (proj2 (is_int64_nonneg limit (proj1 Hl)) (proj2 Hl)). cbn [andb].
  eexists. split; [reflexivity|]. intros i.
  destruct (limit <? 0) eqn:E; [apply Z.ltb_lt in E; lia|].
  rewrite nth_error_firstn, nth_error_skipn.
  destruct (Nat.ltb_spec i (Z.to_nat limit)), (Z.ltb_spec (Z.of_nat i) limit);
    try reflexivity; lia.
Qed.

Lemma limit_offset_overflow (rows : list row) (offset limit : Z) :
  0 <= limit -> 0 <= offset -> 2 ^ 63 <= limit \/ 2 ^ 63 <= offset ->
  Sql.offset offset rows ≫= Sql.limit limit = None.
Proof.
  intros Hl Ho H. rewrite limit_offset_run.
  destruct (Sql.is_int64 offset) eqn:Eo; [|reflexivity].
  destruct (Sql.is_int64 limit) eqn:El; [|reflexivity].
  apply (is_int64_nonneg _ Ho) in Eo. apply (is_int64_nonneg _ Hl) in El. lia.
Qed.

End SqlFacts.


(** ** Listing books: pagination *)

Lemma original_api_books_run (d : Original.db) (args : gmap string string)
    (limit offset : Z) :
  arg_int args "limit" 10 = Some limit ->
  arg_int args "offset" 0 = Some offset ->
  Original.api_books_GET d args
  = match Sql.offset offset
            (Original.books_query (Original.parse_api_date (args !! "after_date"))
               (Original.parse_api_date (args !! "before_date")) d)
          ≫= Sql.limit limit with
    | Some items => (JsonList (List.map (Original.book_to_dict d) items), 200)
    | None => (ServerError, 500)
    end.
Proof.
  intros Hl Ho. unfold Original.api_books_GET, Original.limit_offset_args.
  now rewrite Hl, Ho.
Qed.

Lemma original_api_books_window (d : Original.db) (args : gmap string string)
    (limit offset : Z) :
  arg_int args "limit" 10 = Some limit ->
  arg_int args "offset" 0 = Some offset ->
  0 <= limit -> 0 <= offset ->
  (limit < 2 ^ 63 -> offset < 2 ^ 63 ->
   exists rows items,
     PageSpec.is_ordered_selection Original.Book.id
       (Original.date_filter (Original.parse_api_date (args !! "after_date"))
                             (Original.parse_api_date (args !! "before_date")))
       (Original.books d) rows
     /\ PageSpec.is_window rows offset limit items
     /\ Original.api_books_GET d args
        = (JsonList (List.map (Original.book_to_dict d) items), 200))
  /\ (2 ^ 63 <= limit \/ 2 ^ 63 <= offset ->
      Original.api_books_GET d args = (ServerError, 500)).
Proof.
  intros Hl Ho Hl0 Ho0. rewrite (original_api_books_run d args limit offset Hl Ho).
  split.
  - intros Hl1 Ho1.
    destruct (limit_offset_window
                (Original.books_query (Original.parse_api_date (args !! "after_date"))
                   (Original.parse_api_date (args !! "before_date")) d)
                offset limit ltac:(lia) ltac:(lia)) as (items & -> & W).
    eexists _, items. split; [apply order_by_selection|]. now split.
  - intros H. now rewrite limit_offset_overflow.
Qed.

Lemma secure2_api_books_run (d : Secure2.db) (args : gmap string string)
    (limit offset : Z) :
  arg_int args "limit" 10 = Some limit ->
  arg_int args "offset" 0 = Some offset ->
  0 <= limit -> 0 <= offset ->
  (raw_truthy (args !! "before_date") = true ->
   is_some (Secure2.parse_raw (args !! "before_date")) = true) ->
  (raw_truthy (args !! "after_date") = true ->
   is_some (Secure2.parse_raw (args !! "after_date")) = true) ->
  Secure2.api_books_GET d args
  = match Sql.offset offset
            (Secure2.books_query (Secure2.parse_raw (args !! "after_date"))
               (Secure2.parse_raw (args !! "before_date")) d)
          ≫= Sql.limit limit with
    | Some items => (JsonList (List.map Secure2.to_dict items), 200)
    | None => (ServerError, 500)
    end.
Proof.
  intros Hl Ho Hl0 Ho0 Hb Ha.
  unfold Secure2.api_books_GET. rewrite Hl, Ho.
  destruct (Z.ltb_spec limit 0); [lia|].
  destruct (Z.ltb_spec offset 0); [lia|]. cbn [orb].
  destruct (raw_truthy (args !! "before_date")); [rewrite Hb by reflexivity|];
    (destruct (raw_truthy (args !! "after_date")); [rewrite Ha by reflexivity|]);
    reflexivity.
Qed.

Lemma secure2_api_books_window (d : Secure2.db) (args : gmap string string)
    (limit offset : Z) :
  arg_int args "limit" 10 = Some limit ->
  arg_int args "offset" 0 = Some offset ->
  0 <= limit -> 0 <= offset ->
  (raw_truthy (args !! "before_date") = true ->
   is_some (Secure2.parse_raw (args !! "before_date")) = true) ->
  (raw_truthy (args !! "after_date") = true ->
   is_some (Secure2.parse_raw (args !! "after_date")) = true) ->
  (limit < 2 ^ 63 -> offset < 2 ^ 63 ->
   exists rows items,
     PageSpec.is_ordered_selection Secure2.Book_ID
       (Secure2.date_filter (Secure2.parse_raw (args !! "after_date"))
                            (Secure2.parse_raw (args !! "before_date")))
       (Secure2.books d) rows
     /\ PageSpec.is_window rows offset limit items
     /\ Secure2.api_books_GET d args = (JsonList (List.map Secure2.to_dict items), 200))
  /\ (2 ^ 63 <= limit \/ 2 ^ 63 <= offset ->
      Secure2.api_books_GET d args = (ServerError, 500)).
Proof.
  intros Hl Ho Hl0 Ho0 Hb Ha.
  rewrite (secure2_api_books_run d args limit offset Hl Ho Hl0 Ho0 Hb Ha).
  split.
  - intros Hl1 Ho1.
    destruct (limit_offset_window
                (Secure2.books_query (Secure2.parse_raw (args !! "after_date"))
                   (Secure2.parse_raw (args !! "before_date")) d)
                offset limit ltac:(lia) ltac:(lia)) as (items & -> & W).
    eexists _, items. split; [apply order_by_selection|]. now split.
  - intros H. now rewrite limit_offset_overflow.
Qed.

Lemma remove3_parse_not_truthy dp raw :
  raw_truthy raw = false -> Remove3.parse_yyyymmdd dp raw = (None, None).
Proof.
  destruct raw as [v|]; [|reflexivity]. cbn [raw_truthy Remove3.parse_yyyymmdd].
  now destruct (Py.falsy v).
Qed.

Lemma remove3_api_books_run dp (books : list Remove3.Book)
    (args : gmap string string) (limit offset : Z) (before after : option date) :
  Remove3.arg_typed_int args "limit" = Some limit ->
  match Remove3.arg_typed_int args "offset" with Some o => o | None => 0 end
  = offset ->
  0 < limit -> 0 <= offset ->
  Remove3.parse_yyyymmdd dp
    (Remove3.or_arg (args !! "before_date") (args !! "before")) = (before, None) ->
  Remove3.parse_yyyymmdd dp
    (Remove3.or_arg (args !! "after_date") (args !! "after")) = (after, None) ->
  Remove3.api_books_GET dp books args
  = match Sql.offset offset (Remove3.books_query after before books)
          ≫= Sql.limit limit with
    | Some items => (JsonList (List.map Remove3.to_dict items), 200)
    | None => (ServerError, 500)
    end.
Proof.
  intros Hl Ho Hl0 Ho0 Hb Ha.
  unfold Remove3.api_books_GET. rewrite Hl, Ho.
  set (braw := Remove3.or_arg (args !! "before_date") (args !! "before")) in *.
  set (araw := Remove3.or_arg (args !! "after_date") (args !! "after")) in *.
  assert (Eb : (if raw_truthy braw then Remove3.parse_yyyymmdd dp braw
                else (None, None)) = (before, None)).
  { destruct (raw_truthy braw) eqn:E; [exact Hb|].
    now rewrite <- Hb, remove3_parse_not_truthy. }
  assert (Ea : (if raw_truthy araw then Remove3.parse_yyyymmdd dp araw
                else (None, None)) = (after, None)).
  { destruct (raw_truthy araw) eqn:E; [exact Ha|].
    now rewrite <- Ha, remove3_parse_not_truthy. }
  rewrite Eb, Ea.
  destruct (Z.ltb_spec 0 limit); [|lia].
  destruct (Z.ltb_spec 0 offset); [reflexivity|].
  replace offset with 0 by lia. now rewrite offset_0.
Qed.

Lemma remove3_api_books_window dp (books : list Remove3.Book)
    (args : gmap string string) (limit offset : Z) (before after : option date) :
  Remove3.arg_typed_int args "limit" = Some limit ->
  match Remove3.arg_typed_int args "offset" with Some o => o | None => 0 end
  = offset ->
  0 < limit -> 0 <= offset ->
  Remove3.parse_yyyymmdd dp
    (Remove3.or_arg (args !! "before_date") (args !! "before")) = (before, None) ->
  Remove3.parse_yyyymmdd dp
    (Remove3.or_arg (args !! "after_date") (args !! "after")) = (after, None) ->
  (limit < 2 ^ 63 -> offset < 2 ^ 63 ->
   exists rows items,
     PageSpec.is_ordered_selection Remove3.Book_ID
       (Remove3.date_filter after before) books rows
     /\ PageSpec.is_window rows offset limit items
     /\ Remove3.api_books_GET dp books args
        = (JsonList (List.map Remove3.to_dict items), 200))
  /\ (2 ^ 63 <= limit \/ 2 ^ 63 <= offset ->
      Remove3.api_books_GET dp books args = (ServerError, 500)).
Proof.
  intros Hl Ho Hl0 Ho0 Hb Ha.
  rewrite (remove3_api_books_run dp books args limit offset before after
             Hl Ho Hl0 Ho0 Hb Ha).
  split.
  - intros Hl1 Ho1.
    destruct (limit_offset_window (Remove3.books_query after before books)
                offset limit ltac:(lia) ltac:(lia)) as (items & -> & W).
    eexists _, items. split; [apply order_by_selection|]. now split.
  - intros H. rewrite limit_offset_overflow; [reflexivity | lia | lia | exact H].
Qed.

(** C2 (as amended).  For every stored collection of books, every offset
    >= 0 and every limit >= 0 (every limit >= 1 in remove_3, which reads a
    limit of 0 as no limit), a list request that passes the handler's
    validation of its arguments is answered as follows.  When limit and
    offset are below 2^63, with status 200 and exactly the rows that
    satisfy the date filter, in ascending order of book id, at the index
    positions [offset, offset+limit) of that ordered result.  When one of
    them is 2^63 or more, the query cannot be run and the answer is 500. *)
Theorem api_books_returns_window :
  (forall (d : Original.db) (args : gmap string string) (limit offset : Z),
      arg_int args "limit" 10 = Some limit ->
      arg_int args "offset" 0 = Some offset ->
      0 <= limit -> 0 <= offset ->
      (limit < 2 ^ 63 -> offset < 2 ^ 63 ->
       exists rows items,
         PageSpec.is_ordered_selection Original.Book.id
           (Original.date_filter (Original.parse_api_date (args !! "after_date"))
                                 (Original.parse_api_date (args !! "before_date")))
           (Original.books d) rows
         /\ PageSpec.is_window rows offset limit items
         /\ Original.api_books_GET d args
            = (JsonList (List.map (Original.book_to_dict d) items), 200))
      /\ (2 ^ 63 <= limit \/ 2 ^ 63 <= offset ->
          Original.api_books_GET d args = (ServerError, 500)))
  /\ (forall (d : Secure2.db) (args : gmap string string) (limit offset : Z),
      arg_int args "limit" 10 = Some limit ->
      arg_int args "offset" 0 = Some offset ->
      0 <= limit -> 0 <= offset ->
      (raw_truthy (args !! "before_date") = true ->
       is_some (Secure2.parse_raw (args !! "before_date")) = true) ->
      (raw_truthy (args !! "after_date") = true ->
       is_some (Secure2.parse_raw (args !! "after_date")) = true) ->
      (limit < 2 ^ 63 -> offset < 2 ^ 63 ->
       exists rows items,
         PageSpec.is_ordered_selection Secure2.Book_ID
           (Secure2.date_filter (Secure2.parse_raw (args !! "after_date"))
                                (Secure2.parse_raw (args !! "before_date")))
           (Secure2.books d) rows
         /\ PageSpec.is_window rows offset limit items
         /\ Secure2.api_books_GET d args
            = (JsonList (List.map Secure2.to_dict items), 200))
      /\ (2 ^ 63 <= limit \/ 2 ^ 63 <= offset ->
          Secure2.api_books_GET d args = (ServerError, 500)))
  /\ (forall dp (books : list Remove3.Book) (args : gmap string string)
             (limit offset : Z) (before after : option date),
      Remove3.arg_typed_int args "limit" = Some limit ->
      match Remove3.arg_typed_int args "offset" with Some o => o | None => 0 end
      = offset ->
      0 < limit -> 0 <= offset ->
      Remove3.parse_yyyymmdd dp
        (Remove3.or_arg (args !! "before_date") (args !! "before")) = (before, None) ->
      Remove3.parse_yyyymmdd dp
        (Remove3.or_arg (args !! "after_date") (args !! "after")) = (after, None) ->
      (limit < 2 ^ 63 -> offset < 2 ^ 63 ->
       exists rows items,
         PageSpec.is_ordered_selection Remove3.Book_ID
           (Remove3.date_filter after before) books rows
         /\ PageSpec.is_window rows offset limit items
         /\ Remove3.api_books_GET dp books args
            = (JsonList (List.map Remove3.to_dict items), 200))
      /\ (2 ^ 63 <= limit \/ 2 ^ 63 <= offset ->
          Remove3.api_books_GET dp books args = (ServerError, 500))).
Proof.
  split; [exact original_api_books_window|].
  split; [exact secure2_api_books_window|exact remove3_api_books_window].
Qed.

Lemma api_books_returns_window_witness :
  (exists rows items,
      PageSpec.is_ordered_selection Original.Book.id
        (Original.date_filter None None) (Original.books Samples.original_db) rows
      /\ PageSpec.is_window rows 1 2 items
      /\ Original.api_books_GET Samples.original_db
           (Samples.query [("limit", "2"); ("offset", "1")])
         = (JsonList (List.map (Original.book_to_dict Samples.original_db) items), 200))
  /\ (exists rows items,
      PageSpec.is_ordered_selection Secure2.Book_ID
        (Secure2.date_filter None None) (Secure2.books Samples.secure2_db) rows
      /\ PageSpec.is_window rows 1 0 items
      /\ Secure2.api_books_GET Samples.secure2_db
           (Samples.query [("limit", "0"); ("offset", "1")])
         = (JsonList (List.map Secure2.to_dict items), 200))
  /\ Secure2.api_books_GET Samples.secure2_db
       (Samples.query [("limit", "9223372036854775808")])
     = (ServerError, 500)
  /\ (exists rows items,
      PageSpec.is_ordered_selection Remove3.Book_ID
        (Remove3.date_filter None None) Samples.remove3_books rows
      /\ PageSpec.is_window rows 0 1 items
      /\ Remove3.api_books_GET (fun _ => None) Samples.remove3_books
           (Samples.query [("limit", "1")])
         = (JsonList (List.map Remove3.to_dict items), 200)).
Proof.
  destruct api_books_returns_window as (A & B & C).
  split; [|split; [|split]].
  - apply (A Samples.original_db (Samples.query [("limit", "2"); ("offset", "1")]) 2 1);
      [vm_compute; reflexivity | vm_compute; reflexivity | lia | lia
      | reflexivity | reflexivity].
  - apply (B Samples.secure2_db (Samples.query [("limit", "0"); ("offset", "1")]) 0 1);
      [vm_compute; reflexivity | vm_compute; reflexivity | lia | lia
      | vm_compute; discriminate | vm_compute; discriminate
      | reflexivity | reflexivity].
  - apply (B Samples.secure2_db (Samples.query [("limit", "9223372036854775808")])
             9223372036854775808 0);
      [vm_compute; reflexivity | vm_compute; reflexivity | lia | lia
      | vm_compute; discriminate | vm_compute; discriminate
      | left; vm_compute; discriminate].
  - apply (C (fun _ => None) Samples.remove3_books (Samples.query [("limit", "1")])
             1 0 None None);
      [vm_compute; reflexivity | vm_compute; reflexivity | lia | lia
      | vm_compute; reflexivity | vm_compute; reflexivity
      | reflexivity | reflexivity].
Defined.

(** C2 as stated fails on remove_3: with limit=0 its list request applies no
    limit and returns every row from the offset on, where the window
    [offset, offset+0) is empty. *)
Lemma remove3_limit_zero_returns_all :
  (forall dp,
      Remove3.api_books_GET dp Samples.remove3_books
        (Samples.query [("limit", "0"); ("offset", "0")])
      = (JsonList (List.map Remove3.to_dict
                     [Samples.remove3_book1; Samples.remove3_book2]), 200))
  /\ ~ PageSpec.is_window [Samples.remove3_book1; Samples.remove3_book2] 0 0
         [Samples.remove3_book1; Samples.remove3_book2].
Proof.
  split.
  - intros dp. vm_compute. reflexivity.
  - intros H. specialize (H 0%nat). discriminate H.
Qed.

(** C2 as stated also fails at the end of the 64-bit range, in every
    variant: a limit of 2^63 cannot be bound to the statement, and the
    request is answered 500 instead of the rows from the offset on. *)
Lemma api_books_limit_out_of_range :
  Original.api_books_GET Samples.original_db
    (Samples.query [("limit", "9223372036854775808")]) = (ServerError, 500)
  /\ Secure2.api_books_GET Samples.secure2_db
       (Samples.query [("limit", "9223372036854775808")]) = (ServerError, 500)
  /\ (forall dp,
        Remove3.api_books_GET dp Samples.remove3_books
          (Samples.query [("limit", "9223372036854775808")]) = (ServerError, 500)).
Proof. repeat split. Qed.

(** ** Rows and their keys *)

Section KeyFacts.

Context {row : Type}.
Variable key : row -> Z.

Lemma next_id_above rows r : In r rows -> key r < Sql.next_id key rows.
Proof.
  unfold Sql.next_id. induction rows as [|x rows IH]; [contradiction|].
  cbn [List.map fold_right]. intros [-> | H]; [lia|].
  specialize (IH H). lia.
Qed.

Lemma get_app id rows rows' :
  Sql.get key id (rows ++ rows')
  = match Sql.get key id rows with
    | Some r => Some r
    | None => Sql.get key id rows'
    end.
Proof.
  unfold Sql.get. induction rows as [|x rows IH]; [reflexivity|].
  cbn [app List.find]. now destruct (key x =? id).
Qed.

Lemma get_none id rows :
  (forall r, In r rows -> key r <> id) -> Sql.get key id rows = None.
Proof.
  unfold Sql.get. induction rows as [|x rows IH]; intros H; [reflexivity|].
  cbn [List.find]. destruct (Z.eqb_spec (key x) id) as [E|_].
  - exfalso. apply (H x); [now left | exact E].
  - apply IH. intros r Hr. apply H. now right.
Qed.

Lemma get_some id rows r : Sql.get key id rows = Some r -> In r rows /\ key r = id.
Proof.
  unfold Sql.get. intros H. apply find_some in H as [Hin E].
  split; [exact Hin | now apply Z.eqb_eq].
Qed.

Lemma get_new_row rows r :
  key r = Sql.next_id key rows ->
  Sql.get key (key r) (rows ++ [r]) = Some r.
Proof.
  intros E. rewrite get_app, get_none.
  - unfold Sql.get. cbn [List.find]. now rewrite Z.eqb_refl.
  - intros x Hx. pose proof (next_id_above rows x Hx). lia.
Qed.

Lemma get_remove id rows : Sql.get key id (Sql.remove key id rows) = None.
Proof.
  apply get_none. intros r Hr. unfold Sql.remove in Hr.
  apply filter_In in Hr as [_ Hr]. apply negb_true_iff in Hr.
  now apply Z.eqb_neq.
Qed.

End KeyFacts.

(** ** Creating a book and reading it back *)

(** C3.  On every store, the POST of Book_Title "T", Book_Author "A",
    Book_Genre "G", Book_Publication_Date "20200101" to secure_code_2's books
    API is answered 201 with the created book, and a GET of that book's id
    on the resulting store is answered 200 with an object whose
    Book_Publication_Date is "2020-01-01". *)
Theorem secure2_post_then_get_iso_date (d : Secure2.db) :
  exists (id : Z) (created : obj) (d' : Secure2.db) (fetched : obj),
    Secure2.api_books_POST d Samples.new_book_request
    = ((JsonObject created, 201), d')
    /\ obj_get "Book_ID" created = Some (VInt id)
    /\ Secure2.api_book_item_GET d' id = (JsonObject fetched, 200)
    /\ obj_get "Book_Publication_Date" fetched = Some (VStr "2020-01-01").
Proof.
  set (b := Secure2.mkBook (Sql.next_id Secure2.Book_ID (Secure2.books d))
              "T" "A" "G" (Some EmptyString) (Some (mkdate 2020 1 1))
              (Some EmptyString)).
  assert (P : Secure2.api_books_POST d Samples.new_book_request
              = ((JsonObject (Secure2.to_dict b), 201),
                 Secure2.mkdb (Secure2.books d ++ [b]) (Secure2.genres d)
                              (Secure2.authors d))).
  { unfold Secure2.api_books_POST.
    change (is_json Samples.new_book_request) with true.
    change (get_json Samples.new_book_request)
      with (JObject Samples.new_book_payload).
    cbn [negb].
    replace (Secure2.required_errors Samples.new_book_payload)
      with (@nil (string * list string)) by (vm_compute; reflexivity).
    replace (payload_truthy Samples.new_book_payload "Book_Publication_Date")
      with true by (vm_compute; reflexivity).
    replace (Secure2.parse_either
               (payload_str Samples.new_book_payload "Book_Publication_Date"))
      with (Some (mkdate 2020 1 1)) by (vm_compute; reflexivity).
    replace (Py.slice 0 300 (Py.strip (payload_str Samples.new_book_payload "Book_Title")))
      with "T" by (vm_compute; reflexivity).
    replace (Py.slice 0 120 (Py.strip (payload_str Samples.new_book_payload "Book_Author")))
      with "A" by (vm_compute; reflexivity).
    replace (Py.slice 0 120 (Py.strip (payload_str Samples.new_book_payload "Book_Genre")))
      with "G" by (vm_compute; reflexivity).
    replace (Py.slice 0 200 (payload_str_default Samples.new_book_payload "Book_Publication"))
      with EmptyString by (vm_compute; reflexivity).
    replace (Py.slice 0 2000 (payload_str_default Samples.new_book_payload "Book_Description"))
      with EmptyString by (vm_compute; reflexivity).
    reflexivity. }
  eexists (Secure2.Book_ID b), (Secure2.to_dict b), _, (Secure2.to_dict b).
  split; [exact P|]. split; [reflexivity|]. split.
  - unfold Secure2.api_book_item_GET. cbn [Secure2.books].
    now rewrite (get_new_row Secure2.Book_ID (Secure2.books d) b eq_refl).
  - vm_compute. reflexivity.
Qed.

(** ** Bounds on the pagination parameters *)

Lemma secure4_clamp_limit_bounds (limit : option string) :
  1 <= Secure4.clamp_limit limit <= Secure4.MAX_LIMIT.
Proof.
  unfold Secure4.clamp_limit, Secure4.MAX_LIMIT, Secure4.DEFAULT_LIMIT.
  destruct limit as [s|]; [|lia].
  destruct (Py.int s) as [l|]; [|lia].
  destruct (Z.ltb_spec l 1); lia.
Qed.

(** C4 (as amended).  In secure_code_4, whatever limit and offset a list
    request supplies (absent, negative, huge or not a number), the
    parameters the query runs with satisfy 1 <= limit <= MAX_LIMIT = 100 and
    offset >= 0.  In secure_code_3, whenever both parameters convert to
    integers, so that the request reaches the query, they satisfy
    limit <= MAX_PAGE_SIZE = 100 and offset >= 0. *)
Theorem pagination_parameters_bounded (args : gmap string string) :
  (1 <= fst (Secure4.api_pagination_params args) <= Secure4.MAX_LIMIT
   /\ 0 <= snd (Secure4.api_pagination_params args))
  /\ (forall limit offset,
        Secure3.pagination args = Some (limit, offset) ->
        limit <= Secure3.MAX_PAGE_SIZE /\ 0 <= offset).
Proof.
  split.
  - unfold Secure4.api_pagination_params. cbn [fst snd].
    split; [apply secure4_clamp_limit_bounds|].
    destruct (arg_int args "offset" 0) as [o|]; [|lia].
    destruct (Z.ltb_spec o 0); lia.
  - unfold Secure3.pagination. intros limit offset H.
    destruct (arg_int args "limit" Secure3.DEFAULT_PAGE_SIZE) as [l|]; [|discriminate H].
    destruct (arg_int args "offset" 0) as [o|]; [|discriminate H].
    injection H as <- <-. lia.
Qed.

Lemma pagination_parameters_bounded_witness :
  Secure4.api_pagination_params (Samples.query [("limit", "100000"); ("offset", "-5")])
  = (100, 0)
  /\ Secure4.api_pagination_params (Samples.query [("limit", "abc"); ("offset", "x")])
     = (10, 0)
  /\ Secure3.pagination (Samples.query [("limit", "100000"); ("offset", "-5")])
     = Some (100, 0)
  /\ 100 <= Secure3.MAX_PAGE_SIZE /\ 0 <= 0.
Proof.
  split; [vm_compute; reflexivity|].
  split; [vm_compute; reflexivity|].
  split; [vm_compute; reflexivity|].
  apply (proj2 (pagination_parameters_bounded
                  (Samples.query [("limit", "100000"); ("offset", "-5")])) 100 0).
  vm_compute. reflexivity.
Defined.

(** C4 as stated fails on the original: [paginate_query] runs the query with
    the integers it was given, here a negative offset and a limit of a
    million. *)
Lemma original_paginate_query_unbounded :
  Original.paginate_query (Original.books Samples.original_db)
    (Samples.query [("limit", "1000000"); ("offset", "-5")]) 10
  = Some (Original.books Samples.original_db, 1000000, -5)
  /\ -5 < 0.
Proof. split; [vm_compute; reflexivity | lia]. Qed.

(** ** Deleting twice *)

Lemma original_delete_twice (d : Original.db) (id : Z) :
  snd (fst (Original.api_book_DELETE d id)) = 204 ->
  Original.api_book_DELETE (snd (Original.api_book_DELETE d id)) id
  = ((JsonMessage "Book not found", 404), snd (Original.api_book_DELETE d id)).
Proof.
  unfold Original.api_book_DELETE at 1 3 4.
  destruct (Sql.get Original.Book.id id (Original.books d)) as [b|] eqn:E;
    [intros _ | discriminate].
  apply get_some in E as [_ <-]. cbn [snd].
  unfold Original.api_book_DELETE. cbn [Original.books].
  now rewrite get_remove.
Qed.

Lemma secure2_delete_book_twice (d : Secure2.db) (id : Z) :
  snd (fst (Secure2.api_book_item_DELETE d id)) = 204 ->
  Secure2.api_book_item_DELETE (snd (Secure2.api_book_item_DELETE d id)) id
  = ((JsonMessage "Book not found", 404), snd (Secure2.api_book_item_DELETE d id)).
Proof.
  unfold Secure2.api_book_item_DELETE at 1 3 4.
  destruct (Sql.get Secure2.Book_ID id (Secure2.books d)) as [b|] eqn:E;
    [intros _ | discriminate].
  apply get_some in E as [_ <-]. cbn [snd].
  unfold Secure2.api_book_item_DELETE. cbn [Secure2.books].
  now rewrite get_remove.
Qed.

Lemma secure2_delete_genre_twice (d : Secure2.db) (id : Z) :
  snd (fst (Secure2.api_genre_item_DELETE d id)) = 204 ->
  Secure2.api_genre_item_DELETE (snd (Secure2.api_genre_item_DELETE d id)) id
  = ((JsonMessage "Genre not found", 404), snd (Secure2.api_genre_item_DELETE d id)).
Proof.
  unfold Secure2.api_genre_item_DELETE at 1 3 4.
  destruct (Sql.get Secure2.Genre_ID id (Secure2.genres d)) as [g|] eqn:E;
    [intros _ | discriminate].
  apply get_some in E as [_ <-]. cbn [snd].
  unfold Secure2.api_genre_item_DELETE. cbn [Secure2.genres].
  now rewrite get_remove.
Qed.

Lemma secure2_delete_author_twice (d : Secure2.db) (id : Z) :
  snd (fst (Secure2.api_author_item_DELETE d id)) = 204 ->
  Secure2.api_author_item_DELETE (snd (Secure2.api_author_item_DELETE d id)) id
  = ((JsonMessage "Author not found", 404), snd (Secure2.api_author_item_DELETE d id)).
Proof.
  unfold Secure2.api_author_item_DELETE at 1 3 4.
  destruct (Sql.get Secure2.Author_ID id (Secure2.authors d)) as [a|] eqn:E;
    [intros _ | discriminate].
  apply get_some in E as [_ <-]. cbn [snd].
  unfold Secure2.api_author_item_DELETE. cbn [Secure2.authors].
  now rewrite get_remove.
Qed.

(** C5.  For every store and every id, when a DELETE of that id through the
    API succeeds (status 204), a second DELETE of the same id on the
    resulting store is answered 404 by the not-found branch and leaves the
    store as it was: for the books of the original, and for the books,
    genres and authors of secure_code_2. *)
Theorem second_delete_is_not_found (id : Z) :
  (forall d : Original.db,
      snd (fst (Original.api_book_DELETE d id)) = 204 ->
      Original.api_book_DELETE (snd (Original.api_book_DELETE d id)) id
      = ((JsonMessage "Book not found", 404), snd (Original.api_book_DELETE d id)))
  /\ (forall d : Secure2.db,
      (snd (fst (Secure2.api_book_item_DELETE d id)) = 204 ->
       Secure2.api_book_item_DELETE (snd (Secure2.api_book_item_DELETE d id)) id
       = ((JsonMessage "Book not found", 404),
          snd (Secure2.api_book_item_DELETE d id)))
      /\ (snd (fst (Secure2.api_genre_item_DELETE d id)) = 204 ->
          Secure2.api_genre_item_DELETE (snd (Secure2.api_genre_item_DELETE d id)) id
          = ((JsonMessage "Genre not found", 404),
             snd (Secure2.api_genre_item_DELETE d id)))
      /\ (snd (fst (Secure2.api_author_item_DELETE d id)) = 204 ->
          Secure2.api_author_item_DELETE (snd (Secure2.api_author_item_DELETE d id)) id
          = ((JsonMessage "Author not found", 404),
             snd (Secure2.api_author_item_DELETE d id)))).
Proof.
  split; [intros d; apply original_delete_twice|].
  intros d. split; [apply secure2_delete_book_twice|].
  split; [apply secure2_delete_genre_twice | apply secure2_delete_author_twice].
Qed.

Lemma second_delete_is_not_found_witness :
  snd (fst (Original.api_book_DELETE Samples.original_db 2)) = 204
  /\ Original.api_book_DELETE (snd (Original.api_book_DELETE Samples.original_db 2)) 2
     = ((JsonMessage "Book not found", 404),
        snd (Original.api_book_DELETE Samples.original_db 2))
  /\ snd (fst (Secure2.api_book_item_DELETE Samples.secure2_db 2)) = 204
  /\ Secure2.api_book_item_DELETE
       (snd (Secure2.api_book_item_DELETE Samples.secure2_db 2)) 2
     = ((JsonMessage "Book not found", 404),
        snd (Secure2.api_book_item_DELETE Samples.secure2_db 2))
  /\ Secure2.api_genre_item_DELETE
       (snd (Secure2.api_genre_item_DELETE Samples.secure2_db 2)) 2
     = ((JsonMessage "Genre not found", 404),
        snd (Secure2.api_genre_item_DELETE Samples.secure2_db 2))
  /\ Secure2.api_author_item_DELETE
       (snd (Secure2.api_author_item_DELETE Samples.secure2_db 2)) 2
     = ((JsonMessage "Author not found", 404),
        snd (Secure2.api_author_item_DELETE Samples.secure2_db 2)).
Proof.
  destruct (second_delete_is_not_found 2) as (A & B).
  destruct (B Samples.secure2_db) as (Bb & Bg & Ba).
  split; [reflexivity|].
  split; [apply A; reflexivity|].
  split; [reflexivity|].
  split; [apply Bb; reflexivity|].
  split; [apply Bg; reflexivity | apply Ba; reflexivity].
Defined.

(** ** Creating under a name that is taken *)










(** ** Partial updates *)

Lemma get_replace {row : Type} (key : row -> Z) id rows b b' :
  Sql.get key id rows = Some b -> key b' = id ->
  Sql.get key id (Sql.replace key b' rows) = Some b'.
Proof.
  unfold Sql.get, Sql.replace. intros H E. subst id.
  induction rows as [|x rows IH]; [discriminate H|].
  cbn [List.find List.map] in *.
  destruct (key x =? key b') eqn:K.
  - now rewrite Z.eqb_refl.
  - rewrite K. now apply IH.
Qed.

Lemma put_required_ok payload k n set (e : Secure2.edit) :
  snd e = [] ->
  UpdateSpec.present_nonempty payload k = true ->
  Secure2.put_required payload k n set e
  = (match payload !! k with
     | None => fst e
     | Some v => set (Py.slice 0 n (Json.str v)) (fst e)
     end, []).
Proof.
  unfold UpdateSpec.present_nonempty, Secure2.put_required.
  destruct e as [b errs]. cbn [fst snd]. intros -> H.
  destruct (payload !! k) as [v|]; [|reflexivity].
  now rewrite H.
Qed.

Lemma put_text_ok payload k n set (e : Secure2.edit) :
  snd e = [] ->
  Secure2.put_text payload k n set e
  = (match payload !! k with
     | None => fst e
     | Some v => set (Some (Py.slice 0 n (Json.str v))) (fst e)
     end, []).
Proof.
  unfold Secure2.put_text. destruct e as [b errs]. cbn [fst snd]. intros ->.
  now destruct (payload !! k).
Qed.

Lemma put_date_ok payload (e : Secure2.edit) :
  snd e = [] ->
  match payload !! "Book_Publication_Date" with
  | None => true
  | Some v => is_some (Secure2.parse_either (Json.str v)) || Py.falsy (Json.str v)
  end = true ->
  Secure2.put_date payload e
  = (match payload !! "Book_Publication_Date" with
     | None => fst e
     | Some v =>
         Secure2.set_Book_Publication_Date (Secure2.parse_either (Json.str v)) (fst e)
     end, []).
Proof.
  unfold Secure2.put_date. destruct e as [b errs]. cbn [fst snd]. intros -> H.
  destruct (payload !! "Book_Publication_Date") as [v|]; [|reflexivity].
  destruct (is_some (Secure2.parse_either (Json.str v))), (Py.falsy (Json.str v));
    try discriminate H; reflexivity.
Qed.

Lemma secure2_put_fields_valid payload (b : Secure2.Book) :
  UpdateSpec.valid_secure2 payload = true ->
  Secure2.put_fields payload b
  = (Secure2.mkBook (Secure2.Book_ID b)
       (match payload !! "Book_Title" with
        | Some v => Py.slice 0 300 (Json.str v)
        | None => Secure2.Book_Title b
        end)
       (match payload !! "Book_Author" with
        | Some v => Py.slice 0 120 (Json.str v)
        | None => Secure2.Book_Author b
        end)
       (match payload !! "Book_Genre" with
        | Some v => Py.slice 0 120 (Json.str v)
        | None => Secure2.Book_Genre b
        end)
       (match payload !! "Book_Publication" with
        | Some v => Some (Py.slice 0 200 (Json.str v))
        | None => Secure2.Book_Publication b
        end)
       (match payload !! "Book_Publication_Date" with
        | Some v => Secure2.parse_either (Json.str v)
        | None => Secure2.Book_Publication_Date b
        end)
       (match payload !! "Book_Description" with
        | Some v => Some (Py.slice 0 2000 (Json.str v))
        | None => Secure2.Book_Description b
        end), []).
Proof.
  unfold UpdateSpec.valid_secure2.
  intros [[[Vt Va]%andb_prop Vg]%andb_prop Vd]%andb_prop.
  unfold Secure2.put_fields.
  rewrite (put_required_ok payload "Book_Title") by (reflexivity || assumption).
  rewrite (put_required_ok payload "Book_Author") by (reflexivity || assumption).
  rewrite (put_required_ok payload "Book_Genre") by (reflexivity || assumption).
  rewrite (put_text_ok payload "Book_Publication") by reflexivity.
  rewrite (put_text_ok payload "Book_Description") by reflexivity.
  rewrite (put_date_ok payload) by (reflexivity || assumption).
  cbn [fst]. clear Vt Va Vg Vd.
  generalize (payload !! "Book_Title") (payload !! "Book_Author")
    (payload !! "Book_Genre") (payload !! "Book_Publication")
    (payload !! "Book_Description") (payload !! "Book_Publication_Date").
  intros o1 o2 o3 o4 o5 o6. destruct b.
  now destruct o1, o2, o3, o4, o5, o6.
Qed.

Lemma original_put_valid (d : Original.db) (id : Z) (u : Original.book_update)
    (b : Original.Book.t) :
  Sql.get Original.Book.id id (Original.books d) = Some b ->
  UpdateSpec.valid_original d u = true ->
  exists b' d',
    Original.api_book_PUT d id u = ((JsonObject (Original.book_to_dict d' b'), 200), d')
    /\ Sql.get Original.Book.id id (Original.books d') = Some b'
    /\ Original.Book.id b' = Original.Book.id b
    /\ Original.Book.title b'
       = match Original.u_title u with
         | Some t => t
         | None => Original.Book.title b
         end
    /\ Original.Book.author_id b'
       = match Original.u_author_id u with
         | Some a => a
         | None => Original.Book.author_id b
         end
    /\ Original.Book.genre_id b'
       = match Original.u_genre_id u with
         | Some g => g
         | None => Original.Book.genre_id b
         end
    /\ match Original.u_publication_date u with
       | Some p =>
           Original.first_date (Original.parse_api_date (Some p))
                               (Original.parse_html_date (Some p))
           = Some (Original.Book.pub_date b')
       | None => Original.Book.pub_date b' = Original.Book.pub_date b
       end
    /\ Original.Book.description b'
       = match Original.u_description u with
         | Some x => Some x
         | None => Original.Book.description b
         end.
Proof.
  intros G V. unfold UpdateSpec.valid_original in V.
  apply andb_prop in V as [[[Vt Va]%andb_prop Vg]%andb_prop Vp].
  unfold Original.api_book_PUT. rewrite G.
  assert (C1 : match Original.u_title u with
               | Some t => Py.falsy (Py.strip t)
               | None => false
               end = false)
    by (destruct (Original.u_title u); [now apply negb_true_iff | reflexivity]).
  assert (C2 : match Original.u_author_id u with
               | Some a => negb (is_some (Sql.get Original.Author.id a (Original.authors d)))
               | None => false
               end = false)
    by (destruct (Original.u_author_id u); [now rewrite Va | reflexivity]).
  assert (C3 : match Original.u_genre_id u with
               | Some g => negb (is_some (Sql.get Original.Genre.id g (Original.genres d)))
               | None => false
               end = false)
    by (destruct (Original.u_genre_id u); [now rewrite Vg | reflexivity]).
  assert (C4 : is_some (Original.u_publication_date u)
               && negb (is_some (Original.first_date
                                   (Original.parse_api_date (Original.u_publication_date u))
                                   (Original.parse_html_date (Original.u_publication_date u))))
               = false)
    by (destruct (Original.u_publication_date u); [now rewrite Vp | reflexivity]).
  rewrite C1, C2, C3, C4. cbn [Original.append_if].
  eexists _, _. split; [reflexivity|].
  apply get_some in G as G'. destruct G' as [_ Eid].
  split; [cbn [Original.books]; now apply (get_replace _ _ _ b)|].
  cbn [Original.Book.id Original.Book.title Original.Book.author_id
         Original.Book.genre_id Original.Book.pub_date Original.Book.description].
  split; [reflexivity|].
  split; [now destruct (Original.u_title u)|].
  split; [now destruct (Original.u_author_id u)|].
  split; [now destruct (Original.u_genre_id u)|].
  split; [|now destruct (Original.u_description u)].
  destruct (Original.u_publication_date u) as [p|]; [|reflexivity].
  destruct (Original.first_date _ _); [reflexivity | discriminate Vp].
Qed.

Lemma secure2_put_valid (d : Secure2.db) (id : Z) (rq : request)
    (payload : gmap string json) (b : Secure2.Book) :
  Sql.get Secure2.Book_ID id (Secure2.books d) = Some b ->
  is_json rq = true ->
  get_json rq = JObject payload ->
  UpdateSpec.valid_secure2 payload = true ->
  exists b' d',
    Secure2.api_book_item_PUT d id rq = ((JsonObject (Secure2.to_dict b'), 200), d')
    /\ Sql.get Secure2.Book_ID id (Secure2.books d') = Some b'
    /\ Secure2.Book_ID b' = Secure2.Book_ID b
    /\ Secure2.Book_Title b'
       = match payload !! "Book_Title" with
         | Some v => Py.slice 0 300 (Json.str v)
         | None => Secure2.Book_Title b
         end
    /\ Secure2.Book_Author b'
       = match payload !! "Book_Author" with
         | Some v => Py.slice 0 120 (Json.str v)
         | None => Secure2.Book_Author b
         end
    /\ Secure2.Book_Genre b'
       = match payload !! "Book_Genre" with
         | Some v => Py.slice 0 120 (Json.str v)
         | None => Secure2.Book_Genre b
         end
    /\ Secure2.Book_Publication b'
       = match payload !! "Book_Publication" with
         | Some v => Some (Py.slice 0 200 (Json.str v))
         | None => Secure2.Book_Publication b
         end
    /\ Secure2.Book_Publication_Date b'
       = match payload !! "Book_Publication_Date" with
         | Some v => Secure2.parse_either (Json.str v)
         | None => Secure2.Book_Publication_Date b
         end
    /\ Secure2.Book_Description b'
       = match payload !! "Book_Description" with
         | Some v => Some (Py.slice 0 2000 (Json.str v))
         | None => Secure2.Book_Description b
         end.
Proof.
  intros G J Hp V.
  unfold Secure2.api_book_item_PUT.
  rewrite G, J, Hp, (secure2_put_fields_valid payload b V). cbn [negb].
  eexists _, _. split; [reflexivity|].
  apply get_some in G as G'. destruct G' as [_ Eid].
  split; [cbn [Secure2.books]; apply (get_replace _ _ _ b); [exact G | exact Eid]|].
  repeat split.
Qed.

(** C7.  For every stored book and every valid partial-update body, PUT on
    the book's endpoint is answered 200 with the book as it is stored after
    the update.  That book keeps its id; every field whose key is in the
    body holds the value the body gives it (as the handler stores it: a
    text cut to its column, a date parsed), and every field whose key is
    absent keeps exactly its previous value: in the original and in
    secure_code_2. *)
Theorem put_keeps_absent_fields :
  (forall (d : Original.db) (id : Z) (u : Original.book_update) (b : Original.Book.t),
      Sql.get Original.Book.id id (Original.books d) = Some b ->
      UpdateSpec.valid_original d u = true ->
      exists b' d',
        Original.api_book_PUT d id u
        = ((JsonObject (Original.book_to_dict d' b'), 200), d')
        /\ Sql.get Original.Book.id id (Original.books d') = Some b'
        /\ Original.Book.id b' = Original.Book.id b
        /\ Original.Book.title b'
           = match Original.u_title u with
             | Some t => t
             | None => Original.Book.title b
             end
        /\ Original.Book.author_id b'
           = match Original.u_author_id u with
             | Some a => a
             | None => Original.Book.author_id b
             end
        /\ Original.Book.genre_id b'
           = match Original.u_genre_id u with
             | Some g => g
             | None => Original.Book.genre_id b
             end
        /\ match Original.u_publication_date u with
           | Some p =>
               Original.first_date (Original.parse_api_date (Some p))
                                   (Original.parse_html_date (Some p))
               = Some (Original.Book.pub_date b')
           | None => Original.Book.pub_date b' = Original.Book.pub_date b
           end
        /\ Original.Book.description b'
           = match Original.u_description u with
             | Some x => Some x
             | None => Original.Book.description b
             end)
  /\ (forall (d : Secure2.db) (id : Z) (rq : request) (payload : gmap string json)
             (b : Secure2.Book),
      Sql.get Secure2.Book_ID id (Secure2.books d) = Some b ->
      is_json rq = true ->
      get_json rq = JObject payload ->
      UpdateSpec.valid_secure2 payload = true ->
      exists b' d',
        Secure2.api_book_item_PUT d id rq
        = ((JsonObject (Secure2.to_dict b'), 200), d')
        /\ Sql.get Secure2.Book_ID id (Secure2.books d') = Some b'
        /\ Secure2.Book_ID b' = Secure2.Book_ID b
        /\ Secure2.Book_Title b'
           = match payload !! "Book_Title" with
             | Some v => Py.slice 0 300 (Json.str v)
             | None => Secure2.Book_Title b
             end
        /\ Secure2.Book_Author b'
           = match payload !! "Book_Author" with
             | Some v => Py.slice 0 120 (Json.str v)
             | None => Secure2.Book_Author b
             end
        /\ Secure2.Book_Genre b'
           = match payload !! "Book_Genre" with
             | Some v => Py.slice 0 120 (Json.str v)
             | None => Secure2.Book_Genre b
             end
        /\ Secure2.Book_Publication b'
           = match payload !! "Book_Publication" with
             | Some v => Some (Py.slice 0 200 (Json.str v))
             | None => Secure2.Book_Publication b
             end
        /\ Secure2.Book_Publication_Date b'
           = match payload !! "Book_Publication_Date" with
             | Some v => Secure2.parse_either (Json.str v)
             | None => Secure2.Book_Publication_Date b
             end
        /\ Secure2.Book_Description b'
           = match payload !! "Book_Description" with
             | Some v => Some (Py.slice 0 2000 (Json.str v))
             | None => Secure2.Book_Description b
             end).
Proof. split; [exact original_put_valid | exact secure2_put_valid]. Qed.

Lemma put_keeps_absent_fields_witness :
  (exists b' d',
      Original.api_book_PUT Samples.original_db 1 Samples.rename_update
      = ((JsonObject (Original.book_to_dict d' b'), 200), d')
      /\ Original.Book.title b' = "Renamed"
      /\ Original.Book.author_id b' = 1
      /\ Original.Book.pub_date b' = mkdate 1937 9 21)
  /\ (exists b' d',
      Secure2.api_book_item_PUT Samples.secure2_db 1 Samples.rename_request
      = ((JsonObject (Secure2.to_dict b'), 200), d')
      /\ Secure2.Book_Title b' = "Renamed"
      /\ Secure2.Book_Author b' = "J. R. R. Tolkien"
      /\ Secure2.Book_Publication_Date b' = Some (mkdate 2019 12 31)).
Proof.
  destruct put_keeps_absent_fields as (A & B).
  split.
  - destruct (A Samples.original_db 1 Samples.rename_update
                (Original.Book.mk 1 "The Hobbit" 1 1 (mkdate 1937 9 21)
                   (Some "Bilbo's adventure")))
      as (b' & d' & E & _ & _ & Ht & Ha & _ & Hp & _);
      [vm_compute; reflexivity | vm_compute; reflexivity|].
    exists b', d'. split; [exact E|].
    split; [exact Ht|]. split; [exact Ha | exact Hp].
  - destruct (B Samples.secure2_db 1 Samples.rename_request
                (list_to_map [("Book_Title", JStr "Renamed")])
                (Secure2.mkBook 1 "The Hobbit" "J. R. R. Tolkien" "Fantasy"
                   (Some "Allen") (Some (mkdate 2019 12 31))
                   (Some "Bilbo's adventure")))
      as (b' & d' & E & _ & _ & Ht & Ha & _ & _ & Hd & _);
      [vm_compute; reflexivity | reflexivity | reflexivity
      | vm_compute; reflexivity|].
    exists b', d'. split; [exact E|].
    split; [rewrite Ht | split; [rewrite Ha | rewrite Hd]]; vm_compute; reflexivity.
Defined.

(** ** Listing books: the date range *)

Lemma leb_le (a b : date) : Date.leb a b = true <-> RangeSpec.le a b.
Proof.
  unfold Date.leb, RangeSpec.le.
  rewrite !orb_true_iff, !andb_true_iff, !orb_true_iff, !andb_true_iff.
  rewrite !Z.ltb_lt, !Z.eqb_eq, Z.leb_le. tauto.
Qed.

Lemma in_skipn_in {row : Type} (r : row) n rows : In r (skipn n rows) -> In r rows.
Proof.
  intros H. rewrite <- (firstn_skipn n rows). apply in_or_app. now right.
Qed.

Lemma in_firstn_in {row : Type} (r : row) n rows : In r (firstn n rows) -> In r rows.
Proof.
  intros H. rewrite <- (firstn_skipn n rows). apply in_or_app. now left.
Qed.

Lemma in_limit_offset {row : Type} (r : row) limit offset (rows items : list row) :
  Sql.offset offset rows ≫= Sql.limit limit = Some items ->
  In r items -> In r rows.
Proof.
  rewrite limit_offset_run.
  destruct (Sql.is_int64 offset && Sql.is_int64 limit); [|discriminate].
  intros [= <-] H. destruct (limit <? 0).
  - eapply in_skipn_in, H.
  - eapply in_skipn_in, in_firstn_in, H.
Qed.

Lemma in_order_by_filter {row : Type} (key : row -> Z) f rows r :
  In r (Sql.order_by key (List.filter f rows)) <-> In r rows /\ f r = true.
Proof.
  rewrite <- filter_In. split; apply Permutation_in;
    [|symmetry]; apply order_by_perm.
Qed.

Lemma original_date_filter_within lo hi (b : Original.Book.t) :
  Original.date_filter (Some lo) (Some hi) b = true
  <-> RangeSpec.within lo hi (Original.Book.pub_date b).
Proof.
  unfold Original.date_filter, RangeSpec.within.
  now rewrite andb_true_iff, !leb_le.
Qed.

Lemma secure2_date_filter_within lo hi (b : Secure2.Book) :
  Secure2.date_filter (Some lo) (Some hi) b = true
  <-> exists dt, Secure2.Book_Publication_Date b = Some dt
                 /\ RangeSpec.within lo hi dt.
Proof.
  unfold Secure2.date_filter, RangeSpec.within. rewrite andb_true_iff.
  destruct (Secure2.Book_Publication_Date b) as [dt|].
  - rewrite !leb_le. split; [intros H; now exists dt|].
    now intros (dt' & [= <-] & H).
  - split; [now intros [? _]|]. now intros (dt' & [=] & _).
Qed.

Lemma original_books_in_range (d : Original.db) (args : gmap string string) :
  args !! "after_date" = Some "20200101" ->
  args !! "before_date" = Some "20201231" ->
  (exists items,
      Original.api_books_GET d args
      = (JsonList (List.map (Original.book_to_dict d) items), 200)
      /\ forall b, In b items ->
           In b (Original.books d)
           /\ RangeSpec.within RangeSpec.jan_1_2020 RangeSpec.dec_31_2020
                (Original.Book.pub_date b))
  \/ Original.api_books_GET d args = (ServerError, 500).
Proof.
  intros Ha Hb. unfold Original.api_books_GET. rewrite Ha, Hb.
  replace (Original.parse_api_date (Some "20200101"))
    with (Some RangeSpec.jan_1_2020) by (vm_compute; reflexivity).
  replace (Original.parse_api_date (Some "20201231"))
    with (Some RangeSpec.dec_31_2020) by (vm_compute; reflexivity).
  destruct (Original.limit_offset_args args 10) as [limit offset].
  destruct (Sql.offset offset _ ≫= Sql.limit limit) as [items|] eqn:E;
    [left | now right].
  exists items. split; [reflexivity|]. intros b Hin.
  apply (in_limit_offset _ _ _ _ _ E) in Hin.
  unfold Original.books_query in Hin. apply in_order_by_filter in Hin as [Hin F].
  split; [exact Hin | now apply original_date_filter_within].
Qed.

Lemma secure2_books_in_range (d : Secure2.db) (args : gmap string string) :
  args !! "after_date" = Some "20200101" ->
  args !! "before_date" = Some "20201231" ->
  (exists items,
      Secure2.api_books_GET d args = (JsonList (List.map Secure2.to_dict items), 200)
      /\ forall b, In b items ->
           In b (Secure2.books d)
           /\ exists dt, Secure2.Book_Publication_Date b = Some dt
                /\ RangeSpec.within RangeSpec.jan_1_2020 RangeSpec.dec_31_2020 dt)
  \/ (exists m, Secure2.api_books_GET d args = (JsonMessage m, 400))
  \/ Secure2.api_books_GET d args = (ServerError, 500).
Proof.
  intros Ha Hb. unfold Secure2.api_books_GET.
  destruct (arg_int args "limit" 10) as [limit|]; [|right; left; now eexists].
  destruct (arg_int args "offset" 0) as [offset|]; [|right; left; now eexists].
  destruct ((limit <? 0) || (offset <? 0)); [right; left; now eexists|].
  rewrite Ha, Hb.
  replace (Secure2.parse_raw (Some "20200101"))
    with (Some RangeSpec.jan_1_2020) by (vm_compute; reflexivity).
  replace (Secure2.parse_raw (Some "20201231"))
    with (Some RangeSpec.dec_31_2020) by (vm_compute; reflexivity).
  cbn [raw_truthy Py.falsy negb is_some andb orb].
  destruct (Sql.offset offset _ ≫= Sql.limit limit) as [items|] eqn:E;
    [left | now right; right].
  exists items. split; [reflexivity|]. intros b Hin.
  apply (in_limit_offset _ _ _ _ _ E) in Hin.
  unfold Secure2.books_query in Hin. apply in_order_by_filter in Hin as [Hin F].
  split; [exact Hin | now apply secure2_date_filter_within].
Qed.

(** C8 (as amended).  For every stored set of books and every list request
    with after_date=20200101 and before_date=20201231: whatever its limit
    and offset, the books it is answered with are books of the store whose
    publication date d satisfies 2020-01-01 <= d <= 2020-12-31, both bounds
    included (a request that is refused, or whose query cannot be run, is
    answered with no book at all); and for every limit and offset from 0 to
    2^63 - 1 the answer is 200 with exactly the books at the index
    positions [offset, offset+limit) of the stored books in that range
    taken in ascending order of id: in the original and in secure_code_2. *)
Theorem date_range_filter_inclusive (args : gmap string string) :
  args !! "after_date" = Some "20200101" ->
  args !! "before_date" = Some "20201231" ->
  (forall d : Original.db,
      ((exists items,
           Original.api_books_GET d args
           = (JsonList (List.map (Original.book_to_dict d) items), 200)
           /\ forall b, In b items ->
                In b (Original.books d)
                /\ RangeSpec.within RangeSpec.jan_1_2020 RangeSpec.dec_31_2020
                     (Original.Book.pub_date b))
       \/ Original.api_books_GET d args = (ServerError, 500))
      /\ forall limit offset,
           arg_int args "limit" 10 = Some limit ->
           arg_int args "offset" 0 = Some offset ->
           0 <= limit < 2 ^ 63 -> 0 <= offset < 2 ^ 63 ->
           exists (selected : Original.Book.t -> bool) rows items,
             Original.api_books_GET d args
             = (JsonList (List.map (Original.book_to_dict d) items), 200)
             /\ (forall b, In b items ->
                  In b (Original.books d)
                  /\ RangeSpec.within RangeSpec.jan_1_2020 RangeSpec.dec_31_2020
                       (Original.Book.pub_date b))
             /\ (forall b, selected b = true <->
                  RangeSpec.within RangeSpec.jan_1_2020 RangeSpec.dec_31_2020
                    (Original.Book.pub_date b))
             /\ PageSpec.is_ordered_selection Original.Book.id selected
                  (Original.books d) rows
             /\ PageSpec.is_window rows offset limit items)
  /\ (forall d : Secure2.db,
      ((exists items,
           Secure2.api_books_GET d args
           = (JsonList (List.map Secure2.to_dict items), 200)
           /\ forall b, In b items ->
                In b (Secure2.books d)
                /\ exists dt, Secure2.Book_Publication_Date b = Some dt
                     /\ RangeSpec.within RangeSpec.jan_1_2020 RangeSpec.dec_31_2020 dt)
       \/ (exists m, Secure2.api_books_GET d args = (JsonMessage m, 400))
       \/ Secure2.api_books_GET d args = (ServerError, 500))
      /\ forall limit offset,
           arg_int args "limit" 10 = Some limit ->
           arg_int args "offset" 0 = Some offset ->
           0 <= limit < 2 ^ 63 -> 0 <= offset < 2 ^ 63 ->
           exists (selected : Secure2.Book -> bool) rows items,
             Secure2.api_books_GET d args
             = (JsonList (List.map Secure2.to_dict items), 200)
             /\ (forall b, In b items ->
                  In b (Secure2.books d)
                  /\ exists dt, Secure2.Book_Publication_Date b = Some dt
                       /\ RangeSpec.within RangeSpec.jan_1_2020
                            RangeSpec.dec_31_2020 dt)
             /\ (forall b, selected b = true <->
                  exists dt, Secure2.Book_Publication_Date b = Some dt
                    /\ RangeSpec.within RangeSpec.jan_1_2020 RangeSpec.dec_31_2020 dt)
             /\ PageSpec.is_ordered_selection Secure2.Book_ID selected
                  (Secure2.books d) rows
             /\ PageSpec.is_window rows offset limit items).
Proof.
  intros Ha Hb. split; intros d.
  - split; [now apply original_books_in_range|].
    intros limit offset Hl Ho Hl0 Ho0.
    exists (Original.date_filter (Some RangeSpec.jan_1_2020) (Some RangeSpec.dec_31_2020)).
    rewrite (original_api_books_run d args limit offset Hl Ho), Ha, Hb.
    replace (Original.parse_api_date (Some "20200101"))
      with (Some RangeSpec.jan_1_2020) by (vm_compute; reflexivity).
    replace (Original.parse_api_date (Some "20201231"))
      with (Some RangeSpec.dec_31_2020) by (vm_compute; reflexivity).
    destruct (limit_offset_window
                (Original.books_query (Some RangeSpec.jan_1_2020)
                   (Some RangeSpec.dec_31_2020) d) offset limit Hl0 Ho0)
      as (items & E & W).
    rewrite E. eexists _, items. split; [reflexivity|].
    split.
    { intros b Hin. apply (in_limit_offset _ _ _ _ _ E) in Hin.
      unfold Original.books_query in Hin. apply in_order_by_filter in Hin as [Hin F].
      split; [exact Hin | now apply original_date_filter_within]. }
    split; [intros b; apply original_date_filter_within|].
    split; [apply order_by_selection | exact W].
  - split; [now apply secure2_books_in_range|].
    intros limit offset Hl Ho Hl0 Ho0.
    exists (Secure2.date_filter (Some RangeSpec.jan_1_2020) (Some RangeSpec.dec_31_2020)).
    assert (Pa : Secure2.parse_raw (args !! "after_date") = Some RangeSpec.jan_1_2020)
      by (rewrite Ha; vm_compute; reflexivity).
    assert (Pb : Secure2.parse_raw (args !! "before_date") = Some RangeSpec.dec_31_2020)
      by (rewrite Hb; vm_compute; reflexivity).
    rewrite (secure2_api_books_run d args limit offset Hl Ho
               (proj1 Hl0) (proj1 Ho0)), Pa, Pb
      by (intros _; rewrite ?Pa, ?Pb; reflexivity).
    destruct (limit_offset_window
                (Secure2.books_query (Some RangeSpec.jan_1_2020)
                   (Some RangeSpec.dec_31_2020) d) offset limit Hl0 Ho0)
      as (items & E & W).
    rewrite E. eexists _, items. split; [reflexivity|].
    split.
    { intros b Hin. apply (in_limit_offset _ _ _ _ _ E) in Hin.
      unfold Secure2.books_query in Hin. apply in_order_by_filter in Hin as [Hin F].
      split; [exact Hin | now apply secure2_date_filter_within]. }
    split; [intros b; apply secure2_date_filter_within|].
    split; [apply order_by_selection | exact W].
Qed.

Lemma date_range_filter_inclusive_witness :
  Secure2.api_books_GET Samples.secure2_db Samples.year_2020_query
  = (JsonList
       (List.map Secure2.to_dict
          [Secure2.mkBook 2 "Foundation" "Isaac Asimov" "Science Fiction" None
             (Some (mkdate 2020 12 31)) None;
           Secure2.mkBook 3 "I, Robot" "Isaac Asimov" "Science Fiction" None
             (Some (mkdate 2020 1 1)) None]), 200)
  /\ exists (selected : Secure2.Book -> bool) rows items,
      Secure2.api_books_GET Samples.secure2_db Samples.year_2020_query
      = (JsonList (List.map Secure2.to_dict items), 200)
      /\ (forall b, In b items ->
           In b (Secure2.books Samples.secure2_db)
           /\ exists dt, Secure2.Book_Publication_Date b = Some dt
                /\ RangeSpec.within RangeSpec.jan_1_2020 RangeSpec.dec_31_2020 dt)
      /\ (forall b, selected b = true <->
           exists dt, Secure2.Book_Publication_Date b = Some dt
             /\ RangeSpec.within RangeSpec.jan_1_2020 RangeSpec.dec_31_2020 dt)
      /\ PageSpec.is_ordered_selection Secure2.Book_ID selected
           (Secure2.books Samples.secure2_db) rows
      /\ PageSpec.is_window rows 0 10 items.
Proof.
  split; [vm_compute; reflexivity|].
  apply (proj2 (proj2 (date_range_filter_inclusive Samples.year_2020_query
                         ltac:(vm_compute; reflexivity) ltac:(vm_compute; reflexivity))
                  Samples.secure2_db) 10 0);
    [vm_compute; reflexivity | vm_compute; reflexivity
    | split; [lia | reflexivity] | split; [lia | reflexivity]].
Defined.

(** C8 as stated fails at the end of the 64-bit range: a limit of 2^63
    cannot be bound to the statement, and the request is answered 500 with
    no book, on every store; so the stored book dated 2020-12-31, which is
    at position 0 of the books in range and inside the window [0, 2^63), is
    not returned. *)
Lemma date_range_window_not_returned :
  (forall d : Original.db,
      Original.api_books_GET d
        (Samples.query [("after_date", "20200101"); ("before_date", "20201231");
                        ("limit", "9223372036854775808")])
      = (ServerError, 500))
  /\ (forall d : Secure2.db,
      Secure2.api_books_GET d
        (Samples.query [("after_date", "20200101"); ("before_date", "20201231");
                        ("limit", "9223372036854775808")])
      = (ServerError, 500))
  /\ (exists b,
        nth_error
          (Secure2.books_query (Some RangeSpec.jan_1_2020)
             (Some RangeSpec.dec_31_2020) Samples.secure2_db) 0
        = Some b
        /\ In b (Secure2.books Samples.secure2_db)
        /\ Secure2.Book_Publication_Date b = Some RangeSpec.dec_31_2020
        /\ RangeSpec.within RangeSpec.jan_1_2020 RangeSpec.dec_31_2020
             RangeSpec.dec_31_2020).
Proof.
  split; [|split].
  - intros d.
    rewrite (original_api_books_run d _ 9223372036854775808 0)
      by (vm_compute; reflexivity).
    rewrite limit_offset_overflow; [reflexivity | lia | lia | left; reflexivity].
  - intros d.
    rewrite (secure2_api_books_run d _ 9223372036854775808 0)
      by (vm_compute; (reflexivity || discriminate || lia)).
    rewrite limit_offset_overflow; [reflexivity | lia | lia | left; reflexivity].
  - eexists. split; [vm_compute; reflexivity|].
    split; [left; reflexivity|]. split; [reflexivity|].
    unfold RangeSpec.within, RangeSpec.le. cbn. lia.
Qed.

(** ** Base64: decoding what was encoded *)

Lemma byte_in_values (a : N) : (a < 256)%N -> In a Tables.byte_values.
Proof.
  intros H. unfold Tables.byte_values.
  rewrite <- (N2Nat.id a). apply in_map. apply in_seq. lia.
Qed.

Lemma for_bytes_forall f :
  Tables.for_bytes f = true -> forall a, (a < 256)%N -> f a = true.
Proof.
  unfold Tables.for_bytes. rewrite forallb_forall.
  intros H a Ha. apply H. now apply byte_in_values.
Qed.

Lemma for_bytes2_forall f :
  Tables.for_bytes2 f = true ->
  forall a b, (a < 256)%N -> (b < 256)%N -> f a b = true.
Proof.
  unfold Tables.for_bytes2. rewrite forallb_forall.
  intros H a b Ha Hb. specialize (H a (byte_in_values a Ha)).
  rewrite forallb_forall in H. apply H. now apply byte_in_values.
Qed.

Lemma step_eqb_eq x y : Tables.step_eqb x y = true -> x = y.
Proof.
  destruct x as [|q l p e], y as [|q' l' p' e']; cbn [Tables.step_eqb];
    try discriminate; [reflexivity|].
  intros [[[Hq%N.eqb_eq Hl%N.eqb_eq]%andb_prop Hp%N.eqb_eq]%andb_prop He]%andb_prop.
  subst. f_equal.
  destruct e as [a|], e' as [b|]; cbn [Tables.emit_eqb] in He;
    try discriminate; [|reflexivity].
  apply Ascii.eqb_eq in He. now subst.
Qed.

Lemma decode_first_table : Tables.for_bytes Tables.decode_first = true.
Proof. vm_compute. reflexivity. Qed.

Lemma decode_second_table : Tables.for_bytes2 Tables.decode_second = true.
Proof. vm_compute. reflexivity. Qed.

Lemma decode_third_table : Tables.for_bytes2 Tables.decode_third = true.
Proof. vm_compute. reflexivity. Qed.

Lemma decode_fourth_table : Tables.for_bytes Tables.decode_fourth = true.
Proof. vm_compute. reflexivity. Qed.

Lemma decode_second_last_table : Tables.for_bytes Tables.decode_second_last = true.
Proof. vm_compute. reflexivity. Qed.

Lemma decode_third_last_table : Tables.for_bytes Tables.decode_third_last = true.
Proof. vm_compute. reflexivity. Qed.

Lemma byte_bounded (x : ascii) : (Base64.byte x < 256)%N.
Proof. apply N_ascii_bounded. Qed.

Lemma byte_ascii (x : ascii) : ascii_of_N (Base64.byte x) = x.
Proof. apply ascii_N_embedding. Qed.

Section Steps.

Variables x y z : ascii.

Lemma step_first :
  Base64.a2b_step 0 0 0 (Base64.b2a (N.shiftr (Base64.byte x) 2))
  = Base64.Next 1 (N.shiftr (Base64.byte x) 2) 0 None.
Proof.
  apply step_eqb_eq, (for_bytes_forall _ decode_first_table), byte_bounded.
Qed.

Lemma step_second :
  Base64.a2b_step 1 (N.shiftr (Base64.byte x) 2) 0
    (Base64.b2a (N.lor (N.shiftl (N.land (Base64.byte x) 3) 4)
                       (N.shiftr (Base64.byte y) 4)))
  = Base64.Next 2 (N.shiftr (Base64.byte y) 4) 0 (Some x).
Proof.
  transitivity (Base64.Next 2 (N.shiftr (Base64.byte y) 4) 0
                  (Some (ascii_of_N (Base64.byte x))));
    [|now rewrite byte_ascii].
  apply step_eqb_eq, (for_bytes2_forall _ decode_second_table); apply byte_bounded.
Qed.

Lemma step_third :
  Base64.a2b_step 2 (N.shiftr (Base64.byte y) 4) 0
    (Base64.b2a (N.lor (N.shiftl (N.land (Base64.byte y) 15) 2)
                       (N.shiftr (Base64.byte z) 6)))
  = Base64.Next 3 (N.shiftr (Base64.byte z) 6) 0 (Some y).
Proof.
  transitivity (Base64.Next 3 (N.shiftr (Base64.byte z) 6) 0
                  (Some (ascii_of_N (Base64.byte y))));
    [|now rewrite byte_ascii].
  apply step_eqb_eq, (for_bytes2_forall _ decode_third_table); apply byte_bounded.
Qed.

Lemma step_fourth :
  Base64.a2b_step 3 (N.shiftr (Base64.byte z) 6) 0
    (Base64.b2a (N.land (Base64.byte z) 63))
  = Base64.Next 0 0 0 (Some z).
Proof.
  transitivity (Base64.Next 0 0 0 (Some (ascii_of_N (Base64.byte z))));
    [|now rewrite byte_ascii].
  apply step_eqb_eq, (for_bytes_forall _ decode_fourth_table), byte_bounded.
Qed.

Lemma step_second_last :
  Base64.a2b_step 1 (N.shiftr (Base64.byte x) 2) 0
    (Base64.b2a (N.shiftl (N.land (Base64.byte x) 3) 4))
  = Base64.Next 2 0 0 (Some x).
Proof.
  transitivity (Base64.Next 2 0 0 (Some (ascii_of_N (Base64.byte x))));
    [|now rewrite byte_ascii].
  apply step_eqb_eq, (for_bytes_forall _ decode_second_last_table), byte_bounded.
Qed.

Lemma step_third_last :
  Base64.a2b_step 2 (N.shiftr (Base64.byte y) 4) 0
    (Base64.b2a (N.shiftl (N.land (Base64.byte y) 15) 2))
  = Base64.Next 3 0 0 (Some y).
Proof.
  transitivity (Base64.Next 3 0 0 (Some (ascii_of_N (Base64.byte y))));
    [|now rewrite byte_ascii].
  apply step_eqb_eq, (for_bytes_forall _ decode_third_last_table), byte_bounded.
Qed.

End Steps.

Lemma list_ind3 {A : Type} (P : list A -> Prop) :
  P [] -> (forall x, P [x]) -> (forall x y, P [x; y]) ->
  (forall x y z rest, P rest -> P (x :: y :: z :: rest)) ->
  forall l, P l.
Proof.
  intros H0 H1 H2 H3 l.
  assert (G : forall n l, (length l <= n)%nat -> P l).
  { induction n as [|n IH]; intros [|x [|y [|z rest]]] Hlen; cbn in Hlen;
      try apply H0; try apply H1; try apply H2; try lia.
    apply H3, IH. lia. }
  apply (G (length l)). lia.
Qed.

Lemma a2b_loop_encode (bs : bytes) :
  forall out, Base64.a2b_loop (Base64.b64encode bs) 0 0 0 out = Some (out ++ bs).
Proof.
  induction bs as [|x|x y|x y z rest IH] using list_ind3; intros out.
  - cbn. now rewrite app_nil_r.
  - cbn [Base64.b64encode Base64.a2b_loop].
    rewrite step_first. cbn [Base64.emitted].
    rewrite step_second_last. cbn [Base64.emitted].
    reflexivity.
  - cbn [Base64.b64encode Base64.a2b_loop].
    rewrite step_first. cbn [Base64.emitted].
    rewrite step_second. cbn [Base64.emitted].
    rewrite step_third_last. cbn [Base64.emitted].
    change (Base64.a2b_step 3 0 0 Base64.pad) with Base64.Stop.
    now rewrite <- app_assoc.
  - cbn [Base64.b64encode Base64.a2b_loop].
    rewrite step_first. cbn [Base64.emitted].
    rewrite step_second. cbn [Base64.emitted].
    rewrite step_third. cbn [Base64.emitted].
    rewrite step_fourth. cbn [Base64.emitted].
    rewrite IH. now rewrite <- !app_assoc.
Qed.

Lemma b64decode_b64encode (bs : bytes) :
  Base64.b64decode (Base64.b64encode bs) = Some bs.
Proof. unfold Base64.b64decode. now rewrite a2b_loop_encode. Qed.

Lemma b64encode_not_empty (bs : bytes) :
  bs <> [] -> Py.falsy (Base64.b64encode bs) = false.
Proof. destruct bs as [|x [|y [|z rest]]]; [congruence | | |]; reflexivity. Qed.

(** ** Signing and verifying messages *)

Section Signing.

Context {L : Micro.Library}.

(** The digest of SHA-256 has 32 bytes. *)
Hypothesis digest_size :
  forall key message, length (Micro.hmac_sha256 key message) = 32%nat.

Lemma hmac_verify_hmac_sign (key message : bytes) :
  Micro.hmac_verify key message (Micro.hmac_sign key message) = true.
Proof.
  unfold Micro.hmac_verify, Micro.hmac_sign.
  rewrite b64decode_b64encode. now apply bool_decide_eq_true.
Qed.

Lemma hmac_sign_not_empty (key message : bytes) :
  Py.falsy (Micro.hmac_sign key message) = false.
Proof.
  apply b64encode_not_empty. intros E.
  pose proof (digest_size key message) as H. rewrite E in H. discriminate H.
Qed.

Lemma verify_signature_sign_with (m : Micro.Message) (key : bytes) :
  Micro.verify_signature (Micro.sign_with m key) key = true.
Proof.
  unfold Micro.verify_signature, Micro.sign_with. cbn [Micro.signature].
  rewrite hmac_sign_not_empty.
  change (Micro.to_wire (Micro.mkMessage _ _ _ _ _ _)) with (Micro.to_wire m).
  apply hmac_verify_hmac_sign.
Qed.

(** C9.  For every message m and every key k, after [m.sign_with(k)] the
    call [m.verify_signature(k)] returns true; and on a message whose
    signature is None, [verify_signature] returns false for every key. *)
Theorem sign_then_verify (m : Micro.Message) (k : bytes) :
  Micro.verify_signature (Micro.sign_with m k) k = true
  /\ (Micro.signature m = None -> forall k', Micro.verify_signature m k' = false).
Proof.
  split; [apply verify_signature_sign_with|].
  intros H k'. unfold Micro.verify_signature. now rewrite H.
Qed.

End Signing.

Lemma toy_digest_size (key message : bytes) :
  length (Samples.toy_hmac key message) = 32%nat.
Proof.
  unfold Samples.toy_hmac.
  rewrite length_firstn, !length_app, repeat_length. lia.
Qed.

Lemma sign_then_verify_witness :
  @Micro.verify_signature Samples.toy_library
    (Micro.sign_with
       (@Micro.mkMessage Samples.toy_library "Controller_MS" "Storage_MS" "{}" 50
          "fresh" None)
       (list_ascii_of_string "k1"))
    (list_ascii_of_string "k1") = true
  /\ forall k',
      @Micro.verify_signature Samples.toy_library
        (@Micro.mkMessage Samples.toy_library "Controller_MS" "Storage_MS" "{}" 50
           "fresh" None) k' = false.
Proof.
  split.
  - apply (@sign_then_verify Samples.toy_library toy_digest_size).
  - apply (@sign_then_verify Samples.toy_library toy_digest_size
             (@Micro.mkMessage Samples.toy_library "Controller_MS" "Storage_MS" "{}"
                50 "fresh" None) []).
    reflexivity.
Defined.

(** ** The nonce store *)

Lemma seen_store (n : string) (t : Z) (d : Micro.nonces) :
  Micro.seen n (Micro.store n t d) = true.
Proof.
  unfold Micro.seen. induction d as [|kv d IH]; cbn [Micro.store].
  - cbn. now rewrite String.eqb_refl.
  - destruct (String.eqb (fst kv) n) eqn:E; cbn [existsb fst].
    + now rewrite String.eqb_refl.
    + now rewrite E, IH.
Qed.

Lemma seen_store_keeps (n n' : string) (t : Z) (d : Micro.nonces) :
  Micro.seen n' d = true -> Micro.seen n' (Micro.store n t d) = true.
Proof.
  unfold Micro.seen. induction d as [|kv d IH]; [discriminate|].
  cbn [Micro.store existsb]. intros H.
  destruct (String.eqb (fst kv) n) eqn:E; cbn [existsb fst].
  - apply String.eqb_eq in E. rewrite E in H.
    destruct (String.eqb n n'); [reflexivity | exact H].
  - destruct (String.eqb (fst kv) n'); [reflexivity | now apply IH].
Qed.

Lemma length_store (n : string) (t : Z) (d : Micro.nonces) :
  (length (Micro.store n t d) <= length d + 1)%nat.
Proof.
  induction d as [|kv d IH]; cbn [Micro.store]; [cbn; lia|].
  destruct (String.eqb (fst kv) n); cbn [length]; lia.
Qed.

Lemma length_drop (n : string) (d : Micro.nonces) :
  (length (Micro.drop n d) <= length d)%nat.
Proof. apply filter_length_le. Qed.

Section Replay.

Context {L : Micro.Library}.

(** What a call does to the store: the nonces grow by one at most, and
    none is dropped as long as the store stays within its cap. *)
Lemma verify_incoming_store (self : Micro.Service) now msg key :
  let self' := snd (Micro.verify_incoming self now msg key) in
  (length (Micro.seen_nonces self') <= length (Micro.seen_nonces self) + 1)%nat
  /\ ((length (Micro.seen_nonces self) + 1 <= 1000)%nat ->
      (fst (fst (Micro.verify_incoming self now msg key)) = true ->
       Micro.seen (Micro.nonce msg) (Micro.seen_nonces self') = true)
      /\ forall n, Micro.seen n (Micro.seen_nonces self) = true ->
                   Micro.seen n (Micro.seen_nonces self') = true).
Proof.
  unfold Micro.verify_incoming.
  destruct (negb (Micro.verify_signature msg key));
    [cbn; split; [lia | intros _; split; [discriminate | auto]]|].
  destruct (Micro.allowed_skew <? Z.abs (now - Micro.ts msg));
    [cbn; split; [lia | intros _; split; [discriminate | auto]]|].
  destruct (Micro.seen (Micro.nonce msg) (Micro.seen_nonces self)) eqn:S;
    [cbn; split; [lia | intros _; split; [discriminate | auto]]|].
  cbn [snd fst Micro.with_nonces Micro.seen_nonces].
  set (d := Micro.store (Micro.nonce msg) (Micro.ts msg) (Micro.seen_nonces self)).
  pose proof (length_store (Micro.nonce msg) (Micro.ts msg) (Micro.seen_nonces self))
    as Hlen. fold d in Hlen.
  split.
  - destruct (1000 <? length d)%nat; [|exact Hlen].
    destruct (Micro.oldest d) as [n|]; [|exact Hlen].
    pose proof (length_drop n d). lia.
  - intros Hcap.
    destruct (Nat.ltb_spec 1000 (length d)) as [Hbig|_]; [lia|].
    split; [intros _; apply seen_store | intros n; apply seen_store_keeps].
Qed.

Lemma after_calls_keeps (calls : list Micro.call) :
  forall (self : Micro.Service) (n : string),
    (length (Micro.seen_nonces self) + length calls <= 1000)%nat ->
    Micro.seen n (Micro.seen_nonces self) = true ->
    Micro.seen n (Micro.seen_nonces (Micro.after_calls self calls)) = true.
Proof.
  induction calls as [|c calls IH]; intros self n Hcap Hn; [exact Hn|].
  cbn [length] in Hcap. unfold Micro.after_calls. cbn [fold_left].
  destruct (verify_incoming_store self (Micro.call_now c) (Micro.call_msg c)
              (Micro.call_key c)) as [Hlen Hkeep].
  cbn zeta in Hlen, Hkeep.
  apply IH; [lia|]. apply Hkeep; [lia | exact Hn].
Qed.

Lemma replay_rejected (self : Micro.Service) now msg key :
  Micro.seen (Micro.nonce msg) (Micro.seen_nonces self) = true ->
  fst (fst (Micro.verify_incoming self now msg key)) = false
  /\ snd (Micro.verify_incoming self now msg key) = self
  /\ (Micro.verify_signature msg key = true ->
      Z.abs (now - Micro.ts msg) <= Micro.allowed_skew ->
      snd (fst (Micro.verify_incoming self now msg key))
      = "replay detected (nonce already seen)").
Proof.
  intros S. unfold Micro.verify_incoming.
  destruct (Micro.verify_signature msg key); cbn [negb];
    [|repeat split; discriminate].
  destruct (Z.ltb_spec Micro.allowed_skew (Z.abs (now - Micro.ts msg)));
    [repeat split; intros; lia|].
  rewrite S. repeat split.
Qed.

(** C10 (as amended).  Once [verify_incoming] has accepted a message, every
    later call on the same service with a message that carries the same
    nonce is rejected and leaves the service as it is, with the replay error
    when the later message passes the signature and timestamp checks, as
    long as the store has stayed within its cap of 1000 entries: the nonces
    it held before the acceptance, the accepted one and one for each call in
    between are at most 1000. *)
Theorem replay_rejected_within_cap (self : Micro.Service) (now : Z)
    (msg : Micro.Message) (key : bytes) (calls : list Micro.call)
    (now' : Z) (msg' : Micro.Message) (key' : bytes) :
  fst (fst (Micro.verify_incoming self now msg key)) = true ->
  (length (Micro.seen_nonces self) + 1 + length calls <= 1000)%nat ->
  Micro.nonce msg' = Micro.nonce msg ->
  let later :=
    Micro.after_calls (snd (Micro.verify_incoming self now msg key)) calls in
  fst (fst (Micro.verify_incoming later now' msg' key')) = false
  /\ snd (Micro.verify_incoming later now' msg' key') = later
  /\ (Micro.verify_signature msg' key' = true ->
      Z.abs (now' - Micro.ts msg') <= Micro.allowed_skew ->
      snd (fst (Micro.verify_incoming later now' msg' key'))
      = "replay detected (nonce already seen)").
Proof.
  intros Hacc Hcap Hn later.
  destruct (verify_incoming_store self now msg key) as [Hlen Hkeep].
  cbn zeta in Hlen, Hkeep.
  destruct Hkeep as [Hin _]; [lia|]. specialize (Hin Hacc).
  apply replay_rejected. rewrite Hn.
  apply after_calls_keeps; [lia | exact Hin].
Qed.

End Replay.

Lemma replay_rejected_within_cap_witness :
  let key := Samples.sender_key in
  let msg := @Samples.early_message Samples.toy_library "{}" in
  let other :=
    Micro.sign_with
      (@Micro.mkMessage Samples.toy_library "Car_MS" "Storage_MS" "{}" 99 "other" None)
      key in
  let self := Micro.mkService "Storage_MS" (list_ascii_of_string "k2") [] in
  let later :=
    Micro.after_calls (snd (Micro.verify_incoming self 100 msg key))
      [Micro.mkcall 101 other key] in
  fst (fst (Micro.verify_incoming self 100 msg key)) = true
  /\ Micro.seen_nonces later = [("fresh", 50); ("other", 99)]
  /\ fst (Micro.verify_incoming later 102 msg key)
     = (false, "replay detected (nonce already seen)").
Proof.
  intros key msg other self later.
  split; [vm_compute; reflexivity|].
  split; [vm_compute; reflexivity|].
  destruct (@replay_rejected_within_cap Samples.toy_library self 100 msg key
              [Micro.mkcall 101 other key] 102 msg key)
    as (R & _ & E);
    [vm_compute; reflexivity | cbn; lia | reflexivity|].
  fold later in R, E.
  rewrite (surjective_pairing (fst (Micro.verify_incoming later 102 msg key))).
  rewrite R, E; [reflexivity | vm_compute; reflexivity | vm_compute; discriminate].
Defined.

(** The store drops the entry with the smallest timestamp, not the one
    recorded first: on a store that holds 1000 nonces stamped 100, a message
    stamped 50 is accepted, recorded and dropped at once, and the same
    message is accepted again by the very next call. *)
Lemma replay_accepted_after_eviction {L : Micro.Library}
    (digest_size : forall key message,
        length (Micro.hmac_sha256 key message) = 32%nat)
    (p : Micro.Payload) :
  Micro.verify_incoming Samples.busy_service 100 (Samples.early_message p)
    Samples.sender_key
  = ((true, "ok"), Samples.busy_service).
Proof.
  unfold Micro.verify_incoming, Samples.early_message.
  rewrite (verify_signature_sign_with digest_size). cbn [negb].
  change (Micro.ts (Micro.sign_with _ _)) with 50.
  change (Micro.nonce (Micro.sign_with _ _)) with "fresh".
  change (Micro.allowed_skew <? Z.abs (100 - 50)) with false. cbn iota.
  change (Micro.seen_nonces Samples.busy_service) with Samples.full_store.
  replace (Micro.seen "fresh" Samples.full_store) with false
    by (vm_compute; reflexivity).
  cbn iota.
  replace (Micro.store "fresh" 50 Samples.full_store)
    with (Samples.full_store ++ [("fresh", 50)]) by (vm_compute; reflexivity).
  replace (Nat.ltb 1000 (length (Samples.full_store ++ [("fresh", 50)])))
    with true by (vm_compute; reflexivity).
  replace (Micro.oldest (Samples.full_store ++ [("fresh", 50)]))
    with (Some "fresh") by (vm_compute; reflexivity).
  replace (Micro.drop "fresh" (Samples.full_store ++ [("fresh", 50)]))
    with Samples.full_store by (vm_compute; reflexivity).
  reflexivity.
Qed.

(** C10 as stated fails: no other nonce is recorded between the two calls,
    and the second call accepts the nonce the first one accepted. *)
Lemma replay_accepted_after_eviction_example :
  length (Micro.seen_nonces Samples.busy_service) = 1000%nat
  /\ Micro.verify_incoming Samples.busy_service 100
       (@Samples.early_message Samples.toy_library "{}") Samples.sender_key
     = ((true, "ok"), Samples.busy_service)
  /\ Micro.verify_incoming
       (snd (Micro.verify_incoming Samples.busy_service 100
               (@Samples.early_message Samples.toy_library "{}") Samples.sender_key))
       100 (@Samples.early_message Samples.toy_library "{}") Samples.sender_key
     = ((true, "ok"), Samples.busy_service).
Proof.
  pose proof (@replay_accepted_after_eviction Samples.toy_library toy_digest_size "{}")
    as E.
  split; [vm_compute; reflexivity|].
  split; [exact E|].
  etransitivity; [|exact E].
  apply (f_equal (fun s => Micro.verify_incoming s 100
                    (@Samples.early_message Samples.toy_library "{}")
                    Samples.sender_key)).
  exact (f_equal snd E).
Qed.

(** * Further properties of the handlers *)

(** ** Rows and keys *)

Section MoreKeyFacts.

Context {row : Type}.
Variable key : row -> Z.

Lemma map_key_replace r' rows :
  List.map key (Sql.replace key r' rows) = List.map key rows.
Proof.
  unfold Sql.replace. induction rows as [|x rows IH]; [reflexivity|].
  cbn [List.map]. rewrite IH. f_equal.
  destruct (Z.eqb_spec (key x) (key r')) as [E|_]; congruence.
Qed.

Lemma get_replace_other id r' rows :
  key r' <> id ->
  Sql.get key id (Sql.replace key r' rows) = Sql.get key id rows.
Proof.
  intros N. unfold Sql.get, Sql.replace.
  induction rows as [|x rows IH]; [reflexivity|].
  cbn [List.map List.find].
  destruct (Z.eqb_spec (key x) (key r')) as [E|_].
  - destruct (Z.eqb_spec (key r') id) as [E'|_]; [contradiction|].
    destruct (Z.eqb_spec (key x) id) as [E'|_]; [congruence | exact IH].
  - destruct (key x =? id); [reflexivity | exact IH].
Qed.

Lemma get_remove_other id id' rows :
  id <> id' ->
  Sql.get key id' (Sql.remove key id rows) = Sql.get key id' rows.
Proof.
  intros N. unfold Sql.get, Sql.remove.
  induction rows as [|x rows IH]; [reflexivity|].
  cbn [List.filter List.find].
  destruct (Z.eqb_spec (key x) id) as [E|_]; cbn [negb].
  - destruct (Z.eqb_spec (key x) id') as [E'|_]; [congruence | exact IH].
  - cbn [List.find]. destruct (key x =? id'); [reflexivity | exact IH].
Qed.

Lemma next_id_fresh rows : ~ In (Sql.next_id key rows) (List.map key rows).
Proof.
  intros H. apply in_map_iff in H as (r & E & Hin).
  pose proof (next_id_above key rows r Hin). lia.
Qed.

Lemma get_old_row id rows r r' :
  Sql.get key id rows = Some r -> Sql.get key id (rows ++ [r']) = Some r.
Proof. intros G. now rewrite get_app, G. Qed.

Lemma unique_keys_insert rows r :
  key r = Sql.next_id key rows ->
  StoreSpec.unique_keys key rows -> StoreSpec.unique_keys key (rows ++ [r]).
Proof.
  unfold StoreSpec.unique_keys. intros E U.
  rewrite map_app. cbn [List.map].
  apply (Permutation.Permutation_NoDup (l := key r :: List.map key rows)).
  - apply Permutation.Permutation_cons_append.
  - constructor; [rewrite E; apply next_id_fresh | exact U].
Qed.

Lemma unique_keys_replace rows r' :
  StoreSpec.unique_keys key rows ->
  StoreSpec.unique_keys key (Sql.replace key r' rows).
Proof. unfold StoreSpec.unique_keys. now rewrite map_key_replace. Qed.

Lemma NoDup_map_filter {A : Type} (f : row -> A) (p : row -> bool) rows :
  List.NoDup (List.map f rows) -> List.NoDup (List.map f (List.filter p rows)).
Proof.
  induction rows as [|x rows IH]; [trivial|].
  cbn [List.map List.filter]. intros H. inversion H as [|? ? Hx Hr]; subst.
  destruct (p x); [|now apply IH].
  cbn [List.map]. constructor; [|now apply IH].
  intros Hin. apply Hx. apply in_map_iff in Hin as (y & E & Hy).
  apply in_map_iff. exists y. split; [exact E|]. now apply filter_In in Hy.
Qed.

Lemma unique_keys_remove id rows :
  StoreSpec.unique_keys key rows ->
  StoreSpec.unique_keys key (Sql.remove key id rows).
Proof. apply NoDup_map_filter. Qed.

End MoreKeyFacts.

(** ** secure_code_2: the books of the API *)

Lemma substring_within n s : (String.length (substring 0 n s) <= n)%nat.
Proof.
  revert s. induction n as [|n IH]; intros [|c s]; cbn; try lia.
  specialize (IH s). lia.
Qed.

Lemma slice_within n s : StoreSpec.within n (Py.slice 0 n s).
Proof.
  unfold StoreSpec.within, Py.slice. rewrite Nat.sub_0_r. apply substring_within.
Qed.

(** A book that POST creates: what the handler builds from the body once
    the checks have passed. *)
Lemma secure2_post_cases (d : Secure2.db) (rq : request) :
  (exists b,
      Secure2.api_books_POST d rq
      = ((JsonObject (Secure2.to_dict b), 201),
         Secure2.mkdb (Secure2.books d ++ [b]) (Secure2.genres d) (Secure2.authors d))
      /\ Secure2.Book_ID b = Sql.next_id Secure2.Book_ID (Secure2.books d)
      /\ StoreSpec.secure2_book_fits b)
  \/ (exists body, Secure2.api_books_POST d rq = ((body, 400), d))
  \/ (Secure2.api_books_POST d rq = ((ServerError, 500), d)
      /\ is_json rq = true
      /\ StoreSpec.not_an_object (get_json rq) = true).
Proof.
  unfold Secure2.api_books_POST.
  destruct (is_json rq); cbn [negb]; [|right; left; eexists; reflexivity].
  destruct (get_json rq) as [payload|items|v|];
    [|now right; right|now right; right|right; left; eexists; reflexivity].
  destruct (payload_truthy payload "Book_Publication_Date");
    [destruct (Secure2.parse_either _)|];
    match goal with
    | |- context [match ?e with [] => _ | _ :: _ => _ end] => destruct e
    end;
    try (right; left; eexists; reflexivity);
    left; eexists; (split; [reflexivity|]); (split; [reflexivity|]);
    repeat split; apply slice_within.
Qed.

(** POST leaves the store as it was, or appends the book it answers with. *)
Lemma secure2_post_store (d : Secure2.db) (rq : request) :
  snd (Secure2.api_books_POST d rq) = d
  \/ exists b,
       snd (Secure2.api_books_POST d rq)
       = Secure2.mkdb (Secure2.books d ++ [b]) (Secure2.genres d) (Secure2.authors d)
       /\ Secure2.Book_ID b = Sql.next_id Secure2.Book_ID (Secure2.books d)
       /\ StoreSpec.secure2_book_fits b.
Proof.
  destruct (secure2_post_cases d rq) as [(b & -> & H)|[(body & ->)|(-> & _)]];
    [right | now left | now left].
  now exists b.
Qed.

(** What every step of PUT keeps, it keeps as a whole: a property of the
    book that each assignment of a cut text, or of a date, preserves. *)
Section PutPreserves.

Variable P : Secure2.Book -> Prop.

Lemma put_required_preserves payload k n set (e : Secure2.edit) :
  (forall v x, StoreSpec.within n v -> P x -> P (set v x)) ->
  P (fst e) -> P (fst (Secure2.put_required payload k n set e)).
Proof.
  intros Hset He. unfold Secure2.put_required.
  destruct (payload !! k) as [v|]; [|exact He].
  destruct (negb (Json.truthy v)); [exact He|].
  cbn [fst]. apply Hset; [apply slice_within | exact He].
Qed.

Lemma put_text_preserves payload k n set (e : Secure2.edit) :
  (forall v x, StoreSpec.within_opt n v -> P x -> P (set v x)) ->
  P (fst e) -> P (fst (Secure2.put_text payload k n set e)).
Proof.
  intros Hset He. unfold Secure2.put_text.
  destruct (payload !! k) as [v|]; [|exact He].
  cbn [fst]. apply Hset; [apply slice_within | exact He].
Qed.

Lemma put_date_preserves payload (e : Secure2.edit) :
  (forall v x, P x -> P (Secure2.set_Book_Publication_Date v x)) ->
  P (fst e) -> P (fst (Secure2.put_date payload e)).
Proof.
  intros Hset He. unfold Secure2.put_date.
  destruct (payload !! "Book_Publication_Date") as [v|]; [|exact He].
  destruct (negb _ && negb _); [exact He|].
  cbn [fst]. now apply Hset.
Qed.

Lemma put_fields_preserves payload (b : Secure2.Book) :
  (forall v x, StoreSpec.within 300 v -> P x -> P (Secure2.set_Book_Title v x)) ->
  (forall v x, StoreSpec.within 120 v -> P x -> P (Secure2.set_Book_Author v x)) ->
  (forall v x, StoreSpec.within 120 v -> P x -> P (Secure2.set_Book_Genre v x)) ->
  (forall v x, StoreSpec.within_opt 200 v -> P x ->
               P (Secure2.set_Book_Publication v x)) ->
  (forall v x, StoreSpec.within_opt 2000 v -> P x ->
               P (Secure2.set_Book_Description v x)) ->
  (forall v x, P x -> P (Secure2.set_Book_Publication_Date v x)) ->
  P b -> P (fst (Secure2.put_fields payload b)).
Proof.
  intros H1 H2 H3 H4 H5 H6 Hb. unfold Secure2.put_fields.
  apply put_date_preserves; [exact H6|].
  apply put_text_preserves; [exact H5|].
  apply put_text_preserves; [exact H4|].
  apply put_required_preserves; [exact H3|].
  apply put_required_preserves; [exact H2|].
  apply put_required_preserves; [exact H1|].
  exact Hb.
Qed.

End PutPreserves.

Lemma secure2_put_fields_id payload (b : Secure2.Book) :
  Secure2.Book_ID (fst (Secure2.put_fields payload b)) = Secure2.Book_ID b.
Proof.
  apply (put_fields_preserves (fun x => Secure2.Book_ID x = Secure2.Book_ID b));
    try reflexivity; intros;
    match goal with H : Secure2.Book_ID _ = _ |- _ => exact H end.
Qed.

Lemma secure2_put_fields_fits payload (b : Secure2.Book) :
  StoreSpec.secure2_book_fits b ->
  StoreSpec.secure2_book_fits (fst (Secure2.put_fields payload b)).
Proof.
  apply (put_fields_preserves StoreSpec.secure2_book_fits);
    intros;
    match goal with
    | H : StoreSpec.secure2_book_fits _ |- _ => destruct H as (F1 & F2 & F3 & F4 & F5)
    end; repeat split; assumption.
Qed.

(** What PUT does to the table: nothing, or it replaces the addressed book
    by one that [put_fields] made of it. *)
Lemma secure2_put_cases (d : Secure2.db) (id : Z) (rq : request) :
  snd (Secure2.api_book_item_PUT d id rq) = d
  \/ exists b payload,
       Sql.get Secure2.Book_ID id (Secure2.books d) = Some b
       /\ get_json rq = JObject payload
       /\ Secure2.api_book_item_PUT d id rq
          = ((JsonObject (Secure2.to_dict (fst (Secure2.put_fields payload b))),
              200),
             Secure2.mkdb
               (Sql.replace Secure2.Book_ID (fst (Secure2.put_fields payload b))
                  (Secure2.books d))
               (Secure2.genres d) (Secure2.authors d)).
Proof.
  unfold Secure2.api_book_item_PUT.
  destruct (Sql.get Secure2.Book_ID id (Secure2.books d)) as [b|]; [|now left].
  destruct (is_json rq); cbn [negb]; [|now left].
  destruct (get_json rq) as [payload|items|v|];
    [|destruct (no_key_in _ _); now left|destruct (no_key_in _ _); now left|now left].
  destruct (Secure2.put_fields payload b) as [b' [|e errors]] eqn:E; [|now left].
  right. exists b, payload. rewrite E. now split.
Qed.

Lemma secure2_delete_cases (d : Secure2.db) (id : Z) :
  snd (Secure2.api_book_item_DELETE d id)
  = Secure2.mkdb (Sql.remove Secure2.Book_ID id (Secure2.books d))
      (Secure2.genres d) (Secure2.authors d).
Proof.
  unfold Secure2.api_book_item_DELETE.
  destruct (Sql.get Secure2.Book_ID id (Secure2.books d)) as [b|] eqn:G.
  - apply get_some in G as [_ E]. cbn [snd]. now rewrite E.
  - cbn [snd]. destruct d as [bs gs au]. cbn [Secure2.books] in *. f_equal.
    unfold Sql.remove. symmetry. apply forallb_filter_id.
    apply forallb_forall. intros x Hx. apply negb_true_iff.
    destruct (Z.eqb_spec (Secure2.Book_ID x) id) as [E|]; [|reflexivity].
    unfold Sql.get in G. apply (find_none _ _ G) in Hx.
    rewrite <- E, Z.eqb_refl in Hx. discriminate Hx.
Qed.

Lemma get_after_insert {row : Type} (key : row -> Z) (rows : list row) (r : row)
    (id : Z) :
  key r = Sql.next_id key rows ->
  Sql.get key id (rows ++ [r])
  = if id =? key r then Some r else Sql.get key id rows.
Proof.
  intros E. destruct (Z.eqb_spec id (key r)) as [->|N].
  - now apply get_new_row.
  - rewrite get_app. destruct (Sql.get key id rows); [reflexivity|].
    unfold Sql.get. cbn [List.find].
    destruct (Z.eqb_spec (key r) id); [congruence | reflexivity].
Qed.

(** X1.  POST on the books of secure_code_2 has three outcomes, on every
    request.  Either it answers 201 with a new book: the book is appended to
    the table under an id larger than every id in use, the other tables are
    untouched, and after the request GET answers 200 with the same object
    for the new id and answers for every other id what it answered before.
    Or it answers 400 and the store is as it was.  Or it answers 500 and the
    store is as it was; this is the answer exactly when the body is declared
    JSON and parses to something that is not an object (an array, a text, a
    number, true, false or null). *)
Theorem secure2_post_book_outcome (d : Secure2.db) (rq : request) :
  ((exists b : Secure2.Book,
       Secure2.api_books_POST d rq
       = ((JsonObject (Secure2.to_dict b), 201),
          Secure2.mkdb (Secure2.books d ++ [b]) (Secure2.genres d) (Secure2.authors d))
       /\ Forall (fun b0 => Secure2.Book_ID b0 < Secure2.Book_ID b) (Secure2.books d)
       /\ forall id,
           Secure2.api_book_item_GET (snd (Secure2.api_books_POST d rq)) id
           = if id =? Secure2.Book_ID b then (JsonObject (Secure2.to_dict b), 200)
             else Secure2.api_book_item_GET d id)
   \/ (exists body, Secure2.api_books_POST d rq = ((body, 400), d))
   \/ Secure2.api_books_POST d rq = ((ServerError, 500), d))
  /\ (snd (fst (Secure2.api_books_POST d rq)) = 500
      <-> is_json rq = true /\ StoreSpec.not_an_object (get_json rq) = true).
Proof.
  destruct (secure2_post_cases d rq) as [(b & E & Hid & _)|[(body & E)|(E & J & N)]].
  - split.
    + left. exists b. split; [exact E|]. split.
      * apply List.Forall_forall. intros b0 Hin. rewrite Hid. now apply next_id_above.
      * intros id. rewrite E. unfold Secure2.api_book_item_GET. cbn [snd Secure2.books].
        rewrite (get_after_insert Secure2.Book_ID _ _ id Hid).
        now destruct (id =? Secure2.Book_ID b).
    + rewrite E. cbn [fst snd]. split; [discriminate|].
      intros [J N]. revert E. unfold Secure2.api_books_POST. rewrite J. cbn [negb].
      destruct (get_json rq); discriminate.
  - split; [right; left; now exists body|].
    rewrite E. cbn [fst snd]. split; [discriminate|].
    intros [J N]. revert E. unfold Secure2.api_books_POST. rewrite J. cbn [negb].
    destruct (get_json rq); discriminate.
  - split; [now right; right|]. rewrite E. cbn [fst snd]. now split.
Qed.

(** X2.  A write on one book of secure_code_2 is local: whatever the body
    of the request and whatever its outcome, after PUT or DELETE on the book
    [id], GET answers for every other id what it answered before. *)
Theorem secure2_book_writes_are_local (d : Secure2.db) (id id' : Z) (rq : request) :
  id' <> id ->
  Secure2.api_book_item_GET (snd (Secure2.api_book_item_PUT d id rq)) id'
  = Secure2.api_book_item_GET d id'
  /\ Secure2.api_book_item_GET (snd (Secure2.api_book_item_DELETE d id)) id'
     = Secure2.api_book_item_GET d id'.
Proof.
  intros N. split.
  - destruct (secure2_put_cases d id rq) as [->|(b & payload & G & _ & ->)];
      [reflexivity|].
    unfold Secure2.api_book_item_GET. cbn [snd Secure2.books].
    rewrite get_replace_other; [reflexivity|].
    rewrite secure2_put_fields_id. apply get_some in G as [_ E]. congruence.
  - rewrite secure2_delete_cases.
    unfold Secure2.api_book_item_GET. cbn [Secure2.books].
    rewrite get_remove_other; [reflexivity | congruence].
Qed.

Lemma secure2_book_writes_are_local_witness :
  Secure2.api_book_item_GET
    (snd (Secure2.api_book_item_PUT Samples.secure2_db 1 Samples.rename_request)) 2
  = Secure2.api_book_item_GET Samples.secure2_db 2
  /\ Secure2.api_book_item_GET
       (snd (Secure2.api_book_item_DELETE Samples.secure2_db 1)) 2
     = Secure2.api_book_item_GET Samples.secure2_db 2.
Proof.
  apply (secure2_book_writes_are_local Samples.secure2_db 1 2 Samples.rename_request).
  lia.
Defined.

(** X3.  The primary key of the books of secure_code_2 stays a key: when no
    two stored books share an id, none do after POST, PUT or DELETE, whatever
    the request. *)
Theorem secure2_book_ids_stay_unique (d : Secure2.db) (id : Z) (rq : request) :
  StoreSpec.unique_keys Secure2.Book_ID (Secure2.books d) ->
  StoreSpec.unique_keys Secure2.Book_ID
    (Secure2.books (snd (Secure2.api_books_POST d rq)))
  /\ StoreSpec.unique_keys Secure2.Book_ID
       (Secure2.books (snd (Secure2.api_book_item_PUT d id rq)))
  /\ StoreSpec.unique_keys Secure2.Book_ID
       (Secure2.books (snd (Secure2.api_book_item_DELETE d id))).
Proof.
  intros U. split; [|split].
  - destruct (secure2_post_store d rq) as [->|(b & -> & Hid & _)]; [exact U|].
    cbn [Secure2.books]. now apply unique_keys_insert.
  - destruct (secure2_put_cases d id rq) as [->|(b & payload & G & _ & ->)];
      [exact U|].
    cbn [snd Secure2.books]. now apply unique_keys_replace.
  - rewrite secure2_delete_cases. cbn [Secure2.books]. now apply unique_keys_remove.
Qed.

Lemma secure2_book_ids_stay_unique_witness :
  StoreSpec.unique_keys Secure2.Book_ID
    (Secure2.books (snd (Secure2.api_books_POST Samples.secure2_db
                           Samples.new_book_request)))
  /\ StoreSpec.unique_keys Secure2.Book_ID
       (Secure2.books (snd (Secure2.api_book_item_PUT Samples.secure2_db 3
                              Samples.new_book_request)))
  /\ StoreSpec.unique_keys Secure2.Book_ID
       (Secure2.books (snd (Secure2.api_book_item_DELETE Samples.secure2_db 3))).
Proof.
  apply (secure2_book_ids_stay_unique Samples.secure2_db 3 Samples.new_book_request).
  unfold StoreSpec.unique_keys. cbn.
  repeat constructor; cbn; intros H; repeat destruct H as [H|H]; try discriminate H;
    exact H.
Defined.

Lemma Forall_replace {row : Type} (key : row -> Z) (P : row -> Prop) r' rows :
  P r' -> Forall P rows -> Forall P (Sql.replace key r' rows).
Proof.
  intros Hr H. unfold Sql.replace. apply List.Forall_forall. intros x Hx.
  apply in_map_iff in Hx as (y & <- & Hy).
  destruct (key y =? key r'); [exact Hr|].
  now apply (proj1 (List.Forall_forall P rows) H).
Qed.

(** X4.  The API of secure_code_2 never stores a text longer than its
    column: when every stored book fits the declared sizes (title 300,
    author 120, genre 120, publication 200, description 2000 characters),
    every stored book still does after POST, PUT or DELETE, whatever the
    length of the texts in the body. *)
Theorem secure2_books_fit_columns (d : Secure2.db) (id : Z) (rq : request) :
  Forall StoreSpec.secure2_book_fits (Secure2.books d) ->
  Forall StoreSpec.secure2_book_fits
    (Secure2.books (snd (Secure2.api_books_POST d rq)))
  /\ Forall StoreSpec.secure2_book_fits
       (Secure2.books (snd (Secure2.api_book_item_PUT d id rq)))
  /\ Forall StoreSpec.secure2_book_fits
       (Secure2.books (snd (Secure2.api_book_item_DELETE d id))).
Proof.
  intros F. split; [|split].
  - destruct (secure2_post_store d rq) as [->|(b & -> & _ & Fb)]; [exact F|].
    cbn [Secure2.books]. apply List.Forall_app. split; [exact F|].
    constructor; [exact Fb | constructor].
  - destruct (secure2_put_cases d id rq) as [->|(b & payload & G & _ & ->)];
      [exact F|].
    cbn [snd Secure2.books]. apply Forall_replace; [|exact F].
    apply secure2_put_fields_fits. apply get_some in G as [Hin _].
    now apply (proj1 (List.Forall_forall _ _) F).
  - rewrite secure2_delete_cases. cbn [Secure2.books].
    apply List.Forall_forall. intros x Hx. apply filter_In in Hx as [Hx _].
    now apply (proj1 (List.Forall_forall _ _) F).
Qed.

Lemma secure2_books_fit_columns_witness :
  Forall StoreSpec.secure2_book_fits
    (Secure2.books (snd (Secure2.api_books_POST Samples.secure2_db
                           Samples.new_book_request)))
  /\ Forall StoreSpec.secure2_book_fits
       (Secure2.books (snd (Secure2.api_book_item_PUT Samples.secure2_db 3
                              Samples.new_book_request)))
  /\ Forall StoreSpec.secure2_book_fits
       (Secure2.books (snd (Secure2.api_book_item_DELETE Samples.secure2_db 3))).
Proof.
  apply (secure2_books_fit_columns Samples.secure2_db 3 Samples.new_book_request).
  repeat constructor; cbn; lia.
Defined.

(** ** secure_code_2: genres and authors *)

Section NamedRows.

Context {row : Type}.
Variable key : row -> Z.
Variable name_of : row -> string.

Lemma name_taken_false name rows :
  Secure2.name_taken name_of name rows = false ->
  ~ In name (List.map name_of rows).
Proof.
  unfold Secure2.name_taken. intros H Hin.
  apply in_map_iff in Hin as (r & E & Hr).
  assert (T : existsb (fun r => String.eqb (name_of r) name) rows = true).
  { apply existsb_exists. exists r. split; [exact Hr|]. now apply String.eqb_eq. }
  rewrite T in H. discriminate H.
Qed.

Lemma unique_names_insert rows r :
  Secure2.name_taken name_of (name_of r) rows = false ->
  StoreSpec.unique_names name_of rows ->
  StoreSpec.unique_names name_of (rows ++ [r]).
Proof.
  unfold StoreSpec.unique_names. intros T U.
  rewrite map_app. cbn [List.map].
  apply (Permutation.Permutation_NoDup (l := name_of r :: List.map name_of rows)).
  - apply Permutation.Permutation_cons_append.
  - constructor; [now apply name_taken_false | exact U].
Qed.

Lemma replace_no_key r' rows :
  ~ In (key r') (List.map key rows) -> Sql.replace key r' rows = rows.
Proof.
  unfold Sql.replace. induction rows as [|x rows IH]; [reflexivity|].
  cbn [List.map]. intros N.
  destruct (Z.eqb_spec (key x) (key r')) as [E|_].
  - exfalso. apply N. left. exact E.
  - f_equal. apply IH. intros H. apply N. now right.
Qed.

Lemma in_names_replace r' rows n :
  In n (List.map name_of (Sql.replace key r' rows)) ->
  n = name_of r' \/ In n (List.map name_of rows).
Proof.
  unfold Sql.replace. rewrite map_map. intros H.
  apply in_map_iff in H as (x & E & Hx).
  destruct (key x =? key r'); [now left|].
  right. apply in_map_iff. now exists x.
Qed.

(** A renamed row keeps the names distinct when its new name is its old
    one or the name of no row. *)
Lemma unique_names_replace rows r r' :
  StoreSpec.unique_keys key rows ->
  StoreSpec.unique_names name_of rows ->
  In r rows -> key r' = key r ->
  name_of r' = name_of r \/ ~ In (name_of r') (List.map name_of rows) ->
  StoreSpec.unique_names name_of (Sql.replace key r' rows).
Proof.
  unfold StoreSpec.unique_keys, StoreSpec.unique_names.
  induction rows as [|x rows IH]; [intros _ _ []|].
  intros K U Hin Ek Hn.
  cbn [List.map] in K, U. inversion K as [|? ? Kx Kr]; subst.
  inversion U as [|? ? Ux Ur]; subst.
  change (Sql.replace key r' (x :: rows))
    with ((if key x =? key r' then r' else x) :: Sql.replace key r' rows).
  cbn [List.map].
  destruct (Z.eqb_spec (key x) (key r')) as [E|N].
  - rewrite replace_no_key by (rewrite <- E; exact Kx).
    constructor; [|exact Ur].
    destruct Hin as [->|Hin].
    + destruct Hn as [->|Hn]; [exact Ux|].
      intros H. apply Hn. now right.
    + exfalso. apply Kx. rewrite E, Ek. now apply in_map.
  - destruct Hin as [->|Hin]; [congruence|].
    constructor.
    + intros H. apply in_names_replace in H as [H|H]; [|now apply Ux].
      destruct Hn as [Hn|Hn].
      * apply Ux. rewrite H, Hn. now apply in_map.
      * apply Hn. left. now symmetry.
    + apply (IH Kr Ur Hin Ek).
      destruct Hn as [Hn|Hn]; [now left | right].
      intros H. apply Hn. now right.
Qed.

Lemma rename_conflict_false old new rows :
  Secure2Items.rename_conflict name_of old new rows = false ->
  new = old \/ ~ In new (List.map name_of rows).
Proof.
  unfold Secure2Items.rename_conflict. intros H.
  destruct (String.eqb_spec new old) as [E|_]; [now left|].
  right. now apply name_taken_false.
Qed.

End NamedRows.

Lemma remove_absent {row : Type} (key : row -> Z) id rows :
  Sql.get key id rows = None -> Sql.remove key id rows = rows.
Proof.
  intros G. unfold Sql.remove. apply forallb_filter_id.
  apply forallb_forall. intros x Hx. apply negb_true_iff.
  destruct (Z.eqb_spec (key x) id) as [E|]; [|reflexivity].
  unfold Sql.get in G. apply (find_none _ _ G) in Hx.
  rewrite <- E, Z.eqb_refl in Hx. discriminate Hx.
Qed.

(** What the writes on genres do to the store. *)
Lemma secure2_genres_POST_cases (d : Secure2.db) (rq : request) :
  snd (Secure2.api_genres_POST d rq) = d
  \/ exists g,
       Secure2.Genre_ID g = Sql.next_id Secure2.Genre_ID (Secure2.genres d)
       /\ Secure2.name_taken Secure2.Genre_Name (Secure2.Genre_Name g)
            (Secure2.genres d) = false
       /\ snd (Secure2.api_genres_POST d rq)
          = Secure2.mkdb (Secure2.books d) (Secure2.genres d ++ [g])
              (Secure2.authors d).
Proof.
  unfold Secure2.api_genres_POST.
  destruct (is_json rq); cbn [negb]; [|now left].
  destruct (get_json rq) as [payload|items|v|]; [|now left|now left|now left].
  destruct (Secure2.payload_strip _ _) as [name|]; [|now left].
  destruct (Secure2.payload_strip_if _ _) as [desc|]; [|now left].
  destruct (Py.falsy name); [now left|].
  cbn zeta.
  destruct (Secure2.name_taken _ _ _) eqn:T; [now left|].
  right. eexists. split; [|split; [exact T | reflexivity]]. reflexivity.
Qed.

Lemma secure2_authors_POST_cases (d : Secure2.db) (rq : request) :
  snd (Secure2.api_authors_POST d rq) = d
  \/ exists a,
       Secure2.Author_ID a = Sql.next_id Secure2.Author_ID (Secure2.authors d)
       /\ Secure2.name_taken Secure2.Author_Name (Secure2.Author_Name a)
            (Secure2.authors d) = false
       /\ snd (Secure2.api_authors_POST d rq)
          = Secure2.mkdb (Secure2.books d) (Secure2.genres d)
              (Secure2.authors d ++ [a]).
Proof.
  unfold Secure2.api_authors_POST.
  destruct (is_json rq); cbn [negb]; [|now left].
  destruct (get_json rq) as [payload|items|v|]; [|now left|now left|now left].
  destruct (Secure2.payload_strip _ _) as [name|]; [|now left].
  destruct (Secure2.payload_strip_if _ _) as [bio|]; [|now left].
  destruct (Py.falsy name); [now left|].
  cbn zeta.
  destruct (Secure2.name_taken _ _ _) eqn:T; [now left|].
  right. eexists. split; [|split; [exact T | reflexivity]]. reflexivity.
Qed.

Lemma secure2_genre_PUT_cases (d : Secure2.db) (id : Z) (rq : request) :
  snd (Secure2Items.api_genre_item_PUT d id rq) = d
  \/ exists g g',
       Sql.get Secure2.Genre_ID id (Secure2.genres d) = Some g
       /\ Secure2.Genre_ID g' = Secure2.Genre_ID g
       /\ Secure2Items.rename_conflict Secure2.Genre_Name (Secure2.Genre_Name g)
            (Secure2.Genre_Name g') (Secure2.genres d) = false
       /\ Secure2Items.api_genre_item_PUT d id rq
          = ((JsonObject (Secure2.genre_to_dict g'), 200),
             Secure2.mkdb (Secure2.books d)
               (Sql.replace Secure2.Genre_ID g' (Secure2.genres d))
               (Secure2.authors d)).
Proof.
  unfold Secure2Items.api_genre_item_PUT.
  destruct (Sql.get Secure2.Genre_ID id (Secure2.genres d)) as [g|]; [|now left].
  destruct (is_json rq); cbn [negb]; [|now left].
  destruct (get_json rq) as [payload|items|v|];
    [|destruct (no_key_in _ _); now left|destruct (no_key_in _ _); now left
     |now left].
  destruct (Secure2Items.put_name _ _ _ _ _) as [name|r]; [|now left].
  destruct (Secure2Items.put_sliced _ _ _ _) as [desc|r]; [|now left].
  cbn zeta.
  destruct (Secure2Items.rename_conflict _ _ _ _) eqn:C; [now left|].
  right. exists g, (Secure2.mkGenre (Secure2.Genre_ID g) name desc).
  repeat split. exact C.
Qed.

Lemma secure2_author_PUT_cases (d : Secure2.db) (id : Z) (rq : request) :
  snd (Secure2Items.api_author_item_PUT d id rq) = d
  \/ exists a a',
       Sql.get Secure2.Author_ID id (Secure2.authors d) = Some a
       /\ Secure2.Author_ID a' = Secure2.Author_ID a
       /\ Secure2Items.rename_conflict Secure2.Author_Name (Secure2.Author_Name a)
            (Secure2.Author_Name a') (Secure2.authors d) = false
       /\ Secure2Items.api_author_item_PUT d id rq
          = ((JsonObject (Secure2.author_to_dict a'), 200),
             Secure2.mkdb (Secure2.books d) (Secure2.genres d)
               (Sql.replace Secure2.Author_ID a' (Secure2.authors d))).
Proof.
  unfold Secure2Items.api_author_item_PUT.
  destruct (Sql.get Secure2.Author_ID id (Secure2.authors d)) as [a|]; [|now left].
  destruct (is_json rq); cbn [negb]; [|now left].
  destruct (get_json rq) as [payload|items|v|];
    [|destruct (no_key_in _ _); now left|destruct (no_key_in _ _); now left
     |now left].
  destruct (Secure2Items.put_name _ _ _ _ _) as [name|r]; [|now left].
  destruct (Secure2Items.put_sliced _ _ _ _) as [bio|r]; [|now left].
  cbn zeta.
  destruct (Secure2Items.rename_conflict _ _ _ _) eqn:C; [now left|].
  right. exists a, (Secure2.mkAuthor (Secure2.Author_ID a) name bio).
  repeat split. exact C.
Qed.

Lemma secure2_genre_DELETE_cases (d : Secure2.db) (id : Z) :
  snd (Secure2.api_genre_item_DELETE d id)
  = Secure2.mkdb (Secure2.books d)
      (Sql.remove Secure2.Genre_ID id (Secure2.genres d)) (Secure2.authors d).
Proof.
  unfold Secure2.api_genre_item_DELETE.
  destruct (Sql.get Secure2.Genre_ID id (Secure2.genres d)) as [g|] eqn:G.
  - apply get_some in G as [_ E]. cbn [snd]. now rewrite E.
  - cbn [snd]. rewrite (remove_absent _ _ _ G). now destruct d.
Qed.

Lemma secure2_author_DELETE_cases (d : Secure2.db) (id : Z) :
  snd (Secure2.api_author_item_DELETE d id)
  = Secure2.mkdb (Secure2.books d) (Secure2.genres d)
      (Sql.remove Secure2.Author_ID id (Secure2.authors d)).
Proof.
  unfold Secure2.api_author_item_DELETE.
  destruct (Sql.get Secure2.Author_ID id (Secure2.authors d)) as [a|] eqn:G.
  - apply get_some in G as [_ E]. cbn [snd]. now rewrite E.
  - cbn [snd]. rewrite (remove_absent _ _ _ G). now destruct d.
Qed.

(** X5.  The genre and author tables of secure_code_2 keep their declared
    constraints under every write of the API.  When ids and names are
    unique in both tables, they still are after POST, PUT or DELETE on a
    genre or on an author, whatever the request and whatever its outcome: a
    create or a rename that would repeat a name is the one the handler
    answers with 409. *)
Theorem secure2_named_tables_stay_ok (d : Secure2.db) (id : Z) (rq : request) :
  StoreSpec.secure2_named_tables_ok d ->
  StoreSpec.secure2_named_tables_ok (snd (Secure2.api_genres_POST d rq))
  /\ StoreSpec.secure2_named_tables_ok (snd (Secure2Items.api_genre_item_PUT d id rq))
  /\ StoreSpec.secure2_named_tables_ok (snd (Secure2.api_genre_item_DELETE d id))
  /\ StoreSpec.secure2_named_tables_ok (snd (Secure2.api_authors_POST d rq))
  /\ StoreSpec.secure2_named_tables_ok (snd (Secure2Items.api_author_item_PUT d id rq))
  /\ StoreSpec.secure2_named_tables_ok (snd (Secure2.api_author_item_DELETE d id)).
Proof.
  intros (GK & GN & AK & AN).
  assert (OK : StoreSpec.secure2_named_tables_ok d) by (repeat split; assumption).
  split; [|split; [|split; [|split; [|split]]]].
  - destruct (secure2_genres_POST_cases d rq) as [->|(g & Hid & T & ->)]; [exact OK|].
    repeat split; cbn [Secure2.genres Secure2.authors]; try assumption.
    + now apply unique_keys_insert.
    + now apply unique_names_insert.
  - destruct (secure2_genre_PUT_cases d id rq) as [->|(g & g' & G & Hid & C & ->)];
      [exact OK|].
    repeat split; cbn [snd Secure2.genres Secure2.authors]; try assumption.
    + now apply unique_keys_replace.
    + apply get_some in G as [Hin _].
      apply (unique_names_replace Secure2.Genre_ID Secure2.Genre_Name _ g);
        try assumption.
      now apply rename_conflict_false in C.
  - rewrite secure2_genre_DELETE_cases.
    repeat split; cbn [Secure2.genres Secure2.authors]; try assumption.
    + now apply unique_keys_remove.
    + now apply NoDup_map_filter.
  - destruct (secure2_authors_POST_cases d rq) as [->|(a & Hid & T & ->)]; [exact OK|].
    repeat split; cbn [Secure2.genres Secure2.authors]; try assumption.
    + now apply unique_keys_insert.
    + now apply unique_names_insert.
  - destruct (secure2_author_PUT_cases d id rq) as [->|(a & a' & G & Hid & C & ->)];
      [exact OK|].
    repeat split; cbn [snd Secure2.genres Secure2.authors]; try assumption.
    + now apply unique_keys_replace.
    + apply get_some in G as [Hin _].
      apply (unique_names_replace Secure2.Author_ID Secure2.Author_Name _ a);
        try assumption.
      now apply rename_conflict_false in C.
  - rewrite secure2_author_DELETE_cases.
    repeat split; cbn [Secure2.genres Secure2.authors]; try assumption.
    + now apply unique_keys_remove.
    + now apply NoDup_map_filter.
Qed.

(** A closed list without repetition. *)
Ltac closed_nodup :=
  cbn; repeat constructor; cbn; intros H;
  repeat (destruct H as [H|H]; [discriminate H|]); exact H.

Lemma secure2_named_tables_stay_ok_witness :
  StoreSpec.secure2_named_tables_ok
    (snd (Secure2.api_genres_POST Samples.secure2_db
            (Samples.create_named "Genre_Name" "Fantasy")))
  /\ StoreSpec.secure2_named_tables_ok
       (snd (Secure2Items.api_genre_item_PUT Samples.secure2_db 2
               (Samples.create_named "Genre_Name" "Fantasy")))
  /\ StoreSpec.secure2_named_tables_ok
       (snd (Secure2.api_genre_item_DELETE Samples.secure2_db 2))
  /\ StoreSpec.secure2_named_tables_ok
       (snd (Secure2.api_authors_POST Samples.secure2_db
               (Samples.create_named "Genre_Name" "Fantasy")))
  /\ StoreSpec.secure2_named_tables_ok
       (snd (Secure2Items.api_author_item_PUT Samples.secure2_db 2
               (Samples.create_named "Genre_Name" "Fantasy")))
  /\ StoreSpec.secure2_named_tables_ok
       (snd (Secure2.api_author_item_DELETE Samples.secure2_db 2)).
Proof.
  apply (secure2_named_tables_stay_ok Samples.secure2_db 2
           (Samples.create_named "Genre_Name" "Fantasy")).
  unfold StoreSpec.secure2_named_tables_ok, StoreSpec.unique_keys,
    StoreSpec.unique_names.
  repeat split; closed_nodup.
Defined.



(** ** secure_code_2: the CSRF token of the HTML forms *)

Lemma compare_digest_same (t : string) :
  Secure2Html.is_ascii t = true -> Secure2Html.compare_digest t t = Some true.
Proof.
  intros A. unfold Secure2Html.compare_digest. now rewrite A, String.eqb_refl.
Qed.

Lemma compare_digest_other (a b : string) :
  a <> b -> Secure2Html.compare_digest a b <> Some true.
Proof.
  intros N. unfold Secure2Html.compare_digest.
  destruct (_ && _); [|discriminate].
  destruct (String.eqb_spec a b); [contradiction | discriminate].
Qed.

Lemma validate_csrf_other (s : Secure2Html.session) (rq : Secure2Html.http) :
  Secure2Html.or_str (Secure2Html.form_csrf rq) (Secure2Html.header_csrf rq)
  <> Secure2Html.csrf_token s ->
  Secure2Html.validate_csrf s rq <> Some true.
Proof.
  intros N. unfold Secure2Html.validate_csrf.
  destruct (negb (raw_truthy (Secure2Html.csrf_token s))); [discriminate|].
  destruct (negb (raw_truthy _)); [discriminate|].
  destruct (Secure2Html.csrf_token s) as [a|]; [|discriminate].
  destruct (Secure2Html.or_str _ _) as [b|]; [|discriminate].
  apply compare_digest_other. congruence.
Qed.

Section Protected.

Context {A W : Type}.
Variable f : Secure2Html.session -> W -> Secure2Html.reply A * Secure2Html.session * W.

Lemma csrf_protect_runs (rq : Secure2Html.http) (s : Secure2Html.session) (w : W)
    (t : string) :
  Secure2Html.csrf_token s = Some t ->
  Py.falsy t = false -> Secure2Html.is_ascii t = true ->
  Secure2Html.or_str (Secure2Html.form_csrf rq) (Secure2Html.header_csrf rq)
  = Some t ->
  Secure2Html.csrf_protect f rq s w = f s w.
Proof.
  intros Hs Ft At Hp. unfold Secure2Html.csrf_protect, Secure2Html.validate_csrf.
  destruct (Secure2Html.writes rq); [|reflexivity].
  rewrite Hs, Hp. cbn [raw_truthy]. rewrite Ft. cbn [negb].
  now rewrite compare_digest_same.
Qed.

Lemma csrf_protect_refuses (rq : Secure2Html.http) (s : Secure2Html.session) (w : W) :
  Secure2Html.writes rq = true ->
  Secure2Html.or_str (Secure2Html.form_csrf rq) (Secure2Html.header_csrf rq)
  <> Secure2Html.csrf_token s ->
  snd (Secure2Html.csrf_protect f rq s w) = w
  /\ forall a, fst (fst (Secure2Html.csrf_protect f rq s w))
               <> Secure2Html.Rendered a.
Proof.
  intros Wr N. unfold Secure2Html.csrf_protect. rewrite Wr.
  pose proof (validate_csrf_other s rq N) as V.
  destruct (Secure2Html.validate_csrf s rq) as [[|]|]; [congruence | |].
  - unfold Secure2Html.render_error.
    destruct (_ || _); cbn [fst snd]; split; [reflexivity | discriminate
                                              | reflexivity | discriminate].
  - cbn [fst snd]. split; [reflexivity | discriminate].
Qed.

End Protected.



(** X8.  Every page of secure_code_2 asked of [render_template_base]
    replaces the token of the session, whether the template renders or
    raises.  So of two pages asked for one after the other with different
    tokens, a POST, PUT or DELETE that carries the token of the second runs
    the view, and one that carries the token of the first is refused and
    changes nothing. *)
Theorem csrf_token_of_last_page_only {A W : Type}
    (f : Secure2Html.session -> W -> Secure2Html.reply A * Secure2Html.session * W)
    (rq : Secure2Html.http) (s : Secure2Html.session) (w : W)
    (page1 page2 : option string) (t1 t2 presented : string) :
  Secure2Html.writes rq = true ->
  t1 <> t2 ->
  Py.falsy presented = false ->
  Secure2Html.is_ascii t2 = true ->
  Secure2Html.form_csrf rq = Some presented ->
  let s1 := snd (Secure2Html.render_template_base page1 t1 s) in
  let s2 := snd (Secure2Html.render_template_base page2 t2 s1) in
  (presented = t2 -> Secure2Html.csrf_protect f rq s2 w = f s2 w)
  /\ (presented = t1 ->
      snd (Secure2Html.csrf_protect f rq s2 w) = w
      /\ forall a, fst (fst (Secure2Html.csrf_protect f rq s2 w))
                   <> Secure2Html.Rendered a).
Proof.
  intros Wr N F At Hform s1 s2.
  assert (P : Secure2Html.or_str (Secure2Html.form_csrf rq) (Secure2Html.header_csrf rq)
              = Some presented).
  { unfold Secure2Html.or_str. rewrite Hform. cbn [raw_truthy]. now rewrite F. }
  split.
  - intros ->. apply (csrf_protect_runs f rq s2 w t2); try assumption. reflexivity.
  - intros ->. apply csrf_protect_refuses; [exact Wr|].
    rewrite P. cbn. congruence.
Qed.

Lemma csrf_token_of_last_page_only_witness :
  let rq := Secure2Html.mkhttp "POST" "/books/1/delete" None (Some "tok-1") None in
  let s2 :=
    snd (Secure2Html.render_template_base None "tok-2"
           (snd (Secure2Html.render_template_base (Some "<html>") "tok-1"
                   (Secure2Html.mksession None [])))) in
  snd (Secure2Html.csrf_protect (Secure2Html.book_delete 1) rq s2 Samples.secure2_db)
  = Samples.secure2_db.
Proof.
  intros rq s2.
  apply (proj2 (csrf_token_of_last_page_only (Secure2Html.book_delete 1) rq
                  (Secure2Html.mksession None []) Samples.secure2_db
                  (Some "<html>") None
                  "tok-1" "tok-2" "tok-1" eq_refl ltac:(discriminate) eq_refl eq_refl
                  eq_refl) eq_refl).
Defined.

(** ** secure_code_2: the books page *)

Lemma order_by_length {row : Type} (key : row -> Z) (rows : list row) :
  length (Sql.order_by key rows) = length rows.
Proof. apply Permutation_length, order_by_perm. Qed.

Lemma page_arg_positive args : 1 <= Secure2Html.page_arg args.
Proof. unfold Secure2Html.page_arg. destruct (arg_int args "page" 1); lia. Qed.

Lemma length_nil_iff {A : Type} (l : list A) : l = [] <-> length l = 0%nat.
Proof. destruct l; cbn; split; congruence. Qed.

(** X9.  The books page of secure_code_2 clamps the page number to the
    pages there are.  Whatever the query string, the page shown lies between
    1 and the number of pages, at most PER_PAGE = 10 books and 20 page links
    are shown, every book shown matches the date filter, and the page is
    empty only when no stored book matches the filter: a page number past
    the end shows the last page.  The query of the page runs on every store
    SQLite can hold: its offset is below the number of matching books, and
    could only fail to be bound past 2^63 of them. *)
Theorem secure2_books_page_in_range (d : Secure2.db) (args : gmap string string) :
  let matching :=
    List.filter
      (Secure2.date_filter (Secure2.parse_raw (args !! "after_date"))
                           (Secure2.parse_raw (args !! "before_date")))
      (Secure2.books d) in
  match Secure2Html.books d args with
  | Some c =>
      1 <= Secure2Html.ctx_page c <= Secure2Html.ctx_total_pages c
      /\ (length (Secure2Html.ctx_books c) <= 10)%nat
      /\ (length (Secure2Html.ctx_pages c) <= 20)%nat
      /\ incl (Secure2Html.ctx_books c) matching
      /\ (Secure2Html.ctx_books c = [] <-> matching = [])
  | None => 2 ^ 63 < Z.of_nat (length matching)
  end.
Proof.
  intros matching. unfold Secure2Html.books.
  fold matching.
  pose proof (page_arg_positive args) as P.
  set (p0 := Secure2Html.page_arg args) in *.
  set (n := length matching).
  unfold Secure2Html.ceil_div, Secure2Html.PER_PAGE.
  set (tp := Z.max 1 ((Z.of_nat n + 10 - 1) / 10)).
  set (p := if tp <? p0 then tp else p0).
  assert (Hp : 1 <= p <= tp).
  { subst p. destruct (Z.ltb_spec tp p0); subst tp; lia. }
  assert (Hoff : n <> 0%nat -> (Z.to_nat ((p - 1) * 10) < n)%nat).
  { intros Hn.
    assert (tp = (Z.of_nat n + 10 - 1) / 10).
    { subst tp. apply Z.max_r.
      apply Z.div_le_lower_bound; lia. }
    pose proof (Z.mul_div_le (Z.of_nat n + 10 - 1) 10 ltac:(lia)). lia. }
  rewrite limit_offset_run.
  change (Sql.is_int64 10) with true. rewrite andb_true_r.
  change (10 <? 0) with false. cbv iota.
  destruct (Sql.is_int64 ((p - 1) * 10)) eqn:B.
  - cbn [Secure2Html.ctx_page Secure2Html.ctx_total_pages
           Secure2Html.ctx_books Secure2Html.ctx_pages].
    change (Z.to_nat 10) with 10%nat.
    split; [exact Hp|]. split; [apply firstn_le_length|].
    split; [apply firstn_le_length|]. split.
    + intros b Hb. apply in_firstn_in, in_skipn_in in Hb.
      apply (Permutation_in _ (order_by_perm Secure2.Book_ID matching)) in Hb.
      exact Hb.
    + rewrite !length_nil_iff, length_firstn, length_skipn, order_by_length.
      fold n. destruct (Nat.eq_dec n 0%nat) as [E|E]; [lia|].
      specialize (Hoff E). lia.
  - fold n. destruct (Nat.eq_dec n 0%nat) as [E|E].
    + exfalso.
      assert (Htp : tp = 1) by (subst tp; rewrite E; reflexivity).
      assert (H1 : p = 1) by lia.
      rewrite H1 in B. discriminate B.
    + specialize (Hoff E).
      assert (0 <= (p - 1) * 10) by lia.
      destruct (is_int64_nonneg ((p - 1) * 10) H) as [_ I].
      destruct (Z.lt_ge_cases ((p - 1) * 10) (2 ^ 63)) as [L|G];
        [rewrite (I L) in B; discriminate B | lia].
Qed.

(** ** The simulation: the nonce store and signed messages *)

Lemma oldest_from_min (best : string * Z) (d : Micro.nonces) :
  exists t,
    In (Micro.oldest_from best d, t) (best :: d)
    /\ t <= snd best
    /\ forall kv, In kv d -> t <= snd kv.
Proof.
  revert best. induction d as [|kv d IH]; intros best; cbn [Micro.oldest_from].
  - exists (snd best). split; [left; now destruct best|].
    split; [lia | intros kv []].
  - destruct (Z.ltb_spec (snd kv) (snd best)) as [Lt|Ge].
    + destruct (IH kv) as (t & Hin & Hle & Hall).
      exists t. split; [now right|]. split; [lia|].
      intros x [<-|Hx]; [exact Hle | now apply Hall].
    + destruct (IH best) as (t & Hin & Hle & Hall).
      exists t. split; [destruct Hin as [Hin|Hin]; [now left | now right; right]|].
      split; [exact Hle|].
      intros x [<-|Hx]; [lia | now apply Hall].
Qed.

Lemma oldest_min (d : Micro.nonces) (n : string) :
  Micro.oldest d = Some n ->
  exists t, In (n, t) d /\ forall kv, In kv d -> t <= snd kv.
Proof.
  destruct d as [|best d]; [discriminate|].
  cbn [Micro.oldest]. intros [= <-].
  destruct (oldest_from_min best d) as (t & Hin & Hle & Hall).
  exists t. split; [exact Hin|].
  intros x [<-|Hx]; [exact Hle | now apply Hall].
Qed.

Lemma length_drop_in (n : string) (t : Z) (d : Micro.nonces) :
  In (n, t) d -> (length (Micro.drop n d) < length d)%nat.
Proof.
  unfold Micro.drop. induction d as [|kv d IH]; [intros []|].
  intros Hin. cbn [List.filter length].
  destruct (String.eqb_spec (fst kv) n) as [E|N]; cbn [negb].
  - pose proof (filter_length_le (fun kv => negb (String.eqb (fst kv) n)) d). lia.
  - destruct Hin as [->|Hin]; [now contradiction N|].
    cbn [length]. specialize (IH Hin). lia.
Qed.

Lemma seen_drop_other (n n' : string) (d : Micro.nonces) :
  n' <> n -> Micro.seen n' (Micro.drop n d) = Micro.seen n' d.
Proof.
  intros N. unfold Micro.seen, Micro.drop.
  induction d as [|kv d IH]; [reflexivity|].
  cbn [List.filter existsb].
  destruct (String.eqb_spec (fst kv) n) as [E|_]; cbn [negb existsb].
  - destruct (String.eqb_spec (fst kv) n') as [E'|_]; [congruence | exact IH].
  - now rewrite IH.
Qed.

Section NonceStore.

Context {L : Micro.Library}.

(** The store after a call: as it was, or with the nonce of the message
    recorded and then, past 1000 entries, without its oldest nonce. *)
Lemma verify_incoming_cases (self : Micro.Service) now msg key :
  (fst (fst (Micro.verify_incoming self now msg key)) = false
   /\ snd (Micro.verify_incoming self now msg key) = self)
  \/ (fst (Micro.verify_incoming self now msg key) = (true, "ok")
      /\ Micro.seen (Micro.nonce msg) (Micro.seen_nonces self) = false
      /\ let d := Micro.store (Micro.nonce msg) (Micro.ts msg) (Micro.seen_nonces self) in
         Micro.seen_nonces (snd (Micro.verify_incoming self now msg key))
         = if (1000 <? length d)%nat
           then match Micro.oldest d with Some n => Micro.drop n d | None => d end
           else d).
Proof.
  unfold Micro.verify_incoming.
  destruct (negb (Micro.verify_signature msg key)); [now left|].
  destruct (Micro.allowed_skew <? Z.abs (now - Micro.ts msg)); [now left|].
  destruct (Micro.seen (Micro.nonce msg) (Micro.seen_nonces self)); [now left|].
  right. repeat split.
Qed.

Lemma verify_incoming_cap (self : Micro.Service) now msg key :
  (length (Micro.seen_nonces self) <= 1000)%nat ->
  (length (Micro.seen_nonces (snd (Micro.verify_incoming self now msg key)))
   <= 1000)%nat.
Proof.
  intros Hcap.
  destruct (verify_incoming_cases self now msg key) as [[_ ->]|(_ & _ & E)];
    [exact Hcap|].
  cbn zeta in E. rewrite E. clear E.
  pose proof (length_store (Micro.nonce msg) (Micro.ts msg) (Micro.seen_nonces self))
    as Hlen.
  set (d := Micro.store _ _ _) in *.
  destruct (Nat.ltb_spec 1000 (length d)) as [Hbig|Hok]; [|exact Hok].
  destruct (Micro.oldest d) as [n|] eqn:O.
  - apply oldest_min in O as (t & Hin & _).
    pose proof (length_drop_in n t d Hin). lia.
  - destruct d; [cbn in Hbig; lia | discriminate O].
Qed.

(** X10.  The nonce store of a service never outgrows its cap: when it
    holds at most 1000 nonces, it holds at most 1000 after any sequence of
    calls of [verify_incoming], whatever the messages, keys and clock
    readings. *)
Theorem nonce_store_stays_within_cap (self : Micro.Service)
    (calls : list Micro.call) :
  (length (Micro.seen_nonces self) <= 1000)%nat ->
  (length (Micro.seen_nonces (Micro.after_calls self calls)) <= 1000)%nat.
Proof.
  revert self. induction calls as [|c calls IH]; intros self Hcap; [exact Hcap|].
  unfold Micro.after_calls. cbn [fold_left].
  apply IH. now apply verify_incoming_cap.
Qed.

(** X11.  What [verify_incoming] forgets is an oldest nonce.  When a call
    accepts a message, a nonce that was in the store with the new one
    recorded and is no longer seen after the call had the smallest timestamp
    of that store: no nonce is dropped while one with an earlier timestamp
    is kept. *)
Theorem eviction_drops_an_oldest_nonce (self : Micro.Service) (now : Z)
    (msg : Micro.Message) (key : bytes) (n : string) :
  fst (fst (Micro.verify_incoming self now msg key)) = true ->
  Micro.seen n
    (Micro.store (Micro.nonce msg) (Micro.ts msg) (Micro.seen_nonces self)) = true ->
  Micro.seen n (Micro.seen_nonces (snd (Micro.verify_incoming self now msg key)))
  = false ->
  exists t,
    In (n, t) (Micro.store (Micro.nonce msg) (Micro.ts msg) (Micro.seen_nonces self))
    /\ forall kv,
        In kv (Micro.store (Micro.nonce msg) (Micro.ts msg) (Micro.seen_nonces self)) ->
        t <= snd kv.
Proof.
  intros Hacc Hin Hout.
  destruct (verify_incoming_cases self now msg key) as [[R _]|(_ & _ & E)];
    [congruence|].
  cbn zeta in E. rewrite E in Hout. clear E.
  set (d := Micro.store _ _ _) in *.
  destruct (1000 <? length d)%nat; [|congruence].
  destruct (Micro.oldest d) as [n'|] eqn:O; [|congruence].
  destruct (String.eqb_spec n n') as [->|N].
  - now apply oldest_min.
  - rewrite seen_drop_other in Hout by exact N. congruence.
Qed.

End NonceStore.

Section SignedMessages.

Context {L : Micro.Library}.

Hypothesis digest_size :
  forall key message, length (Micro.hmac_sha256 key message) = 32%nat.

(** X12.  [sign_message] signs exactly the messages whose sender is the
    service: for any other sender it raises [ValueError] and signs nothing.
    A message it signs is the message with its signature set, and passes
    the signature check of every receiver that verifies it with the key of
    that service, so the verdict of [verify_incoming] depends on the clock
    and the nonce alone: stale when the timestamp is more than 60 seconds
    from the receiver's clock, a replay when the nonce is in the receiver's
    store, accepted otherwise. *)
Theorem signed_message_verdict (sender receiver : Micro.Service)
    (msg : Micro.Message) (now : Z) :
  (Micro.sender msg <> Micro.name sender ->
   MicroService.sign_message sender msg = None)
  /\ (Micro.sender msg = Micro.name sender ->
      exists signed,
        MicroService.sign_message sender msg = Some signed
        /\ signed = Micro.sign_with msg (Micro.hmac_key sender)
        /\ Micro.nonce signed = Micro.nonce msg
        /\ Micro.ts signed = Micro.ts msg
        /\ fst (Micro.verify_incoming receiver now signed (Micro.hmac_key sender))
           = if 60 <? Z.abs (now - Micro.ts msg)
             then (false,
                   "stale or future timestamp (ts=" +:+ Py.str_of_int (Micro.ts msg)
                   +:+ ")")
             else if Micro.seen (Micro.nonce msg) (Micro.seen_nonces receiver)
             then (false, "replay detected (nonce already seen)")
             else (true, "ok")).
Proof.
  unfold MicroService.sign_message. split.
  - intros N. destruct (String.eqb_spec (Micro.sender msg) (Micro.name sender));
      [contradiction | reflexivity].
  - intros S. rewrite S, String.eqb_refl. cbn [negb].
    eexists. split; [reflexivity|]. split; [reflexivity|].
    split; [reflexivity|]. split; [reflexivity|].
    unfold Micro.verify_incoming.
    rewrite (verify_signature_sign_with digest_size). cbn [negb].
    change (Micro.ts (Micro.sign_with msg _)) with (Micro.ts msg).
    change (Micro.nonce (Micro.sign_with msg _)) with (Micro.nonce msg).
    change Micro.allowed_skew with 60.
    destruct (60 <? Z.abs (now - Micro.ts msg)); [reflexivity|].
    destruct (Micro.seen _ _); reflexivity.
Qed.

End SignedMessages.

Lemma nonce_store_stays_within_cap_witness :
  (length
     (Micro.seen_nonces
        (Micro.after_calls
           (Micro.mkService "Storage_MS" (list_ascii_of_string "k2") [])
           [Micro.mkcall 100 (@Samples.early_message Samples.toy_library "{}")
              Samples.sender_key;
            Micro.mkcall 100 (@Samples.early_message Samples.toy_library "{}")
              Samples.sender_key]))
   <= 1000)%nat.
Proof.
  apply (@nonce_store_stays_within_cap Samples.toy_library). cbn. lia.
Defined.

Lemma eviction_drops_an_oldest_nonce_witness :
  exists t,
    In ("fresh", t)
      (Micro.store
         (Micro.nonce (@Samples.early_message Samples.toy_library "{}"))
         (Micro.ts (@Samples.early_message Samples.toy_library "{}"))
         (Micro.seen_nonces Samples.busy_service))
    /\ forall kv,
        In kv
          (Micro.store
             (Micro.nonce (@Samples.early_message Samples.toy_library "{}"))
             (Micro.ts (@Samples.early_message Samples.toy_library "{}"))
             (Micro.seen_nonces Samples.busy_service)) ->
        t <= snd kv.
Proof.
  apply (@eviction_drops_an_oldest_nonce Samples.toy_library Samples.busy_service 100
           (@Samples.early_message Samples.toy_library "{}") Samples.sender_key
           "fresh");
    vm_compute; reflexivity.
Defined.

Lemma signed_message_verdict_witness :
  @MicroService.sign_message Samples.toy_library
    (Micro.mkService "Storage_MS" (list_ascii_of_string "k2") [])
    (@Micro.mkMessage Samples.toy_library "Controller_MS" "Storage_MS" "{}" 50
       "fresh" None)
  = None
  /\ exists signed,
      @MicroService.sign_message Samples.toy_library
        (Micro.mkService "Controller_MS" Samples.sender_key [])
        (@Micro.mkMessage Samples.toy_library "Controller_MS" "Storage_MS" "{}" 50
           "fresh" None)
      = Some signed
      /\ fst (Micro.verify_incoming
                (Micro.mkService "Storage_MS" (list_ascii_of_string "k2") [])
                100 signed Samples.sender_key)
         = (true, "ok").
Proof.
  split.
  - apply (proj1 (@signed_message_verdict Samples.toy_library toy_digest_size
                    (Micro.mkService "Storage_MS" (list_ascii_of_string "k2") [])
                    (Micro.mkService "Storage_MS" (list_ascii_of_string "k2") [])
                    (@Micro.mkMessage Samples.toy_library "Controller_MS"
                       "Storage_MS" "{}" 50 "fresh" None) 100)).
    discriminate.
  - destruct (proj2 (@signed_message_verdict Samples.toy_library toy_digest_size
                (Micro.mkService "Controller_MS" Samples.sender_key [])
                (Micro.mkService "Storage_MS" (list_ascii_of_string "k2") [])
                (@Micro.mkMessage Samples.toy_library "Controller_MS" "Storage_MS"
                   "{}" 50 "fresh" None) 100) eq_refl)
      as (signed & E & _ & _ & _ & V).
    exists signed. split; [exact E | exact V].
Defined.

(** ** The original: references from books to authors and genres *)

Lemma get_is_some_app {row : Type} (key : row -> Z) id rows rows' :
  is_some (Sql.get key id rows) = true ->
  is_some (Sql.get key id (rows ++ rows')) = true.
Proof. rewrite get_app. now destruct (Sql.get key id rows). Qed.

Lemma original_refers_same (d d' : Original.db) (b : Original.Book.t) :
  Original.genres d' = Original.genres d ->
  Original.authors d' = Original.authors d ->
  StoreSpec.original_book_refers d b -> StoreSpec.original_book_refers d' b.
Proof. unfold StoreSpec.original_book_refers. now intros -> ->. Qed.

Lemma original_refers_more (d d' : Original.db) (b : Original.Book.t) gs au :
  Original.genres d' = Original.genres d ++ gs ->
  Original.authors d' = Original.authors d ++ au ->
  StoreSpec.original_book_refers d b -> StoreSpec.original_book_refers d' b.
Proof.
  unfold StoreSpec.original_book_refers. intros -> -> [A G].
  split; now apply get_is_some_app.
Qed.

Lemma original_post_book_cases (d : Original.db) (data : Original.book_update) :
  snd (OriginalApi.api_books_POST d data) = d
  \/ exists b,
       StoreSpec.original_book_refers d b
       /\ Original.Book.id b = Sql.next_id Original.Book.id (Original.books d)
       /\ OriginalApi.api_books_POST d data
          = ((JsonObject
                (Original.book_to_dict
                   (Original.mkdb (Original.books d ++ [b]) (Original.genres d)
                      (Original.authors d)) b), 201),
             Original.mkdb (Original.books d ++ [b]) (Original.genres d)
               (Original.authors d)).
Proof.
  unfold OriginalApi.api_books_POST.
  set (c1 := Py.falsy _).
  set (c2 := match Original.u_author_id data with Some _ => _ | None => true end).
  set (c3 := match Original.u_genre_id data with Some _ => _ | None => true end).
  set (dt := Original.first_date _ _).
  destruct c1; [left; cbn [Original.append_if app];
                destruct c2, c3, (negb (is_some dt)); reflexivity|].
  destruct c2 eqn:C2; [left; cbn [Original.append_if app];
                       destruct c3, (negb (is_some dt)); reflexivity|].
  destruct c3 eqn:C3; [left; cbn [Original.append_if app];
                       destruct (negb (is_some dt)); reflexivity|].
  cbn [Original.append_if app].
  destruct dt as [day|]; cbn [is_some negb Original.append_if app]; [|now left].
  subst c2 c3.
  destruct (Original.u_author_id data) as [a|]; [|discriminate C2].
  destruct (Original.u_genre_id data) as [g|]; [|discriminate C3].
  right. eexists. split; [|split; [|reflexivity]]; [|reflexivity].
  apply orb_false_iff in C2 as [_ Ca], C3 as [_ Cg].
  apply negb_false_iff in Ca, Cg. now split.
Qed.

Lemma original_put_book_cases (d : Original.db) (id : Z) (u : Original.book_update) :
  snd (Original.api_book_PUT d id u) = d
  \/ exists b b',
       Sql.get Original.Book.id id (Original.books d) = Some b
       /\ Original.Book.id b' = Original.Book.id b
       /\ (StoreSpec.original_book_refers d b -> StoreSpec.original_book_refers d b')
       /\ snd (Original.api_book_PUT d id u)
          = Original.mkdb (Sql.replace Original.Book.id b' (Original.books d))
              (Original.genres d) (Original.authors d).
Proof.
  unfold Original.api_book_PUT.
  destruct (Sql.get Original.Book.id id (Original.books d)) as [b|]; [|now left].
  set (c1 := match Original.u_title u with Some _ => _ | None => false end).
  set (c2 := match Original.u_author_id u with Some _ => _ | None => false end).
  set (c3 := match Original.u_genre_id u with Some _ => _ | None => false end).
  set (c4 := is_some _ && negb _).
  destruct c1; [left; cbn [Original.append_if app]; destruct c2, c3, c4; reflexivity|].
  destruct c2 eqn:C2; [left; cbn [Original.append_if app]; destruct c3, c4; reflexivity|].
  destruct c3 eqn:C3; [left; cbn [Original.append_if app]; destruct c4; reflexivity|].
  destruct c4; [now left|].
  cbn [Original.append_if app snd]. subst c2 c3.
  right. exists b. eexists. split; [reflexivity|]. split; [|split; [|reflexivity]].
  - reflexivity.
  - unfold StoreSpec.original_book_refers.
    cbn [Original.Book.author_id Original.Book.genre_id]. intros [A G]. split.
    + destruct (Original.u_author_id u) as [a|]; [|exact A].
      cbn [Original.or_else]. now apply negb_false_iff in C2.
    + destruct (Original.u_genre_id u) as [g|]; [|exact G].
      cbn [Original.or_else]. now apply negb_false_iff in C3.
Qed.

Lemma original_delete_book_cases (d : Original.db) (id : Z) :
  snd (Original.api_book_DELETE d id)
  = Original.mkdb (Sql.remove Original.Book.id id (Original.books d))
      (Original.genres d) (Original.authors d).
Proof.
  unfold Original.api_book_DELETE.
  destruct (Sql.get Original.Book.id id (Original.books d)) as [b|] eqn:G.
  - apply get_some in G as [_ E]. cbn [snd]. now rewrite E.
  - cbn [snd]. rewrite (remove_absent _ _ _ G). now destruct d.
Qed.

Lemma original_genres_POST_cases (d : Original.db) (data : Original.named_create) :
  snd (Original.api_genres_POST d data) = d
  \/ exists g,
       snd (Original.api_genres_POST d data)
       = Original.mkdb (Original.books d) (Original.genres d ++ [g])
           (Original.authors d).
Proof.
  unfold Original.api_genres_POST.
  destruct (Py.falsy _); [now left|].
  destruct (is_some _); [now left|].
  right. eexists. reflexivity.
Qed.

Lemma original_authors_POST_cases (d : Original.db) (data : Original.named_create) :
  snd (Original.api_authors_POST d data) = d
  \/ exists a,
       snd (Original.api_authors_POST d data)
       = Original.mkdb (Original.books d) (Original.genres d)
           (Original.authors d ++ [a]).
Proof.
  unfold Original.api_authors_POST.
  destruct (Py.falsy _); [now left|].
  destruct (is_some _); [now left|].
  right. eexists. reflexivity.
Qed.

Lemma Forall_impl_in {A : Type} (P Q : A -> Prop) (l : list A) :
  (forall x, In x l -> P x -> Q x) -> Forall P l -> Forall Q l.
Proof.
  intros H F. apply List.Forall_forall. intros x Hx.
  apply (H x Hx). now apply (proj1 (List.Forall_forall P l) F).
Qed.

(** X13.  The API of the original never creates a dangling reference.
    When every stored book names a stored author and a stored genre, this
    still holds after POST, PUT or DELETE on a book and after the creation
    of a genre or of an author, whatever the body of the request. *)
Theorem original_references_stay_ok (d : Original.db) (id : Z)
    (u : Original.book_update) (n : Original.named_create) :
  StoreSpec.original_references_ok d ->
  StoreSpec.original_references_ok (snd (OriginalApi.api_books_POST d u))
  /\ StoreSpec.original_references_ok (snd (Original.api_book_PUT d id u))
  /\ StoreSpec.original_references_ok (snd (Original.api_book_DELETE d id))
  /\ StoreSpec.original_references_ok (snd (Original.api_genres_POST d n))
  /\ StoreSpec.original_references_ok (snd (Original.api_authors_POST d n)).
Proof.
  unfold StoreSpec.original_references_ok. intros OK.
  split; [|split; [|split; [|split]]].
  - destruct (original_post_book_cases d u) as [->|(b & R & _ & ->)]; [exact OK|].
    cbn [snd Original.books]. apply List.Forall_app. split.
    + revert OK. apply Forall_impl_in. intros x _.
      now apply original_refers_same.
    + constructor; [|constructor]. revert R. now apply original_refers_same.
  - destruct (original_put_book_cases d id u) as [->|(b & b' & G & _ & R & ->)];
      [exact OK|].
    cbn [Original.books]. apply Forall_replace.
    + apply (original_refers_same d); [reflexivity | reflexivity|].
      apply R. apply get_some in G as [Hin _].
      now apply (proj1 (List.Forall_forall _ _) OK).
    + revert OK. apply Forall_impl_in. intros x _. now apply original_refers_same.
  - rewrite original_delete_book_cases. cbn [Original.books].
    apply List.Forall_forall. intros x Hx. apply filter_In in Hx as [Hx _].
    apply (original_refers_same d); [reflexivity | reflexivity|].
    now apply (proj1 (List.Forall_forall _ _) OK).
  - destruct (original_genres_POST_cases d n) as [->|(g & ->)]; [exact OK|].
    cbn [Original.books]. revert OK. apply Forall_impl_in. intros x _.
    apply (original_refers_more d _ x [g] []); [reflexivity|].
    cbn [Original.authors]. now rewrite app_nil_r.
  - destruct (original_authors_POST_cases d n) as [->|(a & ->)]; [exact OK|].
    cbn [Original.books]. revert OK. apply Forall_impl_in. intros x _.
    apply (original_refers_more d _ x [] [a]); [|reflexivity].
    cbn [Original.genres]. now rewrite app_nil_r.
Qed.

Lemma original_references_stay_ok_witness :
  StoreSpec.original_references_ok
    (snd (OriginalApi.api_books_POST Samples.original_db
            (Original.mk_book_update (Some "Dune") (Some 2) (Some 2)
               (Some "1965-08-01") None)))
  /\ StoreSpec.original_references_ok
       (snd (Original.api_book_DELETE Samples.original_db 1)).
Proof.
  destruct (original_references_stay_ok Samples.original_db 1
              (Original.mk_book_update (Some "Dune") (Some 2) (Some 2)
                 (Some "1965-08-01") None)
              (Original.mk_named_create None None))
    as (A & _ & B & _).
  - repeat constructor.
  - split; [exact A | exact B].
Defined.

(** X14.  Deleting an author or a genre of the original leaves its books in
    place with a reference to nothing: when a stored book names the deleted
    row, the DELETE is answered 204 and a GET of the book afterwards is
    answered 200 with null in place of the author, or of the genre. *)
Theorem original_delete_leaves_books_dangling (d : Original.db) (id : Z)
    (b : Original.Book.t) :
  Sql.get Original.Book.id id (Original.books d) = Some b ->
  (is_some (Sql.get Original.Author.id (Original.Book.author_id b)
              (Original.authors d)) = true ->
   exists d' o,
     OriginalApi.api_author_DELETE d (Original.Book.author_id b)
     = ((EmptyBody, 204), d')
     /\ Original.api_book_GET d' id = (JsonObject o, 200)
     /\ obj_get "author" o = Some VNull)
  /\ (is_some (Sql.get Original.Genre.id (Original.Book.genre_id b)
                 (Original.genres d)) = true ->
      exists d' o,
        OriginalApi.api_genre_DELETE d (Original.Book.genre_id b)
        = ((EmptyBody, 204), d')
        /\ Original.api_book_GET d' id = (JsonObject o, 200)
        /\ obj_get "genre" o = Some VNull).
Proof.
  intros G. split.
  - intros S. unfold OriginalApi.api_author_DELETE.
    destruct (Sql.get Original.Author.id _ _) as [a|] eqn:Ga; [|discriminate S].
    apply get_some in Ga as [_ ->].
    eexists _, _. split; [reflexivity|].
    unfold Original.api_book_GET. cbn [Original.books]. rewrite G.
    split; [reflexivity|].
    cbn [Original.book_to_dict Original.authors obj_get String.eqb Ascii.eqb
         Bool.eqb].
    now rewrite get_remove.
  - intros S. unfold OriginalApi.api_genre_DELETE.
    destruct (Sql.get Original.Genre.id _ _) as [g|] eqn:Gg; [|discriminate S].
    apply get_some in Gg as [_ ->].
    eexists _, _. split; [reflexivity|].
    unfold Original.api_book_GET. cbn [Original.books]. rewrite G.
    split; [reflexivity|].
    cbn [Original.book_to_dict Original.genres obj_get String.eqb Ascii.eqb
         Bool.eqb].
    now rewrite get_remove.
Qed.

Lemma original_delete_leaves_books_dangling_witness :
  exists d' o,
    OriginalApi.api_author_DELETE Samples.original_db 1 = ((EmptyBody, 204), d')
    /\ Original.api_book_GET d' 1 = (JsonObject o, 200)
    /\ obj_get "author" o = Some VNull.
Proof.
  apply (proj1 (original_delete_leaves_books_dangling Samples.original_db 1
                  (Original.Book.mk 1 "The Hobbit" 1 1 (mkdate 1937 9 21)
                     (Some "Bilbo's adventure")) eq_refl)).
  reflexivity.
Defined.

(** ** Dates in the ISO form parse back *)

Lemma years_table : forallb IsoTables.year_ok IsoTables.years = true.
Proof. vm_compute. reflexivity. Qed.

Lemma small_table : forallb IsoTables.two_ok IsoTables.small = true.
Proof. vm_compute. reflexivity. Qed.

Lemma tail_table : Tables.for_digits4 IsoTables.tail_ok = true.
Proof. vm_compute. reflexivity. Qed.

Lemma in_Z_range (lo len n : Z) :
  lo <= n < lo + len -> In n (IsoTables.Z_range lo len).
Proof.
  intros H. apply in_map_iff. exists (Z.to_nat (n - lo)). split; [lia|].
  apply in_seq. lia.
Qed.

Lemma str_of_year (y : Z) :
  1000 <= y <= 9999 ->
  exists c1 c2 c3 c4,
    Py.str_of_int y = Tables.str4 c1 c2 c3 c4 EmptyString
    /\ Py.is_digit c1 = true /\ Py.is_digit c2 = true
    /\ Py.is_digit c3 = true /\ Py.is_digit c4 = true
    /\ DateSpec.number (Tables.str4 c1 c2 c3 c4 EmptyString) = y.
Proof.
  intros H.
  pose proof (proj1 (forallb_forall _ _) years_table y
                (in_Z_range 1000 9000 y ltac:(lia))) as T.
  unfold IsoTables.year_ok in T.
  destruct (Py.str_of_int y) as [|c1 [|c2 [|c3 [|c4 [|? ?]]]]]; try discriminate T.
  apply andb_prop in T as [[[[D1 D2]%andb_prop D3]%andb_prop D4]%andb_prop N].
  exists c1, c2, c3, c4. repeat split; try assumption. now apply Z.eqb_eq.
Qed.

Lemma zero_pad_small (n : Z) :
  1 <= n <= 31 ->
  exists a b,
    Py.zero_pad 2 n = Tables.two a b
    /\ Py.is_digit a = true /\ Py.is_digit b = true
    /\ DateSpec.number (Tables.two a b) = n.
Proof.
  intros H.
  pose proof (proj1 (forallb_forall _ _) small_table n
                (in_Z_range 1 31 n ltac:(lia))) as T.
  unfold IsoTables.two_ok in T.
  destruct (Py.zero_pad 2 n) as [|a [|b [|? ?]]]; try discriminate T.
  apply andb_prop in T as [[D1 D2]%andb_prop N].
  exists a, b. repeat split; try assumption. now apply Z.eqb_eq.
Qed.

Lemma make_some (y m dd : Z) (d : date) :
  Date.make y m dd = Some d ->
  d = mkdate y m dd /\ 1 <= y <= 9999 /\ 1 <= m <= 12 /\ 1 <= dd <= 31.
Proof.
  unfold Date.make, Date.MINYEAR, Date.MAXYEAR, Date.days_in_month.
  destruct (_ && _) eqn:C; [|discriminate]. intros [= <-].
  apply andb_prop in C as [[[[[C1 C2]%andb_prop C3]%andb_prop C4]%andb_prop C5]%andb_prop
                             C6].
  split; [reflexivity|].
  destruct (m =? 2); [destruct (Date.is_leap y)|destruct (_ || _)]; lia.
Qed.

(** What [strftime] writes of a date, character by character. *)
Lemma iso_shape (d : date) :
  Date.make (year d) (month d) (day d) = Some d ->
  1000 <= year d ->
  exists c1 c2 c3 c4 c5 c6 c7 c8,
    Date.strftime_Y_m_d d = Tables.str4 c1 c2 c3 c4 (IsoTables.iso_tail c5 c6 c7 c8)
    /\ Tables.digits8 c1 c2 c3 c4 c5 c6 c7 c8
    /\ Tables.denoted8 c1 c2 c3 c4 c5 c6 c7 c8 = Some d
    /\ Tables.in_range c5 c6 c7 c8 = true.
Proof.
  intros V Hy. pose proof (make_some _ _ _ _ V) as (_ & Y & M & Dd).
  destruct (str_of_year (year d) ltac:(lia))
    as (c1 & c2 & c3 & c4 & E1 & D1 & D2 & D3 & D4 & N1).
  destruct (zero_pad_small (month d) ltac:(lia)) as (c5 & c6 & E2 & D5 & D6 & N2).
  destruct (zero_pad_small (day d) ltac:(lia)) as (c7 & c8 & E3 & D7 & D8 & N3).
  exists c1, c2, c3, c4, c5, c6, c7, c8.
  split; [unfold Date.strftime_Y_m_d; now rewrite E1, E2, E3|].
  split; [repeat split; assumption|].
  split; [unfold Tables.denoted8; now rewrite N1, N2, N3|].
  unfold Tables.in_range. rewrite <- !number_two, N2, N3.
  apply andb_true_intro; split; [apply andb_true_intro; split;
    [apply andb_true_intro; split|]|]; lia.
Qed.

Section IsoDigits.

Variables c1 c2 c3 c4 c5 c6 c7 c8 : ascii.
Hypothesis D : Tables.digits8 c1 c2 c3 c4 c5 c6 c7 c8.
Hypothesis R : Tables.in_range c5 c6 c7 c8 = true.

Lemma strptime_Y_m_d_iso :
  Strptime.Y_m_d (Tables.str4 c1 c2 c3 c4 (IsoTables.iso_tail c5 c6 c7 c8))
  = Tables.denoted8 c1 c2 c3 c4 c5 c6 c7 c8.
Proof.
  destruct D as (D1 & D2 & D3 & D4 & D5 & D6 & D7 & D8).
  pose proof (for_digits4_forall _ tail_table c5 c6 c7 c8 D5 D6 D7 D8) as T.
  unfold IsoTables.tail_ok in T. rewrite R in T. cbn [negb orb] in T.
  unfold Strptime.Y_m_d.
  rewrite (match_year_group c1 c2 c3 c4 _ _ D1 D2 D3 D4).
  destruct (Strptime.match_directives _ (IsoTables.iso_tail c5 c6 c7 c8))
    as [[[|l1 [|m [|l2 [|dd [|? ?]]]]] [|? ?]]|]; try discriminate T.
  apply andb_prop in T as [->%String.eqb_eq ->%String.eqb_eq].
  now apply date_of_groups_str8.
Qed.

Lemma strptime_Ymd_iso :
  Strptime.Ymd (Tables.str4 c1 c2 c3 c4 (IsoTables.iso_tail c5 c6 c7 c8)) = None.
Proof.
  destruct D as (D1 & D2 & D3 & D4 & _).
  unfold Strptime.Ymd.
  now rewrite (match_year_group c1 c2 c3 c4 _ _ D1 D2 D3 D4).
Qed.

Lemma match_8_digits_iso :
  Regex.match_8_digits (Tables.str4 c1 c2 c3 c4 (IsoTables.iso_tail c5 c6 c7 c8))
  = false.
Proof.
  destruct D as (D1 & D2 & D3 & D4 & _).
  unfold Regex.match_8_digits, Tables.str4, IsoTables.iso_tail.
  cbn [Regex.digits]. now rewrite D1, D2, D3, D4.
Qed.

Lemma strip_iso :
  Py.strip (Tables.str4 c1 c2 c3 c4 (IsoTables.iso_tail c5 c6 c7 c8))
  = Tables.str4 c1 c2 c3 c4 (IsoTables.iso_tail c5 c6 c7 c8).
Proof.
  destruct D as (D1 & _ & _ & _ & _ & _ & _ & D8).
  unfold Py.strip, Tables.str4, IsoTables.iso_tail, Tables.two.
  cbn [Py.lstrip]. rewrite (digit_not_space c1 D1).
  cbn [Py.rstrip]. now rewrite (digit_not_space c8 D8).
Qed.

End IsoDigits.

Lemma falsy_str4 c1 c2 c3 c4 tail : Py.falsy (Tables.str4 c1 c2 c3 c4 tail) = false.
Proof. reflexivity. Qed.

Lemma strptime_Y_m_d_of_iso (d : date) :
  Date.make (year d) (month d) (day d) = Some d ->
  1000 <= year d ->
  Strptime.Y_m_d (Date.strftime_Y_m_d d) = Some d.
Proof.
  intros V Hy.
  destruct (iso_shape d V Hy) as (c1 & c2 & c3 & c4 & c5 & c6 & c7 & c8 & -> & D & E & R).
  now rewrite strptime_Y_m_d_iso.
Qed.

Lemma secure2_parse_either_iso (d : date) :
  Date.make (year d) (month d) (day d) = Some d ->
  1000 <= year d ->
  Secure2.parse_either (Date.strftime_Y_m_d d) = Some d.
Proof.
  intros V Hy.
  destruct (iso_shape d V Hy) as (c1 & c2 & c3 & c4 & c5 & c6 & c7 & c8 & -> & D & E & R).
  unfold Secure2.parse_either, Secure2.parse_yyyymmdd.
  rewrite falsy_str4, match_8_digits_iso by assumption. cbn [negb].
  now rewrite strptime_Y_m_d_iso.
Qed.

(** X15.  A date written in the ISO form parses back to itself.  For every
    calendar date from the year 1000 on, the text YYYY-MM-DD that the
    handlers put in their answers is accepted by the date helpers a write
    goes through and denotes the same date: [parse_html_date] of the
    original, the two attempts ([parse_api_date], then [parse_html_date]) of
    its POST and PUT, the two attempts of secure_code_2, and
    [parse_yyyymmdd] of secure_code_4 without a call of dateutil. *)
Theorem iso_date_parses_back (d : date) :
  Date.make (year d) (month d) (day d) = Some d ->
  1000 <= year d ->
  Original.parse_html_date (Some (Date.strftime_Y_m_d d)) = Some d
  /\ Original.first_date (Original.parse_api_date (Some (Date.strftime_Y_m_d d)))
       (Original.parse_html_date (Some (Date.strftime_Y_m_d d))) = Some d
  /\ Secure2.parse_either (Date.strftime_Y_m_d d) = Some d
  /\ forall dateparse, Secure4.parse_yyyymmdd dateparse (Date.strftime_Y_m_d d) = Some d.
Proof.
  intros V Hy.
  split; [|split; [|split; [now apply secure2_parse_either_iso|]]];
    destruct (iso_shape d V Hy)
      as (c1 & c2 & c3 & c4 & c5 & c6 & c7 & c8 & -> & D & E & R).
  - unfold Original.parse_html_date. rewrite falsy_str4.
    now rewrite strptime_Y_m_d_iso.
  - unfold Original.parse_html_date, Original.parse_api_date.
    rewrite falsy_str4, match_8_digits_iso by assumption. cbn [negb].
    now rewrite strptime_Y_m_d_iso.
  - intros dateparse. unfold Secure4.parse_yyyymmdd.
    rewrite falsy_str4. cbn zeta.
    rewrite strip_iso by assumption.
    rewrite strptime_Ymd_iso by assumption.
    rewrite strptime_Y_m_d_iso by assumption. now rewrite E.
Qed.

Lemma iso_date_parses_back_witness :
  Original.parse_html_date (Some (Date.strftime_Y_m_d (mkdate 2020 2 29)))
  = Some (mkdate 2020 2 29)
  /\ Original.first_date
       (Original.parse_api_date (Some (Date.strftime_Y_m_d (mkdate 2020 2 29))))
       (Original.parse_html_date (Some (Date.strftime_Y_m_d (mkdate 2020 2 29))))
     = Some (mkdate 2020 2 29)
  /\ Secure2.parse_either (Date.strftime_Y_m_d (mkdate 2020 2 29)) = Some (mkdate 2020 2 29)
  /\ forall dateparse,
      Secure4.parse_yyyymmdd dateparse (Date.strftime_Y_m_d (mkdate 2020 2 29))
      = Some (mkdate 2020 2 29).
Proof.
  apply (iso_date_parses_back (mkdate 2020 2 29)); [reflexivity | cbn; lia].
Defined.

(** ** secure_code_2: writing back what was read *)

Lemma secure2_body_of_to_dict (b : Secure2.Book) :
  let body := StoreSpec.body_of (Secure2.to_dict b) in
  body !! "Book_Title" = Some (JStr (Secure2.Book_Title b))
  /\ body !! "Book_Author" = Some (JStr (Secure2.Book_Author b))
  /\ body !! "Book_Genre" = Some (JStr (Secure2.Book_Genre b))
  /\ body !! "Book_Publication"
     = Some (JStr (text_or_empty (Secure2.Book_Publication b)))
  /\ body !! "Book_Description"
     = Some (JStr (text_or_empty (Secure2.Book_Description b)))
  /\ body !! "Book_Publication_Date"
     = Some (JStr (match Secure2.Book_Publication_Date b with
                   | Some d => Date.strftime_Y_m_d d
                   | None => EmptyString
                   end)).
Proof. repeat split; vm_compute; reflexivity. Qed.

Lemma substring_all n s : (String.length s <= n)%nat -> substring 0 n s = s.
Proof.
  revert n. induction s as [|c s IH]; intros [|n] H; cbn in *;
    try reflexivity; try lia.
  f_equal. apply IH. lia.
Qed.

Lemma slice_all n s : StoreSpec.within n s -> Py.slice 0 n s = s.
Proof.
  unfold StoreSpec.within, Py.slice. rewrite Nat.sub_0_r. apply substring_all.
Qed.

Lemma slice_all_opt n s :
  StoreSpec.within_opt n s -> Py.slice 0 n (text_or_empty s) = text_or_empty s.
Proof.
  destruct s as [x|]; [apply slice_all|]. intros _.
  unfold Py.slice. now destruct n.
Qed.

(** What PUT makes of a book when the body is the object GET returned. *)
Lemma secure2_put_fields_back (b : Secure2.Book) :
  Py.falsy (Secure2.Book_Title b) = false ->
  Py.falsy (Secure2.Book_Author b) = false ->
  Py.falsy (Secure2.Book_Genre b) = false ->
  StoreSpec.secure2_book_fits b ->
  StoreSpec.storable_date (Secure2.Book_Publication_Date b) ->
  exists b',
    Secure2.put_fields (StoreSpec.body_of (Secure2.to_dict b)) b = (b', [])
    /\ Secure2.to_dict b' = Secure2.to_dict b.
Proof.
  intros T A G (F1 & F2 & F3 & F4 & F5) S.
  destruct (secure2_body_of_to_dict b) as (L1 & L2 & L3 & L4 & L5 & L6).
  cbn zeta in L1, L2, L3, L4, L5, L6.
  unfold Secure2.put_fields, Secure2.put_date, Secure2.put_text,
    Secure2.put_required.
  rewrite L1, L2, L3, L4, L5, L6. cbn [Json.truthy Json.str fst snd].
  rewrite T, A, G. cbn [negb fst snd].
  rewrite (slice_all _ _ F1), (slice_all _ _ F2), (slice_all _ _ F3),
    (slice_all_opt _ _ F4), (slice_all_opt _ _ F5).
  destruct b as [id title author genre pub [day|] desc];
    cbn [Secure2.Book_Publication_Date StoreSpec.storable_date] in *.
  - destruct S as [V Hy]. rewrite (secure2_parse_either_iso day V Hy).
    cbn [is_some negb andb fst snd]. eexists. split; [reflexivity|].
    destruct pub, desc; reflexivity.
  - change (Secure2.parse_either EmptyString) with (@None date).
    cbn [is_some negb andb Py.falsy fst snd]. eexists. split; [reflexivity|].
    destruct pub, desc; reflexivity.
Qed.

(** X16.  Writing back to secure_code_2 what was read from it changes
    nothing a client can see.  For a stored book with a non-empty title,
    author and genre, texts within their columns and a date from the year
    1000 on or none, a PUT whose body is the object GET returned is answered
    200 with that same object, and GET returns it afterwards. *)
Theorem secure2_put_back_what_get_returned (d : Secure2.db) (id : Z)
    (b : Secure2.Book) :
  Sql.get Secure2.Book_ID id (Secure2.books d) = Some b ->
  Py.falsy (Secure2.Book_Title b) = false ->
  Py.falsy (Secure2.Book_Author b) = false ->
  Py.falsy (Secure2.Book_Genre b) = false ->
  StoreSpec.secure2_book_fits b ->
  StoreSpec.storable_date (Secure2.Book_Publication_Date b) ->
  exists o d',
    Secure2.api_book_item_GET d id = (JsonObject o, 200)
    /\ Secure2.api_book_item_PUT d id (StoreSpec.send_back o) = ((JsonObject o, 200), d')
    /\ Secure2.api_book_item_GET d' id = (JsonObject o, 200).
Proof.
  intros G T A Ge F S.
  destruct (secure2_put_fields_back b T A Ge F S) as (b' & E & Eo).
  unfold Secure2.api_book_item_GET at 1. rewrite G.
  eexists _, _. split; [reflexivity|].
  unfold Secure2.api_book_item_PUT. rewrite G.
  cbn [StoreSpec.send_back is_json get_json negb]. rewrite E.
  split; [now rewrite Eo|].
  unfold Secure2.api_book_item_GET. cbn [Secure2.books].
  rewrite (get_replace Secure2.Book_ID id _ b b' G); [now rewrite Eo|].
  pose proof (secure2_put_fields_id (StoreSpec.body_of (Secure2.to_dict b)) b) as I.
  rewrite E in I. cbn [fst] in I. apply get_some in G as [_ Ek]. congruence.
Qed.

Lemma secure2_put_back_what_get_returned_witness :
  exists o d',
    Secure2.api_book_item_GET Samples.secure2_db 3 = (JsonObject o, 200)
    /\ Secure2.api_book_item_PUT Samples.secure2_db 3 (StoreSpec.send_back o)
       = ((JsonObject o, 200), d')
    /\ Secure2.api_book_item_GET d' 3 = (JsonObject o, 200).
Proof.
  apply (secure2_put_back_what_get_returned Samples.secure2_db 3
           (Secure2.mkBook 3 "I, Robot" "Isaac Asimov" "Science Fiction" None
              (Some (mkdate 2020 1 1)) None));
    try reflexivity.
  - repeat split; unfold StoreSpec.within; cbn; lia.
  - split; [reflexivity | cbn; lia].
Defined.

(** ** secure_code_4: the list of books and the cascade of a deletion *)

Lemma limit_offset_length {row : Type} (rows items : list row) (limit offset : Z) :
  0 <= limit ->
  Sql.offset offset rows ≫= Sql.limit limit = Some items ->
  Z.of_nat (length items) <= limit /\ (length items <= length rows)%nat.
Proof.
  intros H. rewrite limit_offset_run.
  destruct (_ && _); [|discriminate]. intros [= <-].
  destruct (Z.ltb_spec limit 0) as [|_]; [lia|].
  rewrite length_firstn, length_skipn. lia.
Qed.

Lemma Sorted_filter {row : Type} (key : row -> Z) (p : row -> bool) rows :
  Sorted (fun a b => key a <= key b) rows ->
  Sorted (fun a b => key a <= key b) (List.filter p rows).
Proof.
  intros S. apply Sorted_StronglySorted in S; [|intros a b c; lia].
  apply StronglySorted_Sorted.
  induction S as [|x rows S IH F]; cbn [List.filter]; [constructor|].
  destruct (p x); [|exact IH].
  constructor; [exact IH|].
  apply List.Forall_forall. intros y Hy. apply filter_In in Hy as [Hy _].
  now apply (proj1 (List.Forall_forall _ _) F).
Qed.

Lemma filter_perm {row : Type} (p : row -> bool) (l l' : list row) :
  Permutation l l' -> Permutation (List.filter p l) (List.filter p l').
Proof.
  induction 1 as [|x l l' _ IH|x y l|l l' l'' _ IH1 _ IH2]; cbn [List.filter].
  - constructor.
  - destruct (p x); [now constructor | exact IH].
  - destruct (p x), (p y); try apply Permutation_refl. apply perm_swap.
  - now apply (Permutation_trans IH1).
Qed.

Lemma filter_order_by_selection {row : Type} (key : row -> Z) (p : row -> bool) rows :
  PageSpec.is_ordered_selection key p rows (List.filter p (Sql.order_by key rows)).
Proof.
  split.
  - apply filter_perm, order_by_perm.
  - apply Sorted_filter, order_by_sorted.
Qed.

(** X17.  A list of books of secure_code_4 is a bounded page.  Whatever the
    query string and whatever dateutil makes of an unusual date, when the
    request is answered with a page, the limit lies between 1 and 100 and
    the offset is not negative; the books returned are the window at that
    offset and limit of the stored books within the date range in ascending
    order of id; count is their number, at most the limit and at most
    total; and total is the number of all books within the range, whatever
    the window. *)
Theorem secure4_books_page (dateparse : string -> option date) (d : Secure4Api.db)
    (args : gmap string string) (p : Secure4Api.page) :
  Secure4Api.api_books_GET dateparse d args = Secure4Api.Page p ->
  1 <= Secure4Api.limit p <= Secure4.MAX_LIMIT
  /\ 0 <= Secure4Api.offset p
  /\ Secure4Api.count p = Z.of_nat (length (Secure4Api.items p))
  /\ Secure4Api.count p <= Secure4Api.limit p
  /\ Secure4Api.count p <= Secure4Api.total p
  /\ exists after before rows window,
       Secure4Api.parse_arg dateparse (args !! "after_date") = Some after
       /\ Secure4Api.parse_arg dateparse (args !! "before_date") = Some before
       /\ PageSpec.is_ordered_selection Secure4Api.Book.id
            (Secure4Api.date_filter after before) (Secure4Api.books d) rows
       /\ Secure4Api.total p = Z.of_nat (length rows)
       /\ PageSpec.is_window rows (Secure4Api.offset p) (Secure4Api.limit p) window
       /\ Secure4Api.items p = List.map (Secure4Api.book_to_dict d) window.
Proof.
  unfold Secure4Api.api_books_GET.
  pose proof (secure4_clamp_limit_bounds (args !! "limit")) as L.
  assert (O : 0 <= snd (Secure4.api_pagination_params args)).
  { unfold Secure4.api_pagination_params. cbn [snd].
    destruct (arg_int args "offset" 0) as [o|]; [|lia].
    destruct (Z.ltb_spec o 0); lia. }
  unfold Secure4.api_pagination_params in *. cbn [snd] in O. cbn zeta.
  set (limit := Secure4.clamp_limit (args !! "limit")) in *.
  set (offset := match arg_int args "offset" 0 with
                 | Some o => if o <? 0 then 0 else o
                 | None => 0
                 end) in *.
  destruct (Secure4Api.parse_arg dateparse (args !! "after_date")) as [after|];
    [|discriminate].
  destruct (Secure4Api.parse_arg dateparse (args !! "before_date")) as [before|];
    [|discriminate].
  set (rows := List.filter _ (Sql.order_by _ _)).
  destruct (Sql.offset offset rows ≫= Sql.limit limit) as [window|] eqn:E;
    [|discriminate].
  intros [= <-].
  cbn [Secure4Api.limit Secure4Api.offset Secure4Api.count Secure4Api.total
       Secure4Api.items].
  destruct (limit_offset_length rows window limit offset ltac:(lia) E) as [H1 H2].
  split; [exact L|]. split; [exact O|].
  split; [now rewrite length_map|]. split; [exact H1|]. split; [lia|].
  exists after, before, rows, window.
  split; [reflexivity|]. split; [reflexivity|].
  split; [apply filter_order_by_selection|]. split; [reflexivity|].
  split; [|reflexivity].
  pose proof E as E'. rewrite limit_offset_run in E'.
  destruct (Sql.is_int64 offset) eqn:Bo; [|discriminate E'].
  destruct (Sql.is_int64 limit) eqn:Bl; [|discriminate E'].
  apply (is_int64_nonneg offset O) in Bo.
  apply (is_int64_nonneg limit ltac:(lia)) in Bl.
  destruct (limit_offset_window rows offset limit ltac:(lia) ltac:(lia))
    as (w & Ew & W).
  rewrite E in Ew. now injection Ew as <-.
Qed.

Lemma secure4_books_page_witness :
  exists p,
    Secure4Api.api_books_GET (fun _ => None) MoreSamples.secure4_db
      (Samples.query [("limit", "1000"); ("offset", "-3"); ("after_date", "1940-01-01")])
    = Secure4Api.Page p
    /\ Secure4Api.limit p = 100 /\ Secure4Api.offset p = 0
    /\ Secure4Api.count p <= Secure4Api.limit p
    /\ Secure4Api.count p <= Secure4Api.total p.
Proof.
  eexists. split; [vm_compute; reflexivity|].
  split; [reflexivity|]. split; [reflexivity|].
  match goal with
  | |- context [Secure4Api.count ?p] =>
      destruct (secure4_books_page (fun _ => None) MoreSamples.secure4_db
                  (Samples.query [("limit", "1000"); ("offset", "-3");
                                  ("after_date", "1940-01-01")]) p)
        as (_ & _ & _ & A & B & _)
  end; [vm_compute; reflexivity|].
  split; [exact A | exact B].
Defined.

Lemma secure4_genre_DELETE_cases (d : Secure4Api.db) (id : Z) :
  snd (Secure4Api.api_genre_item_DELETE d id) = d
  \/ snd (Secure4Api.api_genre_item_DELETE d id)
     = Secure4Api.mkdb
         (List.filter (fun b => negb (Secure4Api.Book.genre_id b =? id))
            (Secure4Api.books d))
         (Sql.remove Secure4Api.Genre.id id (Secure4Api.genres d))
         (Secure4Api.authors d).
Proof.
  unfold Secure4Api.api_genre_item_DELETE.
  destruct (Sql.get Secure4Api.Genre.id id (Secure4Api.genres d)) as [g|] eqn:G;
    [|now left].
  apply get_some in G as [_ ->]. now right.
Qed.

Lemma secure4_author_DELETE_cases (d : Secure4Api.db) (id : Z) :
  snd (Secure4Api.api_author_item_DELETE d id) = d
  \/ snd (Secure4Api.api_author_item_DELETE d id)
     = Secure4Api.mkdb
         (List.filter (fun b => negb (Secure4Api.Book.author_id b =? id))
            (Secure4Api.books d))
         (Secure4Api.genres d)
         (Sql.remove Secure4Api.Author.id id (Secure4Api.authors d)).
Proof.
  unfold Secure4Api.api_author_item_DELETE.
  destruct (Sql.get Secure4Api.Author.id id (Secure4Api.authors d)) as [a|] eqn:G;
    [|now left].
  apply get_some in G as [_ ->]. now right.
Qed.

(** X18.  Deleting a genre or an author of secure_code_4 takes its books
    with it and leaves no reference to nothing: when every stored book names
    a stored author and a stored genre, this still holds after the DELETE,
    and the books stored afterwards are exactly the books stored before that
    do not name the row of the request. *)
Theorem secure4_delete_cascades (d : Secure4Api.db) (id : Z) :
  StoreSpec.secure4_references_ok d ->
  (StoreSpec.secure4_references_ok (snd (Secure4Api.api_genre_item_DELETE d id))
   /\ forall b, In b (Secure4Api.books (snd (Secure4Api.api_genre_item_DELETE d id)))
                <-> In b (Secure4Api.books d) /\ Secure4Api.Book.genre_id b <> id)
  /\ (StoreSpec.secure4_references_ok (snd (Secure4Api.api_author_item_DELETE d id))
      /\ forall b,
           In b (Secure4Api.books (snd (Secure4Api.api_author_item_DELETE d id)))
           <-> In b (Secure4Api.books d) /\ Secure4Api.Book.author_id b <> id).
Proof.
  unfold StoreSpec.secure4_references_ok. intros OK. split; split.
  - destruct (secure4_genre_DELETE_cases d id) as [->| ->]; [exact OK|].
    cbn [Secure4Api.books]. apply List.Forall_forall. intros b Hb.
    apply filter_In in Hb as [Hb N]. apply negb_true_iff, Z.eqb_neq in N.
    destruct (proj1 (List.Forall_forall _ _) OK b Hb) as [A G].
    split; cbn [Secure4Api.authors Secure4Api.genres]; [exact A|].
    rewrite get_remove_other by congruence. exact G.
  - intros b. unfold Secure4Api.api_genre_item_DELETE.
    destruct (Sql.get Secure4Api.Genre.id id (Secure4Api.genres d)) as [g|] eqn:G.
    + apply get_some in G as [_ ->]. cbn [snd Secure4Api.books].
      rewrite filter_In, negb_true_iff, Z.eqb_neq. reflexivity.
    + cbn [snd]. split; [|now intros [H _]].
      intros Hb. split; [exact Hb|]. intros E.
      destruct (proj1 (List.Forall_forall _ _) OK b Hb) as [_ S].
      rewrite E, G in S. discriminate S.
  - destruct (secure4_author_DELETE_cases d id) as [->| ->]; [exact OK|].
    cbn [Secure4Api.books]. apply List.Forall_forall. intros b Hb.
    apply filter_In in Hb as [Hb N]. apply negb_true_iff, Z.eqb_neq in N.
    destruct (proj1 (List.Forall_forall _ _) OK b Hb) as [A G].
    split; cbn [Secure4Api.authors Secure4Api.genres]; [|exact G].
    rewrite get_remove_other by congruence. exact A.
  - intros b. unfold Secure4Api.api_author_item_DELETE.
    destruct (Sql.get Secure4Api.Author.id id (Secure4Api.authors d)) as [a|] eqn:G.
    + apply get_some in G as [_ ->]. cbn [snd Secure4Api.books].
      rewrite filter_In, negb_true_iff, Z.eqb_neq. reflexivity.
    + cbn [snd]. split; [|now intros [H _]].
      intros Hb. split; [exact Hb|]. intros E.
      destruct (proj1 (List.Forall_forall _ _) OK b Hb) as [S _].
      rewrite E, G in S. discriminate S.
Qed.

Lemma secure4_delete_cascades_witness :
  StoreSpec.secure4_references_ok
    (snd (Secure4Api.api_genre_item_DELETE MoreSamples.secure4_db 2))
  /\ forall b,
      In b (Secure4Api.books (snd (Secure4Api.api_genre_item_DELETE
                                     MoreSamples.secure4_db 2)))
      <-> In b (Secure4Api.books MoreSamples.secure4_db)
          /\ Secure4Api.Book.genre_id b <> 2.
Proof.
  apply (secure4_delete_cascades MoreSamples.secure4_db 2). repeat constructor.
Defined.

(** ** secure_code_3: the date helper and the list of books *)

Lemma length_str8 c1 c2 c3 c4 c5 c6 c7 c8 :
  String.length (Tables.str8 c1 c2 c3 c4 c5 c6 c7 c8 EmptyString) = 8%nat.
Proof. reflexivity. Qed.

(** X19.  [parse_api_date] of secure_code_3, whatever the text of the
    errors of [strptime].  A string that has not 8 characters is refused
    with the message "date must be in yyyymmdd format".  On a string of 8
    digits the result is the calendar date the digits denote and no error,
    or no date and the error of [strptime] when they denote none.  A date
    and an error never come together, nor is either missing.  The converse
    of the second point fails: 8 characters that are not 8 digits can be
    accepted, as a day written with a space is. *)
Theorem secure3_parse_api_date_contract (strptime_error : string -> string)
    (s : string) :
  (String.length s <> 8%nat ->
   Secure3Api.parse_api_date strptime_error s
   = (None, Some "date must be in yyyymmdd format"))
  /\ (DateSpec.is_yyyymmdd s = true ->
      Secure3Api.parse_api_date strptime_error s
      = match DateSpec.denoted_date s with
        | Some d => (Some d, None)
        | None => (None, Some (strptime_error s))
        end)
  /\ is_some (fst (Secure3Api.parse_api_date strptime_error s))
     = negb (is_some (snd (Secure3Api.parse_api_date strptime_error s)))
  /\ (DateSpec.is_yyyymmdd "202001 5" = false
      /\ Secure3Api.parse_api_date strptime_error "202001 5"
         = (Some (mkdate 2020 1 5), None)).
Proof.
  split; [|split; [|split]].
  - intros N. unfold Secure3Api.parse_api_date.
    destruct (Nat.eqb_spec (String.length s) 8); [contradiction | reflexivity].
  - intros Y.
    destruct (is_yyyymmdd_shape s Y) as (c1 & c2 & c3 & c4 & c5 & c6 & c7 & c8 & -> & D).
    unfold Secure3Api.parse_api_date.
    rewrite length_str8. cbn [Nat.eqb negb].
    now rewrite (strptime_Ymd_str8 _ _ _ _ _ _ _ _ D), (denoted_date_str8 _ _ _ _ _ _ _ _ D).
  - unfold Secure3Api.parse_api_date.
    destruct (negb _); [reflexivity|]. now destruct (Strptime.Ymd s).
  - split; reflexivity.
Qed.

Lemma secure3_parse_api_date_contract_witness :
  Secure3Api.parse_api_date (fun _ => "day is out of range for month") "2020-01-01"
  = (None, Some "date must be in yyyymmdd format")
  /\ Secure3Api.parse_api_date (fun _ => "day is out of range for month") "20200229"
     = (Some (mkdate 2020 2 29), None)
  /\ Secure3Api.parse_api_date (fun _ => "day is out of range for month") "20210229"
     = (None, Some "day is out of range for month").
Proof.
  split; [|split].
  - apply (proj1 (secure3_parse_api_date_contract _ "2020-01-01")). discriminate.
  - apply (proj1 (proj2 (secure3_parse_api_date_contract
                           (fun _ => "day is out of range for month") "20200229"))).
    reflexivity.
  - apply (proj1 (proj2 (secure3_parse_api_date_contract
                           (fun _ => "day is out of range for month") "20210229"))).
    reflexivity.
Defined.

(** X20.  A list of books of secure_code_3, when limit and offset convert
    to integers and the date arguments are accepted.  The limit the query
    runs with is at most 100 and the offset is not negative.  When SQLite
    can bind both (the limit is not below -2^63 and the offset is below
    2^63) the answer is a page: total is the number of all stored books the
    date filters select, whatever the window; the items are books among
    these in ascending order of id, starting at the offset; with a limit
    that is not negative they are the window of that limit, 100 books at
    most; and with a negative limit, which the handler lets through, they
    are all the selected books from the offset on.  Otherwise the query
    raises and the request fails. *)
Theorem secure3_books_collection (strptime_error : string -> string)
    (books : list Secure3Api.Book) (args : gmap string string)
    (limit offset : Z) (after before : Secure3Api.bound) :
  Secure3.pagination args = Some (limit, offset) ->
  Secure3Api.date_arg strptime_error (args !! "after_date") = inl after ->
  Secure3Api.date_arg strptime_error (args !! "before_date") = inl before ->
  limit <= 100 /\ 0 <= offset
  /\ (- 2 ^ 63 <= limit -> offset < 2 ^ 63 ->
      exists rows window,
        PageSpec.is_ordered_selection Secure3Api.Book_ID
          (fun b => Secure3Api.passes (fun x d => Date.leb d x) after b
                    && Secure3Api.passes (fun x d => Date.leb x d) before b)
          books rows
        /\ Secure3Api.api_books_collection_GET strptime_error books args
           = Secure3Api.Page (Z.of_nat (length rows)) limit offset
               (List.map Secure3Api.to_dict window)
        /\ (0 <= limit ->
            PageSpec.is_window rows offset limit window
            /\ (length window <= 100)%nat)
        /\ (limit < 0 -> window = skipn (Z.to_nat offset) rows))
  /\ (limit < - 2 ^ 63 \/ 2 ^ 63 <= offset ->
      Secure3Api.api_books_collection_GET strptime_error books args
      = Secure3Api.Failed).
Proof.
  intros P A B.
  assert (Hb : limit <= 100 /\ 0 <= offset).
  { unfold Secure3.pagination, Secure3.MAX_PAGE_SIZE in P.
    destruct (arg_int args "limit" _) as [l|]; [|discriminate P].
    destruct (arg_int args "offset" 0) as [o|]; [|discriminate P].
    injection P as <- <-. lia. }
  split; [apply Hb|]. split; [apply Hb|].
  unfold Secure3Api.api_books_collection_GET.
  rewrite P, A, B. unfold Secure3Api.paginate_query.
  set (rows := Sql.order_by _ _).
  rewrite limit_offset_run.
  assert (Io : Sql.is_int64 offset = true <-> offset < 2 ^ 63)
    by (apply is_int64_nonneg, Hb).
  assert (Il : Sql.is_int64 limit = true <-> - 2 ^ 63 <= limit).
  { unfold Sql.is_int64. change (- 2 ^ 63) with (-9223372036854775808).
    rewrite andb_true_iff, !Z.leb_le. lia. }
  split.
  - intros Hl Ho. rewrite (proj2 Io Ho), (proj2 Il Hl). cbn [andb].
    exists rows. eexists. split; [apply order_by_selection|].
    split; [reflexivity|]. split.
    + intros H. destruct (Z.ltb_spec limit 0); [lia|].
      split.
      * intros i. rewrite nth_error_firstn, nth_error_skipn.
        destruct (Nat.ltb_spec i (Z.to_nat limit)), (Z.ltb_spec (Z.of_nat i) limit);
          try reflexivity; lia.
      * rewrite length_firstn. lia.
    + intros H. destruct (Z.ltb_spec limit 0); [reflexivity | lia].
  - intros H.
    destruct (Sql.is_int64 offset) eqn:Eo; [|reflexivity].
    destruct (Sql.is_int64 limit) eqn:El; [|reflexivity].
    pose proof (proj1 Io eq_refl). pose proof (proj1 Il eq_refl). lia.
Qed.

Lemma secure3_books_collection_witness :
  (exists rows window,
      Secure3Api.api_books_collection_GET (fun _ => "unconverted data remains")
        MoreSamples.secure3_books
        (Samples.query [("limit", "-1"); ("after_date", "19000101")])
      = Secure3Api.Page (Z.of_nat (length rows)) (-1) 0
          (List.map Secure3Api.to_dict window)
      /\ window = skipn (Z.to_nat 0) rows)
  /\ Secure3Api.api_books_collection_GET (fun _ => "unconverted data remains")
       MoreSamples.secure3_books
       (Samples.query [("offset", "9223372036854775808")])
     = Secure3Api.Failed.
Proof.
  split.
  - destruct (secure3_books_collection (fun _ => "unconverted data remains")
                MoreSamples.secure3_books
                (Samples.query [("limit", "-1"); ("after_date", "19000101")])
                (-1) 0 (Secure3Api.Bound (Some (mkdate 1900 1 1))) Secure3Api.NoBound)
      as (_ & _ & W & _);
      [vm_compute; reflexivity | vm_compute; reflexivity | vm_compute; reflexivity|].
    destruct (W ltac:(vm_compute; discriminate) ltac:(reflexivity))
      as (rows & window & _ & E & _ & S).
    exists rows, window. split; [exact E | apply S; lia].
  - apply (secure3_books_collection (fun _ => "unconverted data remains")
             MoreSamples.secure3_books
             (Samples.query [("offset", "9223372036854775808")])
             10 9223372036854775808 Secure3Api.NoBound Secure3Api.NoBound);
      [vm_compute; reflexivity | vm_compute; reflexivity | vm_compute; reflexivity
      | right; vm_compute; discriminate].
Defined.

(** ** remove_3: the fields of a JSON body *)

Lemma rstrip_cons (c : ascii) (s : string) :
  Py.rstrip (String c s)
  = match Py.rstrip s with
    | EmptyString => if Py.is_space c then EmptyString else String c EmptyString
    | r => String c r
    end.
Proof. reflexivity. Qed.

Lemma rstrip_idempotent (s : string) : Py.rstrip (Py.rstrip s) = Py.rstrip s.
Proof.
  induction s as [|c s IH]; [reflexivity|].
  rewrite rstrip_cons. destruct (Py.rstrip s) as [|c' r] eqn:E.
  - destruct (Py.is_space c) eqn:Sp; [reflexivity|].
    rewrite rstrip_cons. cbn [Py.rstrip]. now rewrite Sp.
  - rewrite rstrip_cons, IH. reflexivity.
Qed.

Lemma rstrip_head (c : ascii) (s : string) :
  Py.is_space c = false ->
  exists r, Py.rstrip (String c s) = String c r.
Proof.
  intros Sp. rewrite rstrip_cons. destruct (Py.rstrip s) as [|c' r].
  - rewrite Sp. now exists EmptyString.
  - now exists (String c' r).
Qed.

Lemma lstrip_shape (s : string) :
  Py.lstrip s = EmptyString
  \/ exists c t, Py.lstrip s = String c t /\ Py.is_space c = false.
Proof.
  induction s as [|c s IH]; [now left|].
  cbn [Py.lstrip]. destruct (Py.is_space c) eqn:Sp; [exact IH|].
  right. now exists c, s.
Qed.

Lemma strip_idempotent (s : string) : Py.strip (Py.strip s) = Py.strip s.
Proof.
  unfold Py.strip.
  destruct (lstrip_shape s) as [->|(c & t & -> & Sp)]; [reflexivity|].
  destruct (rstrip_head c t Sp) as [r E].
  assert (L : Py.lstrip (Py.rstrip (String c t)) = Py.rstrip (String c t)).
  { rewrite E. cbn [Py.lstrip]. now rewrite Sp. }
  rewrite L. apply rstrip_idempotent.
Qed.

(** X21.  [get_json_field] of remove_3 on texts.  A text it returns comes
    without an error, is the stripped text of the body, has no white space
    left at either end, and is not longer than a positive [maxlen]: a text
    that is too long is refused, never cut.  And [required] asks for the
    key only: a text of white space alone is returned as the empty text,
    without an error, for a required field too. *)
Theorem remove3_get_json_field_text (data : gmap string json) (name : string)
    (required : bool) (maxlen : option Z) :
  (forall s,
      fst (Remove3Api.get_json_field data name required maxlen) = Some (JStr s) ->
      snd (Remove3Api.get_json_field data name required maxlen) = None
      /\ (exists raw, data !! name = Some (JStr raw) /\ s = Py.strip raw)
      /\ Py.strip s = s
      /\ forall n, maxlen = Some n -> 0 < n -> Z.of_nat (String.length s) <= n)
  /\ (forall raw,
      data !! name = Some (JStr raw) -> Py.strip raw = EmptyString ->
      match maxlen with Some n => 0 <= n | None => True end ->
      Remove3Api.get_json_field data name required maxlen
      = (Some (JStr EmptyString), None)).
Proof.
  unfold Remove3Api.get_json_field. split.
  - intros s.
    destruct (data !! name) as [[|b|n|raw]|] eqn:L;
      try (destruct required; discriminate); try discriminate.
    cbn zeta.
    assert (K : forall r : option json * option string,
               r = (Some (JStr (Py.strip raw)), None) ->
               fst r = Some (JStr s) ->
               snd r = None
               /\ (exists raw0, Some (JStr raw) = Some (JStr raw0) /\ s = Py.strip raw0)
               /\ Py.strip s = s).
    { intros r -> [= <-]. split; [reflexivity|]. split; [now exists raw|].
      apply strip_idempotent. }
    destruct maxlen as [m|].
    + destruct (negb (m =? 0) && (m <? Z.of_nat (String.length (Py.strip raw))))
        eqn:C; [discriminate|].
      intros H. destruct (K _ eq_refl H) as (K1 & K2 & K3).
      repeat split; try assumption.
      intros n [= <-] Hn. cbn [fst] in H. injection H as <-.
      apply andb_false_iff in C as [C|C].
      * apply negb_false_iff, Z.eqb_eq in C. lia.
      * apply Z.ltb_ge in C. exact C.
    + intros H. destruct (K _ eq_refl H) as (K1 & K2 & K3).
      repeat split; try assumption. discriminate.
  - intros raw -> E Hm. cbn zeta. rewrite E.
    destruct maxlen as [n|]; [|reflexivity].
    replace (n <? Z.of_nat (String.length EmptyString)) with false
      by (symmetry; apply Z.ltb_ge; cbn; lia).
    now rewrite andb_false_r.
Qed.

Lemma remove3_get_json_field_text_witness :
  Remove3Api.get_json_field (list_to_map [("Book_Title", JStr "   ")]) "Book_Title"
    true (Some 300)
  = (Some (JStr EmptyString), None)
  /\ Py.strip "Dune" = "Dune".
Proof.
  split.
  - apply (proj2 (remove3_get_json_field_text
                    (list_to_map [("Book_Title", JStr "   ")]) "Book_Title" true
                    (Some 300)) "   "); [reflexivity | reflexivity | lia].
  - apply (proj1 (remove3_get_json_field_text
                    (list_to_map [("Book_Title", JStr " Dune ")]) "Book_Title" true
                    (Some 300)) "Dune").
    reflexivity.
Defined.

(** ** The simulation: identifiers kept encrypted *)

Section LatestRow.

Context {row : Type}.
Variable key : row -> Z.

Lemma insert_sorted_before_last (r x : row) (rows : list row) :
  key r < key x ->
  Sql.insert_sorted key r (rows ++ [x]) = Sql.insert_sorted key r rows ++ [x].
Proof.
  intros Lt. induction rows as [|y rows IH]; cbn [Sql.insert_sorted app].
  - destruct (Z.leb_spec (key r) (key x)); [reflexivity | lia].
  - destruct (key r <=? key y); [reflexivity|]. now rewrite IH.
Qed.

Lemma order_by_new_last (rows : list row) (x : row) :
  (forall r, In r rows -> key r < key x) ->
  Sql.order_by key (rows ++ [x]) = Sql.order_by key rows ++ [x].
Proof.
  unfold Sql.order_by. induction rows as [|r rows IH]; intros H; [reflexivity|].
  cbn [app fold_right]. rewrite IH by (intros y Hy; apply H; now right).
  apply insert_sorted_before_last. apply H. now left.
Qed.

End LatestRow.

Section StoredIds.

Context {L : Micro.Library} {C : Storage.Codec}.

Hypothesis decrypt_encrypt :
  forall e data, Storage.fernet_decrypt (Storage.fernet_encrypt e data) = Some data.
Hypothesis decode_encode :
  forall s, Storage.bytes_decode (Storage.str_encode s) = Some s.

Lemma latest_after_store (ids : list Storage.id_row) (x : Storage.id_row)
    (type : string) :
  Storage.row_id x = Sql.next_id Storage.row_id ids ->
  Storage.latest (ids ++ [x]) type
  = if String.eqb (Storage.id_type x) type then Some x else Storage.latest ids type.
Proof.
  intros Hid. unfold Storage.latest. rewrite List.filter_app. cbn [List.filter].
  destruct (String.eqb (Storage.id_type x) type); [|now rewrite app_nil_r].
  rewrite order_by_new_last.
  - now rewrite rev_app_distr.
  - intros r Hr. apply filter_In in Hr as [Hr _]. rewrite Hid.
    now apply next_id_above.
Qed.

(** X22.  An identifier [StorageMS] stores is the one it retrieves.
    [store_id] accepts exactly the types "parcel" and "car" with a value of
    256 characters at most, and then appends one row.  After it,
    [retrieve_latest_id] of the same type passes the integrity check of the
    stored token, decrypts it and returns the value that was stored;
    [retrieve_latest_id] of the other type returns what it returned before.
    This holds for every HMAC, every cipher whose [decrypt] undoes
    [encrypt], and every codec whose [decode] undoes [encode]. *)
Theorem stored_id_is_retrieved (self : Micro.Service) (ids : list Storage.id_row)
    (e : Storage.entropy) (now : Z) (type value : string) :
  (String.eqb type "parcel" || String.eqb type "car") = true ->
  (String.length value <= 256)%nat ->
  exists a ids',
    Storage.store_id self ids e now type value = Some (a, ids')
    /\ length ids' = S (length ids)
    /\ Storage.retrieve_latest_id self ids' type = Storage.Id value
    /\ forall other,
        other <> type ->
        Storage.retrieve_latest_id self ids' other
        = Storage.retrieve_latest_id self ids other.
Proof.
  intros T Len. unfold Storage.store_id. rewrite T. cbn [negb].
  destruct (Nat.ltb_spec 256 (String.length value)) as [|_]; [lia|].
  cbn zeta. eexists _, _. split; [reflexivity|].
  split; [rewrite length_app; cbn; lia|].
  unfold Storage.retrieve_latest_id. split.
  - rewrite latest_after_store by reflexivity.
    cbn [Storage.id_type]. rewrite String.eqb_refl.
    cbn [Storage.id_encrypted Storage.mac].
    rewrite hmac_verify_hmac_sign. cbn [negb].
    now rewrite decrypt_encrypt, decode_encode.
  - intros other N. rewrite latest_after_store by reflexivity.
    cbn [Storage.id_type].
    destruct (String.eqb_spec type other); [congruence | reflexivity].
Qed.

End StoredIds.

Lemma stored_id_is_retrieved_witness :
  exists a ids',
    @Storage.store_id Samples.toy_library MoreSamples.toy_codec
      (Micro.mkService "Storage_MS" (list_ascii_of_string "k2") []) [] tt 100
      "parcel" "P-123"
    = Some (a, ids')
    /\ @Storage.retrieve_latest_id Samples.toy_library MoreSamples.toy_codec
         (Micro.mkService "Storage_MS" (list_ascii_of_string "k2") []) ids' "parcel"
       = Storage.Id "P-123".
Proof.
  destruct (@stored_id_is_retrieved Samples.toy_library MoreSamples.toy_codec
              ltac:(reflexivity)
              ltac:(intros s; cbn; now rewrite string_of_list_ascii_of_string)
              (Micro.mkService "Storage_MS" (list_ascii_of_string "k2") []) [] tt 100
              "parcel" "P-123" eq_refl ltac:(cbn; lia))
    as (a & ids' & E & _ & R & _).
  exists a, ids'. split; [exact E | exact R].
Defined.

(** ** secure_code_2: reading a genre or an author after a write *)

(** A PUT answered 200: the row is stored, and the answer is the row as it
    is when the store is as it was, or the row that replaces it. *)
Lemma secure2_genre_PUT_ok (d : Secure2.db) (id : Z) (rq : request) (o : obj)
    (d' : Secure2.db) :
  Secure2Items.api_genre_item_PUT d id rq = ((JsonObject o, 200), d') ->
  exists g,
    Sql.get Secure2.Genre_ID id (Secure2.genres d) = Some g
    /\ ((o = Secure2.genre_to_dict g /\ d' = d)
        \/ exists g',
             Secure2.Genre_ID g' = Secure2.Genre_ID g
             /\ o = Secure2.genre_to_dict g'
             /\ d' = Secure2.mkdb (Secure2.books d)
                       (Sql.replace Secure2.Genre_ID g' (Secure2.genres d))
                       (Secure2.authors d)).
Proof.
  unfold Secure2Items.api_genre_item_PUT, Secure2Items.put_name,
    Secure2Items.put_sliced.
  destruct (Sql.get Secure2.Genre_ID id (Secure2.genres d)) as [g|]; [|discriminate].
  destruct (negb (is_json rq)); [discriminate|].
  destruct (get_json rq) as [payload|items|v|]; [| | |discriminate].
  - generalize (payload !! "Genre_Name") (payload !! "Genre_Description").
    intros o1 o2. intros E. exists g. split; [reflexivity|]. right. revert E.
    destruct o1 as [v|].
    + destruct (negb (Json.truthy v)); [discriminate|].
      destruct v as [|b|n|s]; try discriminate.
      destruct o2 as [v2|]; [destruct v2; try discriminate|]; cbn zeta;
        (destruct (Secure2Items.rename_conflict _ _ _ _); [discriminate|]);
        intros [= <- <-]; eexists;
        (split; [|split; reflexivity]); reflexivity.
    + destruct o2 as [v2|]; [destruct v2; try discriminate|]; cbn zeta;
        (destruct (Secure2Items.rename_conflict _ _ _ _); [discriminate|]);
        intros [= <- <-]; eexists;
        (split; [|split; reflexivity]); reflexivity.
  - destruct (no_key_in _ _); [|discriminate].
    intros [= <- <-]. exists g. split; [reflexivity|]. now left.
  - destruct (no_key_in _ _); [|discriminate].
    intros [= <- <-]. exists g. split; [reflexivity|]. now left.
Qed.

Lemma secure2_author_PUT_ok (d : Secure2.db) (id : Z) (rq : request) (o : obj)
    (d' : Secure2.db) :
  Secure2Items.api_author_item_PUT d id rq = ((JsonObject o, 200), d') ->
  exists a,
    Sql.get Secure2.Author_ID id (Secure2.authors d) = Some a
    /\ ((o = Secure2.author_to_dict a /\ d' = d)
        \/ exists a',
             Secure2.Author_ID a' = Secure2.Author_ID a
             /\ o = Secure2.author_to_dict a'
             /\ d' = Secure2.mkdb (Secure2.books d) (Secure2.genres d)
                       (Sql.replace Secure2.Author_ID a' (Secure2.authors d))).
Proof.
  unfold Secure2Items.api_author_item_PUT, Secure2Items.put_name,
    Secure2Items.put_sliced.
  destruct (Sql.get Secure2.Author_ID id (Secure2.authors d)) as [a|]; [|discriminate].
  destruct (negb (is_json rq)); [discriminate|].
  destruct (get_json rq) as [payload|items|v|]; [| | |discriminate].
  - generalize (payload !! "Author_Name") (payload !! "Author_Bio").
    intros o1 o2. intros E. exists a. split; [reflexivity|]. right. revert E.
    destruct o1 as [v|].
    + destruct (negb (Json.truthy v)); [discriminate|].
      destruct v as [|b|n|s]; try discriminate.
      destruct o2 as [v2|]; [destruct v2; try discriminate|]; cbn zeta;
        (destruct (Secure2Items.rename_conflict _ _ _ _); [discriminate|]);
        intros [= <- <-]; eexists;
        (split; [|split; reflexivity]); reflexivity.
    + destruct o2 as [v2|]; [destruct v2; try discriminate|]; cbn zeta;
        (destruct (Secure2Items.rename_conflict _ _ _ _); [discriminate|]);
        intros [= <- <-]; eexists;
        (split; [|split; reflexivity]); reflexivity.
  - destruct (no_key_in _ _); [|discriminate].
    intros [= <- <-]. exists a. split; [reflexivity|]. now left.
  - destruct (no_key_in _ _); [|discriminate].
    intros [= <- <-]. exists a. split; [reflexivity|]. now left.
Qed.

(** X23.  A PUT on a genre or an author of secure_code_2 that is answered
    200 is what GET returns afterwards for that row; GET answers as before
    for every other row of the table; and the books are as they were, those
    that carry the old name included, since a book holds the name of its
    genre and of its author as text. *)
Theorem secure2_named_put_then_get (d : Secure2.db) (id : Z) (rq : request)
    (o : obj) (d' : Secure2.db) :
  (Secure2Items.api_genre_item_PUT d id rq = ((JsonObject o, 200), d') ->
   Secure2Items.api_genre_item_GET d' id = (JsonObject o, 200)
   /\ (forall id', id' <> id ->
         Secure2Items.api_genre_item_GET d' id' = Secure2Items.api_genre_item_GET d id')
   /\ Secure2.books d' = Secure2.books d)
  /\ (Secure2Items.api_author_item_PUT d id rq = ((JsonObject o, 200), d') ->
      Secure2Items.api_author_item_GET d' id = (JsonObject o, 200)
      /\ (forall id', id' <> id ->
            Secure2Items.api_author_item_GET d' id'
            = Secure2Items.api_author_item_GET d id')
      /\ Secure2.books d' = Secure2.books d).
Proof.
  split; intros E.
  - destruct (secure2_genre_PUT_ok d id rq o d' E)
      as (g & G & [[-> ->]|(g' & Hid & -> & ->)]);
      apply get_some in G as G'; destruct G' as [_ Ek];
      unfold Secure2Items.api_genre_item_GET; cbn [Secure2.genres Secure2.books].
    + rewrite G. now repeat split.
    + split; [|split; [|reflexivity]].
      * rewrite (get_replace Secure2.Genre_ID id _ g g' G); [reflexivity | congruence].
      * intros id' N. rewrite get_replace_other; [reflexivity | congruence].
  - destruct (secure2_author_PUT_ok d id rq o d' E)
      as (a & G & [[-> ->]|(a' & Hid & -> & ->)]);
      apply get_some in G as G'; destruct G' as [_ Ek];
      unfold Secure2Items.api_author_item_GET; cbn [Secure2.authors Secure2.books].
    + rewrite G. now repeat split.
    + split; [|split; [|reflexivity]].
      * rewrite (get_replace Secure2.Author_ID id _ a a' G); [reflexivity | congruence].
      * intros id' N. rewrite get_replace_other; [reflexivity | congruence].
Qed.

Lemma secure2_named_put_then_get_witness :
  Secure2Items.api_genre_item_GET
    (snd (Secure2Items.api_genre_item_PUT Samples.secure2_db 2
            (Samples.create_named "Genre_Name" "SF"))) 2
  = (JsonObject [("Genre_ID", VInt 2); ("Genre_Name", VStr "SF");
                 ("Genre_Description", VStr EmptyString)], 200)
  /\ Secure2.books
       (snd (Secure2Items.api_genre_item_PUT Samples.secure2_db 2
               (Samples.create_named "Genre_Name" "SF")))
     = Secure2.books Samples.secure2_db.
Proof.
  destruct (proj1 (secure2_named_put_then_get Samples.secure2_db 2
                     (Samples.create_named "Genre_Name" "SF")
                     [("Genre_ID", VInt 2); ("Genre_Name", VStr "SF");
                      ("Genre_Description", VStr EmptyString)]
                     (snd (Secure2Items.api_genre_item_PUT Samples.secure2_db 2
                             (Samples.create_named "Genre_Name" "SF"))))
              ltac:(vm_compute; reflexivity)) as (A & _ & B).
  split; [exact A | exact B].
Defined.

(** ** secure_code_2: a title of white space *)

(** X24.  The required fields of a new book of secure_code_2 are tested
    before they are stripped.  A POST whose title is a non-empty text of
    white space alone, with an author and a genre that count as present and
    no publication date, is answered 201, and the book it stores has the
    empty text as title. *)
Theorem secure2_post_blank_title_stored_empty (d : Secure2.db) (rq : request)
    (payload : gmap string json) (raw : string) :
  is_json rq = true ->
  get_json rq = JObject payload ->
  payload !! "Book_Title" = Some (JStr raw) ->
  Py.falsy raw = false ->
  Py.strip raw = EmptyString ->
  payload_truthy payload "Book_Author" = true ->
  payload_truthy payload "Book_Genre" = true ->
  payload_truthy payload "Book_Publication_Date" = false ->
  exists b,
    Secure2.api_books_POST d rq
    = ((JsonObject (Secure2.to_dict b), 201),
       Secure2.mkdb (Secure2.books d ++ [b]) (Secure2.genres d) (Secure2.authors d))
    /\ Secure2.Book_Title b = EmptyString.
Proof.
  intros J Hp T F S A G D.
  assert (Tt : payload_truthy payload "Book_Title" = true).
  { unfold payload_truthy. rewrite T. cbn [Json.truthy]. now rewrite F. }
  unfold Secure2.api_books_POST, Secure2.required_errors.
  rewrite J, Hp, D. cbn [negb fold_left]. rewrite Tt, A, G. cbn [negb].
  eexists. split; [reflexivity|].
  cbn [Secure2.Book_Title]. unfold payload_str. rewrite T. cbn [Json.str].
  now rewrite S.
Qed.

Lemma secure2_post_blank_title_stored_empty_witness :
  exists b,
    Secure2.api_books_POST Samples.secure2_db
      (mkreq ∅ true
         (JObject
            (list_to_map [("Book_Title", JStr "  "); ("Book_Author", JStr "A");
                          ("Book_Genre", JStr "G")])))
    = ((JsonObject (Secure2.to_dict b), 201),
       Secure2.mkdb (Secure2.books Samples.secure2_db ++ [b])
         (Secure2.genres Samples.secure2_db) (Secure2.authors Samples.secure2_db))
    /\ Secure2.Book_Title b = EmptyString.
Proof.
  apply (secure2_post_blank_title_stored_empty Samples.secure2_db
           (mkreq ∅ true
              (JObject
                 (list_to_map [("Book_Title", JStr "  "); ("Book_Author", JStr "A");
                               ("Book_Genre", JStr "G")])))
           (list_to_map [("Book_Title", JStr "  "); ("Book_Author", JStr "A");
                         ("Book_Genre", JStr "G")]) "  ");
    reflexivity.
Defined.
